(** * Bitbucket operator scripts: a shallow embedding and its properties

    The four scripts of the repository ([bitbucket_cloud_audit.py],
    [bitbucket_code_search_replace.py], [bitbucket_repo_info.py] and
    [create_bitbucket_project.py]) are embedded as functions in a small
    state-and-exception monad.  The state is the text written to standard
    output together with the chronological trace of the effects the script
    performed (HTTP requests, git commands, file writes, prompts).
    Everything the scripts obtain from outside (HTTP responses, git
    outcomes, the working tree, the random source) is an explicit
    environment argument. *)

From Stdlib Require Import List String Ascii ZArith Lia Bool Arith.
From Stdlib.Strings Require Import Byte.
From Stdlib Require Import DecimalString DecimalZ Permutation.
Import ListNotations.
Set Warnings "-register-all,-automation".
Local Open Scope string_scope.
Local Open Scope list_scope.

Infix "+++" := String.append (right associativity, at level 60).

(** ** Python values and exceptions *)

(** Parsed JSON, as [response.json()] delivers it: [None], [bool], [int],
    [str], [list] and [dict] (a [dict] keeps its insertion order; numbers
    are the integral ones). *)
Inductive json : Type :=
| JNull
| JBool (b : bool)
| JNum (n : Z)
| JStr (s : string)
| JArr (items : list json)
| JObj (fields : list (string * json)).

Definition bytes := list byte.

(** The exceptions the scripts can meet.  [KeyError] carries the missing
    string key, [KeyErrorInt] a missing integer key. *)
Inductive exn : Type :=
| KeyError (key : string)
| KeyErrorInt (key : Z)
| IndexError
| TypeError
| AttributeError
| JSONDecodeError
| RequestException (msg : string)
| GitCommandError (msg : string)
| OSError (msg : string)
| Exception (msg : string).

Definition str_int (n : Z) : string := NilZero.string_of_int (Z.to_int n).

(** [str(e)]; for the built-in errors that carry no text in this model the
    message is abbreviated. *)
Definition exn_str (e : exn) : string :=
  match e with
  | KeyError k => "'" +++ k +++ "'"
  | KeyErrorInt k => str_int k
  | IndexError => "list index out of range"
  | TypeError => "TypeError"
  | AttributeError => "AttributeError"
  | JSONDecodeError => "Expecting value: line 1 column 1 (char 0)"
  | RequestException m | GitCommandError m | OSError m | Exception m => m
  end.

Inductive method : Type := GET | POST | PUT.

(** The arguments of [requests.request] that the scripts vary: method, URL,
    basic-auth pair, query parameters and JSON (or form) payload. *)
Record request : Type := mkRequest {
  meth : method;
  url : string;
  auth : option (string * string);
  params : list (string * string);
  payload : option json
}.

(** What [requests] hands back: the status, the raw body, and the body
    parsed as JSON ([None] when the body is not JSON, in which case
    [response.json()] raises). *)
Record response : Type := mkResponse {
  status_code : Z;
  text : string;
  json_body : option json
}.

(** The effects a script performs on the outside world, in the order it
    performs them. *)
Inductive event : Type :=
| Http (rq : request)
| GitClone (repo_url local_path : string)
| GitOpen (local_path : string)
| GitCreateHead (local_path branch : string)
| GitSetHead (local_path branch : string)
| GitAdd (local_path : string)
| GitCommit (local_path message : string)
| GitPush (local_path branch : string)
| FileRead (path : string)
| FileWrite (path : string) (content : bytes)
| Rmdir (path : string)
| Sleep (seconds : Z)
| Input (prompt : string).

(** The remote platform: given what happened so far, a request either fails
    in transport or is answered. *)
Definition server := list event -> request -> exn + response.

(** ** The monad of script runs *)

Inductive outcome (A : Type) : Type :=
| Ok (a : A)
| Raise (e : exn)
| OutOfFuel.
Arguments Ok {A} a.
Arguments Raise {A} e.
Arguments OutOfFuel {A}.

Record log : Type := mkLog { stdout : list string; trace : list event }.

Definition empty_log : log := mkLog [] [].

Definition M (A : Type) : Type := log -> outcome A * log.

Definition ret {A} (a : A) : M A := fun l => (Ok a, l).

Definition raise {A} (e : exn) : M A := fun l => (Raise e, l).

Definition out_of_fuel {A} : M A := fun l => (OutOfFuel, l).

Definition bind {A B} (m : M A) (k : A -> M B) : M B :=
  fun l =>
    match m l with
    | (Ok a, l') => k a l'
    | (Raise e, l') => (Raise e, l')
    | (OutOfFuel, l') => (OutOfFuel, l')
    end.

Notation "x <- m ;; k" := (bind m (fun x => k))
  (at level 61, m at next level, right associativity).
Notation "m ;;; k" := (bind m (fun _ => k))
  (at level 61, right associativity).

(** [try: m except <filter> as e: handler e]; an exception the filter
    rejects propagates untouched. *)
Definition try_except {A} (m : M A) (catches : exn -> bool) (handler : exn -> M A) : M A :=
  fun l =>
    match m l with
    | (Raise e, l') => if catches e then handler e l' else (Raise e, l')
    | r => r
    end.

Definition nl : string := String "010" EmptyString.

(** [sys.stdout.write(s)], also [print(s, end = '')] *)
Definition write_out (s : string) : M unit :=
  fun l => (Ok tt, mkLog (stdout l ++ [s]) (trace l)).

(** [print(s)] *)
Definition print (s : string) : M unit := write_out (s +++ nl).

(** A [for] loop whose body updates the local variables [s]. *)
Fixpoint for_each {A S} (xs : list A) (body : A -> S -> M S) (s : S) : M S :=
  match xs with
  | [] => ret s
  | x :: xs' => s' <- body x s ;; for_each xs' body s'
  end.

(** ** Python operations on parsed JSON *)

Fixpoint assoc {A} (k : string) (kvs : list (string * A)) : option A :=
  match kvs with
  | [] => None
  | (k', v) :: kvs' => if String.eqb k k' then Some v else assoc k kvs'
  end.

Fixpoint chars (s : string) : list json :=
  match s with
  | EmptyString => []
  | String c s' => JStr (String c EmptyString) :: chars s'
  end.

(** [if v:] *)
Definition truthy (v : json) : bool :=
  match v with
  | JNull => false
  | JBool b => b
  | JNum n => negb (n =? 0)%Z
  | JStr s => negb (String.eqb s "")
  | JArr l => match l with [] => false | _ => true end
  | JObj l => match l with [] => false | _ => true end
  end.

(** [v[k]] for a string key *)
Definition subscript (v : json) (k : string) : M json :=
  match v with
  | JObj kvs => match assoc k kvs with Some x => ret x | None => raise (KeyError k) end
  | _ => raise TypeError
  end.

(** [v[i]] for a non-negative integer index *)
Definition subscript_int (v : json) (i : nat) : M json :=
  match v with
  | JArr l => match nth_error l i with Some x => ret x | None => raise IndexError end
  | JStr s => match nth_error (chars s) i with Some x => ret x | None => raise IndexError end
  | JObj _ => raise (KeyErrorInt (Z.of_nat i))
  | _ => raise TypeError
  end.

(** [v.get(k)] and [v.get(k, default)] *)
Definition py_get (v : json) (k : string) (default : json) : M json :=
  match v with
  | JObj kvs => ret (match assoc k kvs with Some x => x | None => default end)
  | _ => raise AttributeError
  end.

(** [for x in v]: the sequence a [for] loop walks. *)
Definition py_iter (v : json) : M (list json) :=
  match v with
  | JArr l => ret l
  | JObj kvs => ret (map (fun kv => JStr (fst kv)) kvs)
  | JStr s => ret (chars s)
  | _ => raise TypeError
  end.

Definition response_json (r : response) : M json :=
  match json_body r with
  | Some j => ret j
  | None => raise JSONDecodeError
  end.

Definition http (srv : server) (rq : request) : M response :=
  fun l =>
    let l' := mkLog (stdout l) (trace l ++ [Http rq]) in
    match srv (trace l) rq with
    | inl e => (Raise e, l')
    | inr r => (Ok r, l')
    end.

(** [str(v)], as an f-string renders a value; the text of a list or dict
    is left to [container_str]. *)
Definition py_str (container_str : json -> string) (v : json) : string :=
  match v with
  | JNull => "None"
  | JBool true => "True"
  | JBool false => "False"
  | JNum n => str_int n
  | JStr s => s
  | _ => container_str v
  end.

Record BitbucketAuthentication : Type := mkCredentials {
  username : string;
  password : string
}.

Definition basic (credentials : BitbucketAuthentication) : option (string * string) :=
  Some (username credentials, password credentials).

(** ** bitbucket_cloud_audit.py *)

Module Audit.
Section Audit.
(** The module globals the collectors read. *)
Variables (bitbucket_url workspace : string).
Variable srv : server.
(** [str(v)] of a list or dict inside an f-string; its text is left open. *)
Variable container_str : json -> string.

Definition print_status (message : string) : M unit := write_out message.

Definition api_get_request (credentials : BitbucketAuthentication) (endpoint : json) : M json :=
  response <- http srv (mkRequest GET (py_str container_str endpoint) (basic credentials) [] None) ;;
  if (status_code response =? 200)%Z then response_json response
  else
    let error_message := "Failed to retrieve data. Status code: " +++ str_int (status_code response) in
    raise (Exception error_message).

(** The inner loop shared by both collectors:
    [for group in groups['values']: groups_info.append(...)]. *)
Definition groups_info_of (groups : json) : M (list json) :=
  values <- subscript groups "values" ;;
  items <- py_iter values ;;
  for_each items (fun group groups_info =>
    g <- subscript group "group" ;;
    slug <- subscript g "slug" ;;
    permission <- subscript group "permission" ;;
    ret (groups_info ++ [JObj [("slug", slug); ("permission", permission)]])) [].

Definition repository_groups_endpoint (repo_slug : json) : json :=
  JStr (bitbucket_url +++ "/2.0/repositories/" +++ workspace +++ "/" +++ py_str container_str repo_slug
          +++ "/permissions-config/groups").

(** The body of the [for repository in ...] loop. *)
Definition repository_body (credentials : BitbucketAuthentication)
    (repository : json) (repositories : list json) : M (list json) :=
  slug <- subscript repository "slug" ;;
  description <- subscript repository "description" ;;
  mainbranch <- subscript repository "mainbranch" ;;
  main_branchname <- subscript mainbranch "name" ;;
  is_private <- subscript repository "is_private" ;;
  project <- subscript repository "project" ;;
  project_key <- subscript project "key" ;;
  repo_slug <- subscript repository "slug" ;;
  groups <- api_get_request credentials (repository_groups_endpoint repo_slug) ;;
  groups_info <- groups_info_of groups ;;
  let repository_info :=
    JObj [("slug", slug); ("description", description);
          ("main_branchname", main_branchname); ("is_private", is_private);
          ("project_key", project_key); ("groups", JArr groups_info)] in
  ret (repositories ++ [repository_info]).

(** [while repositories_endpoint: ...]; one unit of fuel per iteration. *)
Fixpoint repositories_loop (fuel : nat) (credentials : BitbucketAuthentication)
    (repositories_endpoint : json) (repositories : list json) : M (list json) :=
  if truthy repositories_endpoint then
    match fuel with
    | O => out_of_fuel
    | S fuel' =>
        repository_list <- api_get_request credentials repositories_endpoint ;;
        values <- subscript repository_list "values" ;;
        items <- py_iter values ;;
        repositories' <- for_each items (repository_body credentials) repositories ;;
        (* Check if there is a next page *)
        next <- py_get repository_list "next" JNull ;;
        repositories_loop fuel' credentials next repositories'
    end
  else ret repositories.

Definition repositories_endpoint0 : json :=
  JStr (bitbucket_url +++ "/2.0/repositories/" +++ workspace +++ "?pagelen=100").

Definition get_repositories (fuel : nat) (credentials : BitbucketAuthentication) : M (list json) :=
  print_status "Auditing repositories: " ;;;
  repositories <- repositories_loop fuel credentials repositories_endpoint0 [] ;;
  print_status ("Successful" +++ nl) ;;;
  ret repositories.

Definition project_groups_endpoint (project_key : json) : json :=
  JStr (bitbucket_url +++ "/2.0/workspaces/" +++ workspace +++ "/projects/" +++ py_str container_str project_key
          +++ "/permissions-config/groups?pagelen=100").

(** The body of the [for project in ...] loop.  The assignment of the
    next endpoint sits inside this body, so the loop's local variables
    are the pair of the accumulator and the endpoint. *)
Definition project_body (credentials : BitbucketAuthentication) (project_list : json)
    (project : json) (st : list json * json) : M (list json * json) :=
  let projects := fst st in
  name <- subscript project "name" ;;
  key <- subscript project "key" ;;
  description <- subscript project "description" ;;
  project_key <- subscript project "key" ;;
  groups <- api_get_request credentials (project_groups_endpoint project_key) ;;
  groups_info <- groups_info_of groups ;;
  let project_info :=
    JObj [("name", name); ("key", key); ("description", description);
          ("groups", JArr groups_info)] in
  (* Check if there is a next page *)
  next <- py_get project_list "next" JNull ;;
  ret (projects ++ [project_info], next).

Fixpoint projects_loop (fuel : nat) (credentials : BitbucketAuthentication)
    (projects_endpoint : json) (projects : list json) : M (list json) :=
  if truthy projects_endpoint then
    match fuel with
    | O => out_of_fuel
    | S fuel' =>
        project_list <- api_get_request credentials projects_endpoint ;;
        values <- subscript project_list "values" ;;
        items <- py_iter values ;;
        st <- for_each items (project_body credentials project_list)
                (projects, projects_endpoint) ;;
        projects_loop fuel' credentials (snd st) (fst st)
    end
  else ret projects.

Definition projects_endpoint0 : json :=
  JStr (bitbucket_url +++ "/2.0/workspaces/" +++ workspace +++ "/projects?pagelen=100").

Definition get_projects (fuel : nat) (credentials : BitbucketAuthentication) : M (list json) :=
  print_status "Auditing projects: " ;;;
  projects <- projects_loop fuel credentials projects_endpoint0 [] ;;
  print_status ("Successful" +++ nl) ;;;
  ret projects.

Definition groups_endpoint : json :=
  JStr (bitbucket_url +++ "/1.0/groups/" +++ workspace).

(** The body of [for group in group_list]. *)
Definition group_body (group : json) (groups : list json) : M (list json) :=
  name <- subscript group "name" ;;
  slug <- subscript group "slug" ;;
  members <- subscript group "members" ;;
  items <- py_iter members ;;
  member_info <- for_each items (fun member member_info =>
    display_name <- subscript member "display_name" ;;
    account_id <- subscript member "account_id" ;;
    ret (member_info
           ++ [JObj [("display_name", display_name); ("account_id", account_id)]])) [] ;;
  let group_info := JObj [("name", name); ("slug", slug); ("members", JArr member_info)] in
  ret (groups ++ [group_info]).

Definition get_groups (credentials : BitbucketAuthentication) : M (list json) :=
  print_status "Auditing groups: " ;;;
  group_list <- api_get_request credentials groups_endpoint ;;
  items <- py_iter group_list ;;
  groups <- for_each items group_body [] ;;
  print_status ("Successful" +++ nl) ;;;
  ret groups.

(** [yaml.dump(bitbucket_config, default_flow_style=False, sort_keys=False)];
    the rendering is left open. *)
Variable yaml_dump : json -> string.
(** Whether opening and writing the output file succeeds. *)
Variable write_text : list event -> string -> string -> option exn.

(** The main block once the arguments, the configuration and the
    credentials have been read: the three collectors, the report, and the
    handler [except Exception as e: print(f'Error: {str(e)}')]. *)
Definition main (fuel : nat) (credentials : BitbucketAuthentication) (output_file : string)
    : M unit :=
  try_except
    (groups <- get_groups credentials ;;
     repositories <- get_repositories fuel credentials ;;
     projects <- get_projects fuel credentials ;;
     let bitbucket_config :=
       JObj [("groups", JArr groups); ("repositories", JArr repositories);
             ("projects", JArr projects)] in
     (* Generate a YAML report and write it to the specified output file. *)
     print_status "Generating YAML report: " ;;;
     let yaml_output := yaml_dump bitbucket_config in
     (fun l =>
        let l' := mkLog (stdout l)
                    (trace l ++ [FileWrite output_file (list_byte_of_string yaml_output)]) in
        match write_text (trace l) output_file yaml_output with
        | Some x => (Raise x, l')
        | None => (Ok tt, l')
        end) ;;;
     print_status ("Successful" +++ nl))
    (fun _ => true)
    (fun e => print ("Error: " +++ exn_str e)).

End Audit.
End Audit.

(** ** bitbucket_repo_info.py *)

(** [a == b] on parsed JSON: [True == 1] and [False == 0] hold, lists
    compare element by element, dicts compare key by key. *)
Fixpoint py_eq (a b : json) {struct a} : bool :=
  match a, b with
  | JNull, JNull => true
  | JBool x, JBool y => Bool.eqb x y
  | JBool x, JNum n => (n =? Z.b2z x)%Z
  | JNum n, JBool x => (n =? Z.b2z x)%Z
  | JNum x, JNum y => (x =? y)%Z
  | JStr x, JStr y => String.eqb x y
  | JArr xs, JArr ys =>
      (fix all2 (xs ys : list json) {struct xs} : bool :=
         match xs, ys with
         | [], [] => true
         | x :: xs', y :: ys' => py_eq x y && all2 xs' ys'
         | _, _ => false
         end) xs ys
  | JObj xs, JObj ys =>
      (List.length xs =? List.length ys)%nat &&
      (fix sub (xs : list (string * json)) : bool :=
         match xs with
         | [] => true
         | (k, v) :: xs' =>
             match assoc k ys with Some w => py_eq v w | None => false end && sub xs'
         end) xs
  | _, _ => false
  end.

(** A list or dict cannot be a dict key. *)
Definition hashable (v : json) : bool :=
  match v with
  | JArr _ | JObj _ => false
  | _ => true
  end.

(** A dict with JSON keys and list values, in insertion order. *)
Definition pydict := list (json * list json).

Fixpoint dict_lookup (k : json) (d : pydict) : option (list json) :=
  match d with
  | [] => None
  | (k', v) :: d' => if py_eq k k' then Some v else dict_lookup k d'
  end.

(** [d[k].append(x)] for a key present in [d]: the entry keeps its place. *)
Fixpoint dict_append (k : json) (x : json) (d : pydict) : pydict :=
  match d with
  | [] => []
  | (k', v) :: d' =>
      if py_eq k k' then (k', v ++ [x]) :: d' else (k', v) :: dict_append k x d'
  end.

Module RepoInfo.
Section RepoInfo.
Variable bitbucket_url : string.
Variable srv : server.
Variable container_str : json -> string.
(** [yaml.dump(d, default_flow_style=False)]; the rendering is left open. *)
Variable yaml_dump : pydict -> string.

Definition default_reviewers_url (project_key repository_slug : string) : string :=
  bitbucket_url +++ "/rest/default-reviewers/1.0/projects/" +++ project_key
    +++ "/repos/" +++ repository_slug +++ "/conditions".

Definition get_default_reviewers (auth : string * string)
    (project_key repository_slug : string) : M (list json) :=
  let url := default_reviewers_url project_key repository_slug in
  response <- http srv (mkRequest GET url (Some auth) [] None) ;;
  response_json <- response_json response ;;
  if (status_code response =? 200)%Z then
    first <- subscript_int response_json 0 ;;
    reviewers <- subscript first "reviewers" ;;
    items <- py_iter reviewers ;;
    for_each items (fun item default_reviewers =>
      displayName <- py_get item "displayName" (JStr "") ;;
      emailAddress <- py_get item "emailAddress" (JStr "") ;;
      let reviewer_info :=
        JObj [("displayName", displayName); ("emailAddress", emailAddress)] in
      ret (default_reviewers ++ [reviewer_info])) []
  else
    print ("Failed to fetch default reviewers. Status code: "
             +++ str_int (status_code response)) ;;;
    ret [].

Definition merge_checks_url (project_key repository_slug : string) : string :=
  bitbucket_url +++ "/rest/api/1.0/projects/" +++ project_key
    +++ "/repos/" +++ repository_slug +++ "/settings/pull-requests".

Definition get_merge_checks (auth : string * string)
    (project_key repository_slug : string) : M (list (string * json)) :=
  let url := merge_checks_url project_key repository_slug in
  response <- http srv (mkRequest GET url (Some auth) [] None) ;;
  response_json <- response_json response ;;
  if (status_code response =? 200)%Z then
    needsWork <- subscript response_json "needsWork" ;;
    requiredAllApprovers <- subscript response_json "requiredAllApprovers" ;;
    requiredAllTasksComplete <- subscript response_json "requiredAllTasksComplete" ;;
    requiredApprovers <- subscript response_json "requiredApprovers" ;;
    requiredSuccessfulBuilds <- subscript response_json "requiredSuccessfulBuilds" ;;
    ret [("No " +++ String "034" "needs work" +++ String "034" " status", needsWork);
         ("All reviewers approve", requiredAllApprovers);
         ("No incomplete tasks", requiredAllTasksComplete);
         ("Minimum Approvals", requiredApprovers);
         ("Minimum successful builds", requiredSuccessfulBuilds)]
  else
    print ("Failed to fetch repository settings. Status code: "
             +++ str_int (status_code response)) ;;;
    ret [].

Definition branch_restrictions_url (project_key repository_slug : string) : string :=
  bitbucket_url +++ "/rest/branch-permissions/2.0/projects/" +++ project_key
    +++ "/repos/" +++ repository_slug +++ "/restrictions".

(** The body of [for item in response_json['values']]. *)
Definition restriction_body (item : json) (branch_restrictions : pydict) : M pydict :=
  matcher <- subscript item "matcher" ;;
  branch_id <- subscript matcher "id" ;;
  restriction <- subscript item "type" ;;
  if hashable branch_id then
    match dict_lookup branch_id branch_restrictions with
    | Some restrictions =>
        if existsb (py_eq restriction) restrictions then ret branch_restrictions
        else ret (dict_append branch_id restriction branch_restrictions)
    | None => ret (branch_restrictions ++ [(branch_id, [restriction])])
    end
  else raise TypeError.

Definition get_branch_restrictions (auth : string * string)
    (project_key repository_slug : string) : M pydict :=
  let url := branch_restrictions_url project_key repository_slug in
  response <- http srv (mkRequest GET url (Some auth) [] None) ;;
  response_json <- response_json response ;;
  if (status_code response =? 200)%Z then
    values <- subscript response_json "values" ;;
    items <- py_iter values ;;
    for_each items restriction_body []
  else
    print ("Failed to fetch branch restrictions. Status code: "
             +++ str_int (status_code response)) ;;;
    ret [].

(** The main script, after argument parsing and [authenticate()]. *)
Definition main (auth : string * string) (project_key repository_slug : string) : M unit :=
  print ("Repository: " +++ repository_slug) ;;;
  default_reviewers <- get_default_reviewers auth project_key repository_slug ;;
  print (nl +++ "Default Reviewers:") ;;;
  for_each default_reviewers (fun reviewer _ =>
    displayName <- subscript reviewer "displayName" ;;
    print ("- Name: " +++ py_str container_str displayName) ;;;
    emailAddress <- subscript reviewer "emailAddress" ;;
    print ("  Email: " +++ py_str container_str emailAddress)) tt ;;;
  merge_checks <- get_merge_checks auth project_key repository_slug ;;
  print (nl +++ "Merge Checks:") ;;;
  for_each merge_checks (fun kv _ =>
    print ("- " +++ fst kv +++ ": " +++ py_str container_str (snd kv))) tt ;;;
  branch_restrictions <- get_branch_restrictions auth project_key repository_slug ;;
  print (nl +++ "Branch Restrictions:") ;;;
  let yaml_output := yaml_dump branch_restrictions in
  print yaml_output.

End RepoInfo.
End RepoInfo.

(** ** create_bitbucket_project.py *)

Definition upper_ascii (c : ascii) : ascii :=
  let n := nat_of_ascii c in
  if ((97 <=? n) && (n <=? 122))%nat then ascii_of_nat (n - 32) else c.

(** [s.upper()] on ASCII text *)
Fixpoint upper (s : string) : string :=
  match s with
  | EmptyString => EmptyString
  | String c s' => String (upper_ascii c) (upper s')
  end.

Module CreateProject.
Section CreateProject.
Variable srv : server.
Variable container_str : json -> string.
(** The random source: [random_sample n s] is what the [n]-th call
    [random.sample(s, len(s))] of the run returns, joined into a string. *)
Variable random_sample : nat -> string -> string.

Definition BASE_URL_V1 : string := "https://api.bitbucket.org/1.0".
Definition BASE_URL_V2 : string := "https://api.bitbucket.org/2.0".

Definition generate_project_key (project_name business_area : string) : string :=
  upper (substring 0 3 business_area) +++ "_" +++ upper (substring 0 3 project_name).

Definition project_url (project_key bitbucket_cloud_workspace : string) : string :=
  BASE_URL_V2 +++ "/workspaces/" +++ bitbucket_cloud_workspace +++ "/projects/" +++ project_key.

Definition check_if_project_exists (project_key bitbucket_cloud_workspace : string) : M bool :=
  response <- http srv (mkRequest GET (project_url project_key bitbucket_cloud_workspace)
                          None [] None) ;;
  if (status_code response =? 200)%Z then ret true
  else if (status_code response =? 404)%Z then ret false
  else
    body <- response_json response ;;
    print ("Error checking project existence: " +++ py_str container_str body) ;;;
    ret false.

(** [while True: ...]; [n] counts the calls of [random.sample] made so
    far, and one unit of fuel is spent per iteration. *)
Fixpoint generate_unique_project_key_from (fuel n : nat)
    (project_name business_area bitbucket_cloud_workspace : string) : M string :=
  match fuel with
  | O => out_of_fuel
  | S fuel' =>
      let shuffled_project_name := random_sample n project_name in
      let project_key :=
        upper (substring 0 3 business_area) +++ "_"
          +++ upper (substring 0 3 shuffled_project_name) in
      exists_ <- check_if_project_exists project_key bitbucket_cloud_workspace ;;
      if negb exists_ then ret project_key
      else generate_unique_project_key_from fuel' (S n)
             project_name business_area bitbucket_cloud_workspace
  end.

Definition generate_unique_project_key (fuel : nat)
    (project_name business_area bitbucket_cloud_workspace : string) : M string :=
  generate_unique_project_key_from fuel 0 project_name business_area bitbucket_cloud_workspace.

(** [create_group_and_set_permission]; [project_key] is the value the
    caller took from the creation response. *)
Definition create_group_and_set_permission (project_key : json)
    (group_name permission : string) (credentials : BitbucketAuthentication)
    (bitbucket_cloud_workspace : string) : M unit :=
  (* Step 1: Create a new group for the workspace *)
  let group_url := BASE_URL_V1 +++ "/groups/" +++ bitbucket_cloud_workspace in
  let group_data := JObj [("name", JStr group_name)] in
  response <- http srv (mkRequest POST group_url (basic credentials) [] (Some group_data)) ;;
  if (status_code response =? 200)%Z then
    print ("Group '" +++ group_name +++ "' created successfully.") ;;;
    (* Step 2: Set permission for the group on the project *)
    body <- response_json response ;;
    group_slug <- py_get body "slug" JNull ;;
    let permission_url :=
      BASE_URL_V2 +++ "/workspaces/" +++ bitbucket_cloud_workspace +++ "/projects/"
        +++ py_str container_str project_key +++ "/permissions-config/groups/"
        +++ py_str container_str group_slug in
    let permission_data := JObj [("permission", JStr permission)] in
    response <- http srv (mkRequest PUT permission_url (basic credentials) []
                            (Some permission_data)) ;;
    if (status_code response =? 200)%Z then
      print ("Permission '" +++ permission +++ "' assigned to group '" +++ group_name
               +++ "' on project '" +++ py_str container_str project_key +++ "'.")
    else
      body <- response_json response ;;
      print ("Error setting permission: " +++ py_str container_str body)
  else
    body <- response_json response ;;
    print ("Error creating group: " +++ py_str container_str body).

Definition create_project_and_groups (fuel : nat) (project_name business_area : string)
    (credentials : BitbucketAuthentication) (bitbucket_cloud_workspace : string) : M unit :=
  (* Step 1: Generate project key *)
  let project_key := generate_project_key project_name business_area in
  (* Step 2: Check if the project key already exists *)
  exists_ <- check_if_project_exists project_key bitbucket_cloud_workspace ;;
  project_key <-
    (if exists_ then
       print ("Project key '" +++ project_key +++ "' already exists. Generating a new one.") ;;;
       generate_unique_project_key fuel project_name business_area bitbucket_cloud_workspace
     else ret project_key) ;;
  (* Step 3: Create the project with the unique key *)
  let project_full_name := business_area +++ "-" +++ project_name in
  let project_data := JObj [("name", JStr project_full_name); ("key", JStr project_key)] in
  let projects_url := BASE_URL_V2 +++ "/workspaces/" +++ bitbucket_cloud_workspace +++ "/projects" in
  response <- http srv (mkRequest POST projects_url (basic credentials) [] (Some project_data)) ;;
  if (status_code response =? 201)%Z then
    print ("Project '" +++ project_full_name +++ "' created successfully.") ;;;
    body <- response_json response ;;
    project_key <- subscript body "key" ;;
    (* Step 4: Define group names and permissions *)
    let development_group := business_area +++ "-" +++ project_name +++ "-Development" in
    let app_support_group := business_area +++ "-" +++ project_name +++ "-AppSupport" in
    (* Step 5: Create groups and set permissions *)
    create_group_and_set_permission project_key development_group "write" credentials
      bitbucket_cloud_workspace ;;;
    create_group_and_set_permission project_key app_support_group "admin" credentials
      bitbucket_cloud_workspace
  else
    body <- response_json response ;;
    print ("Error creating project: " +++ py_str container_str body).

End CreateProject.
End CreateProject.

(** ** bitbucket_code_search_replace.py *)

Definition byte_eqb (a b : byte) : bool := Byte.eqb a b.

(** [s.startswith(p)] on byte strings *)
Fixpoint starts_with (p s : bytes) : bool :=
  match p, s with
  | [], _ => true
  | _ :: _, [] => false
  | a :: p', b :: s' => byte_eqb a b && starts_with p' s'
  end.

(** The scan of [bytes.replace] for a non-empty pattern: a cursor walks
    the content from the left; where the pattern starts, the replacement is
    emitted and the next [skip] bytes (the rest of that occurrence) are
    passed over; every other byte is copied. *)
Fixpoint replace_scan (old new : bytes) (skip : nat) (s : bytes) : bytes :=
  match s with
  | [] => []
  | b :: s' =>
      match skip with
      | S k => replace_scan old new k s'
      | O =>
          if starts_with old s then new ++ replace_scan old new (List.length old - 1) s'
          else b :: replace_scan old new 0 s'
      end
  end.

(** [content.replace(old, new)] on byte strings.  With an empty pattern
    Python inserts the replacement before every byte and at the end. *)
Definition bytes_replace (content old new : bytes) : bytes :=
  match old with
  | [] => new ++ flat_map (fun b => b :: new) content
  | _ :: _ => replace_scan old new 0 content
  end.

(** [s.encode()] on ASCII text *)
Definition encode (s : string) : bytes := list_byte_of_string s.

(** [needle in hay] on strings *)
Fixpoint contains (needle hay : string) : bool :=
  match hay with
  | EmptyString => String.prefix needle EmptyString
  | String _ hay' => String.prefix needle hay || contains needle hay'
  end.

(** [s.split(sep)] for a one-character separator *)
Fixpoint split_on (sep : ascii) (s : string) : list string :=
  match s with
  | EmptyString => [EmptyString]
  | String c s' =>
      if Ascii.eqb c sep then EmptyString :: split_on sep s'
      else
        match split_on sep s' with
        | [] => [String c EmptyString]
        | w :: ws => String c w :: ws
        end
  end.

(** [list(dict.fromkeys(l))]: the keys in order of first insertion *)
Definition fromkeys (l : list string) : list string :=
  fold_left (fun keys k => if existsb (String.eqb k) keys then keys else keys ++ [k]) l [].

(** The machine the workflow runs on.  [run] decides whether a git command,
    a file write, a directory removal or a prompt succeeds; [os_walk] gives
    the [(root, files)] pairs [os.walk] yields; [read_file] the bytes of a
    file.  All of them may depend on what happened before. *)
Record host : Type := mkHost {
  run : list event -> event -> option exn;
  os_walk : list event -> string -> list (string * list string);
  read_file : list event -> string -> exn + bytes;
  os_name : string;
  os_path_join : string -> string -> string
}.

Definition is_git_command_error (e : exn) : bool :=
  match e with GitCommandError _ => true | _ => false end.

Definition any_exception (e : exn) : bool := true.

Module SearchReplace.
Section SearchReplace.
Variable srv : server.
Variable hst : host.
Variable container_str : json -> string.
(** [urlparse(u).path] *)
Variable urlparse_path : string -> string.

Definition perform (e : event) : M unit :=
  fun l =>
    let l' := mkLog (stdout l) (trace l ++ [e]) in
    match run hst (trace l) e with
    | Some x => (Raise x, l')
    | None => (Ok tt, l')
    end.

Definition open_rb (file_path : string) : M bytes :=
  fun l =>
    let l' := mkLog (stdout l) (trace l ++ [FileRead file_path]) in
    match read_file hst (trace l) file_path with
    | inl x => (Raise x, l')
    | inr content => (Ok content, l')
    end.

(** The handler every step function shares:
    [print(f"Failed: {str(e)}"); raise]. *)
Definition failed_reraise {A} (e : exn) : M A :=
  print ("Failed: " +++ exn_str e) ;;; raise e.

Definition clone_repository_try (url local_path : string) : M unit :=
  write_out " - Cloning repository locally: " ;;;
  perform (GitClone url local_path) ;;;
  print "Successful".

Definition clone_repository (url local_path : string) : M unit :=
  try_except (clone_repository_try url local_path) is_git_command_error failed_reraise.

Definition create_and_switch_branch_try (local_repository feature_branch_name : string) : M unit :=
  write_out " - Creating and switching to a new branch: " ;;;
  perform (GitOpen local_repository) ;;;
  perform (GitCreateHead local_repository feature_branch_name) ;;;
  perform (GitSetHead local_repository feature_branch_name) ;;;
  print "Successful".

Definition create_and_switch_branch (local_repository feature_branch_name : string) : M unit :=
  try_except (create_and_switch_branch_try local_repository feature_branch_name)
    is_git_command_error failed_reraise.

(** The body of [for file in files]. *)
Definition update_file (root search_str replace_str : string) (file : string) (_ : unit) : M unit :=
  let file_path := os_path_join hst root file in
  content <- open_rb file_path ;;
  (* Replace the search string with the replace string *)
  let content := bytes_replace content (encode search_str) (encode replace_str) in
  perform (FileWrite file_path content).

Definition skipped (root : string) : bool :=
  contains ".git" root || contains ".terraform" root.

Definition update_references_try (repo_location search_str replace_str : string) : M unit :=
  write_out " - Updating references to the modules: " ;;;
  (fun l =>
     for_each (os_walk hst (trace l) repo_location) (fun entry _ =>
       let root := fst entry in
       let files := snd entry in
       if skipped root then ret tt
       else for_each files (update_file root search_str replace_str) tt) tt l) ;;;
  print "Successful".

Definition update_references (repo_location search_str replace_str : string) : M unit :=
  try_except (update_references_try repo_location search_str replace_str)
    any_exception failed_reraise.

Definition stage_and_commit_try (local_repository commit_message : string) : M unit :=
  write_out " - Staging and committing file: " ;;;
  perform (GitOpen local_repository) ;;;
  perform (GitAdd local_repository) ;;;
  perform (GitCommit local_repository commit_message) ;;;
  print "Successful".

Definition stage_and_commit (local_repository commit_message : string) : M unit :=
  try_except (stage_and_commit_try local_repository commit_message)
    is_git_command_error failed_reraise.

Definition push_changes_try (local_repository feature_branch_name : string) : M unit :=
  write_out " - Pushing changes: " ;;;
  perform (GitOpen local_repository) ;;;
  perform (GitPush local_repository feature_branch_name) ;;;
  print "Successful".

Definition push_changes (local_repository feature_branch_name : string) : M unit :=
  try_except (push_changes_try local_repository feature_branch_name)
    is_git_command_error failed_reraise.

Definition create_pr (credentials : BitbucketAuthentication)
    (pr_title pr_description feature_branch_name base_endpoint workspace repository_slug : string)
    : M unit :=
  write_out " - Creating PR: " ;;;
  let payload :=
    JObj [("title", JStr pr_title); ("description", JStr pr_description);
          ("source", JObj [("branch", JObj [("name", JStr feature_branch_name)])])] in
  let endpoint :=
    base_endpoint +++ "/repositories/" +++ workspace +++ "/" +++ repository_slug
      +++ "/pullrequests" in
  response <- http srv (mkRequest POST endpoint (basic credentials) [] (Some payload)) ;;
  if (status_code response =? 201)%Z then
    print "Successful" ;;;
    pr_data <- response_json response ;;
    links <- subscript pr_data "links" ;;
    html <- subscript links "html" ;;
    pr_url <- subscript html "href" ;;
    print (" - PR URL: " +++ py_str container_str pr_url)
  else
    print ("Failed: " +++ str_int (status_code response) +++ " | " +++ text response).

Definition cleanup_repository (repository : string) : M unit :=
  try_except
    (write_out (" - Cleaning up repository " +++ repository +++ ":") ;;;
     perform (Sleep 5) ;;;
     if String.eqb (os_name hst) "nt" then
       perform (Rmdir repository) ;;;
       print "Successful"
     else print "Skipped - Only supported for Windows OS")
    any_exception
    (fun e => print ("Failed: " +++ exn_str e)).

(** The page loop of the code search; [break] on a failed page leaves the
    loop with what was collected so far. *)
Fixpoint search_loop (fuel : nat) (credentials : BitbucketAuthentication)
    (endpoint : json) (query : string) (all_repositories : list string) : M (list string) :=
  if truthy endpoint then
    match fuel with
    | O => out_of_fuel
    | S fuel' =>
        response <- http srv (mkRequest GET (py_str container_str endpoint)
                                (basic credentials) [("search_query", query)] None) ;;
        if (status_code response =? 200)%Z then
          data <- response_json response ;;
          items_on_page <- py_get data "values" (JArr []) ;;
          items <- py_iter items_on_page ;;
          all_repositories' <- for_each items (fun item all_repositories =>
            file <- subscript item "file" ;;
            links <- subscript file "links" ;;
            self <- subscript links "self" ;;
            href <- subscript self "href" ;;
            path <- match href with
                    | JStr u => ret (urlparse_path u)
                    | _ => raise TypeError
                    end ;;
            parsed_repository <- match nth_error (split_on "/" path) 4 with
                                 | Some segment => ret segment
                                 | None => raise IndexError
                                 end ;;
            ret (all_repositories ++ [parsed_repository])) all_repositories ;;
          (* Check if there is a next page *)
          next <- py_get data "next" JNull ;;
          search_loop fuel' credentials next query all_repositories'
        else
          print ("Failed to retrieve data. Status code: " +++ str_int (status_code response)) ;;;
          ret all_repositories
    end
  else ret all_repositories.

(** The body of [for repository in all_repositories]. *)
Definition mutate_repository (credentials : BitbucketAuthentication)
    (base_endpoint workspace feature_branch_name search_str replace_str
       commit_message pr_title pr_description : string)
    (repository : string) (_ : unit) : M unit :=
  print repository ;;;
  let repo_url_ssh := "git@bitbucket.org:" +++ workspace +++ "/" +++ repository +++ ".git" in
  let local_repository := "tmp_" +++ repository in
  clone_repository repo_url_ssh local_repository ;;;
  create_and_switch_branch local_repository feature_branch_name ;;;
  update_references local_repository search_str replace_str ;;;
  stage_and_commit local_repository commit_message ;;;
  push_changes local_repository feature_branch_name ;;;
  create_pr credentials pr_title pr_description feature_branch_name base_endpoint
    workspace repository ;;;
  cleanup_repository local_repository ;;;
  perform (Input "Press enter to continue").

Definition search_and_update_code (fuel : nat) (credentials : BitbucketAuthentication)
    (base_endpoint workspace query feature_branch_name search_str replace_str
       commit_message pr_title pr_description : string) : M unit :=
  let endpoint := JStr (base_endpoint +++ "/workspaces/" +++ workspace +++ "/search/code") in
  all_repositories <- search_loop fuel credentials endpoint query [] ;;
  let all_repositories := fromkeys all_repositories in
  for_each all_repositories
    (mutate_repository credentials base_endpoint workspace feature_branch_name
       search_str replace_str commit_message pr_title pr_description) tt.

(** The main block once the credentials have been read, with the
    constants the script sets; [except Exception as e] prints and raises
    again. *)
Definition main (fuel : nat) (credentials : BitbucketAuthentication) : M unit :=
  let base_endpoint := "https://api.bitbucket.org/2.0" in
  let workspace := "example-prod" in
  let query := String "034" "1882 tf" +++ String "034" "" in
  let feature_branch_name := "feature/update-module-reference" in
  let search_str := "ssh://git@bitbucket.example.com:1882/tf" in
  let replace_str := "git@bitbucket.org:example-prod" in
  let commit_message := "Updating module references" in
  let pr_title := "Updating module references" in
  let pr_description :=
    "This PR is to update the references to the modules from Bitbucket Server to Bitbucket Cloud." in
  try_except
    (search_and_update_code fuel credentials base_endpoint workspace query
       feature_branch_name search_str replace_str commit_message pr_title pr_description)
    any_exception
    (fun e => print ("Error: " +++ exn_str e) ;;; raise e).

End SearchReplace.
End SearchReplace.

(** * Specification vocabulary *)

(** ** Pages *)

(** The request a collector of the audit script sends for a page. *)
Definition page_request (container_str : json -> string)
    (credentials : BitbucketAuthentication) (endpoint : json) : request :=
  mkRequest GET (py_str container_str endpoint) (basic credentials) [] None.

(** A successful page response: status 200 and a JSON envelope whose
    ['values'] field holds [items] and whose ['next'] field is [next]
    ([None] when the field is absent). *)
Definition is_page (r : response) (items : list json) (next : option json) : Prop :=
  status_code r = 200%Z /\
  exists fields,
    json_body r = Some (JObj fields) /\
    assoc "values" fields = Some (JArr items) /\
    assoc "next" fields = next.

(** A successful response whose envelope has no ['values'] field. *)
Definition lacks_values (r : response) (next : option json) : Prop :=
  status_code r = 200%Z /\
  exists fields,
    json_body r = Some (JObj fields) /\
    assoc "values" fields = None /\
    assoc "next" fields = next.

Definition next_or_none (next : option json) : json :=
  match next with Some e => e | None => JNull end.

(** [serves srv rq_of e pages]: starting at endpoint [e], the server hands
    out exactly the pages [pages] (each an endpoint with its items), every
    page but the last one naming the next endpoint, the last one having no
    ['next'] field. *)
Inductive serves (srv : server) (rq_of : json -> request) : json -> list (json * list json) -> Prop :=
| serves_last e items :
    truthy e = true ->
    (forall h, exists r, srv h (rq_of e) = inr r /\ is_page r items None) ->
    serves srv rq_of e [(e, items)]
| serves_next e items e' rest :
    truthy e = true ->
    (forall h, exists r, srv h (rq_of e) = inr r /\ is_page r items (Some e')) ->
    serves srv rq_of e' rest ->
    serves srv rq_of e ((e, items) :: rest).

(** The request for the groups of a repository item. *)
Definition repository_groups_request (bitbucket_url workspace : string)
    (container_str : json -> string) (credentials : BitbucketAuthentication)
    (item : json) : request :=
  page_request container_str credentials
    (Audit.repository_groups_endpoint bitbucket_url workspace container_str
       (match item with
        | JObj fields => match assoc "slug" fields with Some slug => slug | None => JNull end
        | _ => JNull
        end)).

(** The repository collector turns [item] into [record]: the body of its
    item loop appends [record] and sends the one nested groups request. *)
Definition repository_recorded (bitbucket_url workspace : string) (srv : server)
    (container_str : json -> string) (credentials : BitbucketAuthentication)
    (item record : json) : Prop :=
  forall repositories l,
    Audit.repository_body bitbucket_url workspace srv container_str credentials
      item repositories l =
    (Ok (repositories ++ [record]),
     mkLog (stdout l)
       (trace l ++ [Http (repository_groups_request bitbucket_url workspace container_str
                            credentials item)])).

(** The requests a collector sends over the pages: for each page the page
    request, followed by the nested request of each of its items. *)
Definition collector_trace (page_rq nested_rq : json -> request)
    (pages : list (json * list json)) : list event :=
  flat_map (fun page =>
    Http (page_rq (fst page)) :: map (fun item => Http (nested_rq item)) (snd page)) pages.

(** ** Errors of the request primitive *)

Definition status_error_prefix : string := "Failed to retrieve data. Status code: ".

Fixpoint strip_prefix (p s : string) : option string :=
  match p with
  | EmptyString => Some s
  | String a p' =>
      match s with
      | EmptyString => None
      | String b s' => if Ascii.eqb a b then strip_prefix p' s' else None
      end
  end.

Definition parse_int (s : string) : option Z :=
  option_map Z.of_int (NilZero.int_of_string s).

(** The status code an error of [api_get_request] carries in its message. *)
Definition status_of_error (e : exn) : option Z :=
  match e with
  | Exception m =>
      match strip_prefix status_error_prefix m with
      | Some digits => parse_int digits
      | None => None
      end
  | _ => None
  end.

(** The claim that an error of the request primitive carries the raw
    response body: the body can be read off the error. *)
Definition error_carries_body : Prop :=
  exists body_of : exn -> string,
    forall srv container_str credentials endpoint l r,
      srv (trace l) (page_request container_str credentials endpoint) = inr r ->
      status_code r <> 200%Z ->
      exists e,
        fst (Audit.api_get_request srv container_str credentials endpoint l) = Raise e /\
        body_of e = text r.

(** The request the code-search collector sends for a page. *)
Definition search_request (container_str : json -> string)
    (credentials : BitbucketAuthentication) (endpoint : json) (query : string) : request :=
  mkRequest GET (py_str container_str endpoint) (basic credentials)
    [("search_query", query)] None.

(** ** Concrete worlds used in the examples *)

Definition no_container_str (v : json) : string := "".

Definition alice : BitbucketAuthentication := mkCredentials "alice" "secret".

Definition answer (status : Z) (body : json) : exn + response :=
  inr (mkResponse status "" (Some body)).

(** A server whose every page is [{"values": []}], with no ['next']. *)
Definition empty_page_server : server :=
  fun _ _ => answer 200 (JObj [("values", JArr [])]).

(** A server whose every answer is the envelope [{}], without ['values']. *)
Definition no_values_server : server :=
  fun _ _ => answer 200 (JObj []).

(** A server that answers 500 with the given raw body. *)
Definition failing_server (body : string) : server :=
  fun _ _ => inr (mkResponse 500 body None).

(** The request of the project existence check. *)
Definition exists_request (project_key bitbucket_cloud_workspace : string) : request :=
  mkRequest GET (CreateProject.project_url project_key bitbucket_cloud_workspace) None [] None.

(** The existence check answers consistently: what the platform says about
    a key does not change during the run. *)
Definition consistent_existence (srv : server) (bitbucket_cloud_workspace : string) : Prop :=
  forall h h' key,
    srv h (exists_request key bitbucket_cloud_workspace) =
    srv h' (exists_request key bitbucket_cloud_workspace).

(** A workspace in which exactly the project [FIN_FOU] exists. *)
Definition finance_server : server :=
  fun _ rq =>
    if String.eqb (url rq) (CreateProject.project_url "FIN_FOU" "ws")
    then answer 200 (JObj [("key", JStr "FIN_FOU")])
    else answer 404 (JObj []).

(** A workspace in which every key is reported as existing. *)
Definition crowded_server : server := fun _ _ => answer 200 (JObj []).

(** A platform that reports a key as existing during the first [k]
    requests of the run and as free afterwards. *)
Definition busy_server (k : nat) : server :=
  fun h _ => if (List.length h <? k)%nat then answer 200 (JObj []) else answer 404 (JObj []).

(** Random sources: one that reverses the name, one that returns it as is. *)
Fixpoint string_rev (s : string) : string :=
  match s with
  | EmptyString => EmptyString
  | String c s' => string_rev s' +++ String c EmptyString
  end.

Definition reversing_sample (n : nat) (s : string) : string := string_rev s.

Definition identity_sample (n : nat) (s : string) : string := s.

(** ** Literal replacement *)

(** [old] occurs in [s] as a contiguous run of bytes. *)
Definition occurs_in (old s : bytes) : Prop :=
  exists pre post, s = pre ++ old ++ post.

(** [Replaced old new s out]: [out] is [s] with the occurrences of [old],
    taken from the left and without overlap, replaced by [new], and every
    other byte kept.  Either [old] does not occur and nothing changes, or
    [s] splits at its leftmost occurrence into [pre ++ old ++ rest]; then
    [pre] is kept, the occurrence becomes [new] and the same holds of
    [rest]. *)
Inductive Replaced (old new : bytes) : bytes -> bytes -> Prop :=
| Replaced_none s :
    ~ occurs_in old s ->
    Replaced old new s s
| Replaced_hit pre rest out :
    (forall p q, pre ++ old = p ++ old ++ q -> q = []) ->
    Replaced old new rest out ->
    Replaced old new (pre ++ old ++ rest) (pre ++ new ++ out).

(** The reads and writes the edit step performs on the directories [dirs]
    that [os.walk] yields, when the file at path [p] holds [contents p]:
    every file of every directory that is not skipped is read and then
    written with the replaced content. *)
Definition edits_of (hst : host) (contents : string -> bytes)
    (search_str replace_str : string) (dirs : list (string * list string)) : list event :=
  flat_map (fun entry =>
    if SearchReplace.skipped (fst entry) then []
    else
      flat_map (fun file =>
        let file_path := os_path_join hst (fst entry) file in
        [FileRead file_path;
         FileWrite file_path
           (bytes_replace (contents file_path) (encode search_str) (encode replace_str))])
        (snd entry)) dirs.

(** A machine on which every command succeeds, with a fixed working tree. *)
Definition calm_host (dirs : list (string * list string)) (contents : string -> bytes) : host :=
  mkHost (fun _ _ => None) (fun _ _ => dirs) (fun _ p => inr (contents p)) "posix"
         (fun root file => root +++ "/" +++ file).

Definition sample_dirs : list (string * list string) :=
  [("tmp_repo", ["main.tf"; "logo.png"]); ("tmp_repo/.git", ["config"])].

Definition sample_contents (p : string) : bytes :=
  if String.eqb p "tmp_repo/main.tf" then encode "source = old//x"
  else if String.eqb p "tmp_repo/logo.png" then [x89; x50; x00; xff]
  else encode "url = old".

(** ** The single-repository inspector *)

(** The three requests of the inspector. *)
Definition reviewers_request (bitbucket_url : string) (auth : string * string)
    (project_key repository_slug : string) : request :=
  mkRequest GET (RepoInfo.default_reviewers_url bitbucket_url project_key repository_slug)
    (Some auth) [] None.

Definition merge_checks_request (bitbucket_url : string) (auth : string * string)
    (project_key repository_slug : string) : request :=
  mkRequest GET (RepoInfo.merge_checks_url bitbucket_url project_key repository_slug)
    (Some auth) [] None.

Definition restrictions_request (bitbucket_url : string) (auth : string * string)
    (project_key repository_slug : string) : request :=
  mkRequest GET (RepoInfo.branch_restrictions_url bitbucket_url project_key repository_slug)
    (Some auth) [] None.

Definition is_object (v : json) : Prop := exists fields, v = JObj fields.

(** [v.get(k, default)] as a value, for a [v] known to be a dict. *)
Definition field_or (k : string) (default : json) (v : json) : json :=
  match v with
  | JObj fields => match assoc k fields with Some x => x | None => default end
  | _ => default
  end.

(** The name/email pair reported for a reviewer. *)
Definition reviewer_pair (reviewer : json) : json :=
  JObj [("displayName", field_or "displayName" (JStr "") reviewer);
        ("emailAddress", field_or "emailAddress" (JStr "") reviewer)].

Definition bob : string * string := ("bob", "secret").

Definition reviewer (name email : string) : json :=
  JObj [("id", JNum 7); ("displayName", JStr name); ("emailAddress", JStr email)].

(** Two default-reviewer conditions, each with one reviewer. *)
Definition two_conditions_server : server :=
  fun _ _ =>
    answer 200
      (JArr [JObj [("id", JNum 1); ("reviewers", JArr [reviewer "Ann" "ann@example.com"])];
             JObj [("id", JNum 2); ("reviewers", JArr [reviewer "Ben" "ben@example.com"])]]).

(** No default-reviewer condition is configured. *)
Definition no_conditions_server : server := fun _ _ => answer 200 (JArr []).

(** The default-reviewers read fails with an HTML error page; the other
    two reads would succeed. *)
Definition html_error_server : server :=
  fun _ rq =>
    if String.eqb (url rq)
         (RepoInfo.default_reviewers_url "https://bitbucket.example.com" "PRJ" "repo")
    then inr (mkResponse 503 "<html>Service Unavailable</html>" None)
    else if String.eqb (url rq)
              (RepoInfo.merge_checks_url "https://bitbucket.example.com" "PRJ" "repo")
    then answer 200 (JObj [("needsWork", JBool true); ("requiredAllApprovers", JBool false);
                           ("requiredAllTasksComplete", JBool false);
                           ("requiredApprovers", JNum 2); ("requiredSuccessfulBuilds", JNum 1)])
    else answer 200 (JObj [("values", JArr [])]).

Definition no_yaml (d : pydict) : string := "{}".

(** ** Branch restrictions *)

Definition mem (x : string) (l : list string) : bool := existsb (String.eqb x) l.

(** The distinct elements of a list, each at the place of its first
    occurrence. *)
Fixpoint first_seen (l : list string) : list string :=
  match l with
  | [] => []
  | x :: l' => x :: filter (fun y => negb (String.eqb x y)) (first_seen l')
  end.

(** The restriction types applied to branch [b], in the order of the items. *)
Definition types_at (b : string) (pairs : list (string * string)) : list string :=
  map snd (filter (fun p => String.eqb b (fst p)) pairs).

(** The mapping the items [(branch, type)] reduce to: one entry per
    branch, holding the branch's distinct types in first-seen order. *)
Definition restrictions_of (pairs : list (string * string)) : pydict :=
  map (fun b => (JStr b, map JStr (first_seen (types_at b pairs))))
      (first_seen (map fst pairs)).

(** A restriction item whose matcher identity and type are the strings
    [fst p] and [snd p]. *)
Definition restriction_item (item : json) (p : string * string) : Prop :=
  exists fields matcher,
    item = JObj fields /\
    assoc "matcher" fields = Some (JObj matcher) /\
    assoc "id" matcher = Some (JStr (fst p)) /\
    assoc "type" fields = Some (JStr (snd p)).

Definition restriction (branch type : string) : json :=
  JObj [("id", JNum 1); ("type", JStr type);
        ("matcher", JObj [("id", JStr branch); ("displayId", JStr branch)])].

Definition inspector_request (auth : string * string) (endpoint : json) : request :=
  mkRequest GET (py_str no_container_str endpoint) (Some auth) [] None.

(** The claim that the branch-restrictions read collects the items of all
    pages the platform serves. *)
Definition collects_restrictions_of_all_pages : Prop :=
  forall bitbucket_url srv auth project_key repository_slug pages pairs,
    serves srv (inspector_request auth)
      (JStr (RepoInfo.branch_restrictions_url bitbucket_url project_key repository_slug)) pages ->
    Forall2 restriction_item (List.concat (map snd pages)) pairs ->
    fst (RepoInfo.get_branch_restrictions bitbucket_url srv auth project_key repository_slug
           empty_log) = Ok (restrictions_of pairs).

Definition restrictions_page2 : string :=
  "https://bitbucket.example.com/rest/branch-permissions/2.0/projects/PRJ/repos/repo/restrictions?start=1".

(** Two pages of restrictions, one item each. *)
Definition two_page_server : server :=
  fun _ rq =>
    if String.eqb (url rq) restrictions_page2
    then answer 200 (JObj [("values", JArr [restriction "refs/heads/release" "read-only"])])
    else answer 200 (JObj [("values", JArr [restriction "refs/heads/main" "pull-request-only"]);
                           ("next", JStr restrictions_page2)]).

(** One page with repeated (branch, type) pairs. *)
Definition repeated_pairs_server : server :=
  fun _ _ =>
    answer 200 (JObj [("values", JArr [restriction "main" "read-only";
                                       restriction "dev" "no-deletes";
                                       restriction "main" "fast-forward-only";
                                       restriction "main" "read-only";
                                       restriction "dev" "no-deletes"])]).

(** ** The bulk mutation workflow *)

(** The per-target steps that run in a [try] block with a re-raising
    handler. *)
Inductive step : Type := Clone | Branch | Edit | Commit | Push.

Definition all_steps : list step := [Clone; Branch; Edit; Commit; Push].

Definition steps_before (s : step) : list step :=
  match s with
  | Clone => []
  | Branch => [Clone]
  | Edit => [Clone; Branch]
  | Commit => [Clone; Branch; Edit]
  | Push => [Clone; Branch; Edit; Commit]
  end.

Definition steps_after (s : step) : list step :=
  match s with
  | Clone => [Branch; Edit; Commit; Push]
  | Branch => [Edit; Commit; Push]
  | Edit => [Commit; Push]
  | Commit => [Push]
  | Push => []
  end.

(** The exceptions the handler of a step catches: [git.GitCommandError] in
    the git steps, [Exception] in the edit step. *)
Definition step_catches (s : step) : exn -> bool :=
  match s with
  | Edit => any_exception
  | _ => is_git_command_error
  end.

Section Steps.
Variable hst : host.
Variables workspace feature_branch_name search_str replace_str commit_message : string.
Variable repository : string.

Let repo_url_ssh := "git@bitbucket.org:" +++ workspace +++ "/" +++ repository +++ ".git".
Let local_repository := "tmp_" +++ repository.

(** The [try] block of a step, as [mutate_repository] calls it. *)
Definition step_try (s : step) : M unit :=
  match s with
  | Clone => SearchReplace.clone_repository_try hst repo_url_ssh local_repository
  | Branch => SearchReplace.create_and_switch_branch_try hst local_repository feature_branch_name
  | Edit => SearchReplace.update_references_try hst local_repository search_str replace_str
  | Commit => SearchReplace.stage_and_commit_try hst local_repository commit_message
  | Push => SearchReplace.push_changes_try hst local_repository feature_branch_name
  end.

(** The step function, as [mutate_repository] calls it. *)
Definition step_run (s : step) : M unit :=
  match s with
  | Clone => SearchReplace.clone_repository hst repo_url_ssh local_repository
  | Branch => SearchReplace.create_and_switch_branch hst local_repository feature_branch_name
  | Edit => SearchReplace.update_references hst local_repository search_str replace_str
  | Commit => SearchReplace.stage_and_commit hst local_repository commit_message
  | Push => SearchReplace.push_changes hst local_repository feature_branch_name
  end.

Definition run_steps (ss : list step) : M unit :=
  for_each ss (fun s _ => step_run s) tt.
End Steps.

(** The claim that after a failure of a step other than the clone the
    driver loop advances to the next target repository: the next target is
    cloned. *)
Definition advances_after_step_failure : Prop :=
  forall srv hst container_str credentials base_endpoint workspace feature_branch_name
         search_str replace_str commit_message pr_title pr_description
         s repository next later l l1 l2 e,
    s <> Clone ->
    run_steps hst workspace feature_branch_name search_str replace_str commit_message
      repository (steps_before s) (mkLog (stdout l ++ [repository +++ nl]) (trace l)) = (Ok tt, l1) ->
    step_try hst workspace feature_branch_name search_str replace_str commit_message
      repository s l1 = (Raise e, l2) ->
    step_catches s e = true ->
    In (GitClone ("git@bitbucket.org:" +++ workspace +++ "/" +++ next +++ ".git") ("tmp_" +++ next))
       (trace (snd (for_each (repository :: next :: later)
                      (SearchReplace.mutate_repository srv hst container_str credentials
                         base_endpoint workspace feature_branch_name search_str replace_str
                         commit_message pr_title pr_description) tt l))).

(** A machine on which creating the branch fails in every repository. *)
Definition branch_failing_host : host :=
  mkHost (fun _ e => match e with
                     | GitCreateHead _ _ =>
                         Some (GitCommandError "fatal: a branch named 'feature/x' already exists")
                     | _ => None
                     end)
         (fun _ _ => []) (fun _ _ => inr []) "posix" (fun root file => root +++ "/" +++ file).

(** A platform that accepts every pull request. *)
Definition accepting_server : server :=
  fun _ _ => answer 201 (JObj [("links", JObj [("html", JObj [("href", JStr "https://pr")])])]).

(** ** A workspace with two pages of repositories *)

Definition repositories_page2 : string :=
  "https://api.bitbucket.org/2.0/repositories/ws?pagelen=100&page=2".

Definition repository_item (slug : string) : json :=
  JObj [("slug", JStr slug); ("description", JStr ""); ("is_private", JBool true);
        ("mainbranch", JObj [("name", JStr "main")]);
        ("project", JObj [("key", JStr "PRJ")])].

Definition repository_record (slug : string) : json :=
  JObj [("slug", JStr slug); ("description", JStr ""); ("main_branchname", JStr "main");
        ("is_private", JBool true); ("project_key", JStr "PRJ");
        ("groups", JArr [JObj [("slug", JStr "developers"); ("permission", JStr "write")]])].

(** Page one holds one repository, page two is empty and is the last. *)
Definition two_page_workspace : server :=
  fun _ rq =>
    if String.eqb (url rq) "https://api.bitbucket.org/2.0/repositories/ws?pagelen=100"
    then answer 200 (JObj [("values", JArr [repository_item "app"]);
                           ("next", JStr repositories_page2)])
    else if String.eqb (url rq) repositories_page2
    then answer 200 (JObj [("values", JArr [])])
    else answer 200 (JObj [("values",
           JArr [JObj [("permission", JStr "write");
                       ("group", JObj [("slug", JStr "developers")])]])]).

(** ** Text utilities *)



(** The number of occurrences of the character [c] in [s]. *)
Fixpoint count_char (c : ascii) (s : string) : nat :=
  match s with
  | EmptyString => 0
  | String a s' => (if Ascii.eqb a c then 1 else 0) + count_char c s'
  end.

(** ** Records of the audit *)

(** An entry of a group-permissions page: group slug and permission. *)
Definition group_permission (entry : json) (sp : json * json) : Prop :=
  exists fields g,
    entry = JObj fields /\
    assoc "group" fields = Some (JObj g) /\
    assoc "slug" g = Some (fst sp) /\
    assoc "permission" fields = Some (snd sp).

Definition permission_record (sp : json * json) : json :=
  JObj [("slug", fst sp); ("permission", snd sp)].

(** A repository item with the fields the collector reads. *)
Definition well_formed_repository (item slug description main_branchname is_private
                                     project_key : json) : Prop :=
  exists fields mainbranch project,
    item = JObj fields /\
    assoc "slug" fields = Some slug /\
    assoc "description" fields = Some description /\
    assoc "mainbranch" fields = Some (JObj mainbranch) /\
    assoc "name" mainbranch = Some main_branchname /\
    assoc "is_private" fields = Some is_private /\
    assoc "project" fields = Some (JObj project) /\
    assoc "key" project = Some project_key.

(** A project item with the fields the collector reads. *)
Definition well_formed_project (item name key description : json) : Prop :=
  exists fields,
    item = JObj fields /\
    assoc "name" fields = Some name /\
    assoc "key" fields = Some key /\
    assoc "description" fields = Some description.

(** The request for the groups of a project item. *)
Definition project_groups_request (bitbucket_url workspace : string)
    (container_str : json -> string) (credentials : BitbucketAuthentication)
    (item : json) : request :=
  page_request container_str credentials
    (Audit.project_groups_endpoint bitbucket_url workspace container_str
       (match item with
        | JObj fields => match assoc "key" fields with Some key => key | None => JNull end
        | _ => JNull
        end)).

(** The project collector turns [item] into [record]: on a page whose
    envelope is [project_list], the body of its item loop appends [record],
    sends the one nested groups request and sets the endpoint to the page's
    ['next'] field. *)
Definition project_recorded (bitbucket_url workspace : string) (srv : server)
    (container_str : json -> string) (credentials : BitbucketAuthentication)
    (item record : json) : Prop :=
  forall fields projects endpoint l,
    Audit.project_body bitbucket_url workspace srv container_str credentials
      (JObj fields) item (projects, endpoint) l =
    (Ok (projects ++ [record], next_or_none (assoc "next" fields)),
     mkLog (stdout l)
       (trace l ++ [Http (project_groups_request bitbucket_url workspace container_str
                            credentials item)])).

(** A member of a group: display name and account identifier. *)
Definition group_member (member : json) (da : json * json) : Prop :=
  exists fields,
    member = JObj fields /\
    assoc "display_name" fields = Some (fst da) /\
    assoc "account_id" fields = Some (snd da).

(** A group of the flat groups array: name, slug and members. *)
Definition well_formed_group (group : json) (g : json * json * list (json * json)) : Prop :=
  exists fields members,
    group = JObj fields /\
    assoc "name" fields = Some (fst (fst g)) /\
    assoc "slug" fields = Some (snd (fst g)) /\
    assoc "members" fields = Some (JArr members) /\
    Forall2 group_member members (snd g).

Definition member_record (da : json * json) : json :=
  JObj [("display_name", fst da); ("account_id", snd da)].

Definition group_record (g : json * json * list (json * json)) : json :=
  JObj [("name", fst (fst g)); ("slug", snd (fst g));
        ("members", JArr (map member_record (snd g)))].

(** Two groups with one member each, as a flat array. *)
Definition two_groups_server : server :=
  fun _ _ =>
    answer 200
      (JArr [JObj [("name", JStr "Developers"); ("slug", JStr "developers");
                   ("members", JArr [JObj [("display_name", JStr "Ann");
                                           ("account_id", JStr "a-1");
                                           ("nickname", JStr "ann")]])];
             JObj [("name", JStr "Admins"); ("slug", JStr "admins");
                   ("members", JArr [JObj [("display_name", JStr "Ben");
                                           ("account_id", JStr "b-2")]])]]).

Definition never_writes : list event -> string -> string -> option exn := fun _ _ _ => None.

Definition no_yaml_config (v : json) : string := "".

Definition projects_page2 : string :=
  "https://api.bitbucket.org/2.0/workspaces/ws/projects?pagelen=100&page=2".

Definition project_item (key : string) : json :=
  JObj [("name", JStr ("Project " +++ key)); ("key", JStr key); ("description", JNull)].

Definition project_record (key : string) : json :=
  JObj [("name", JStr ("Project " +++ key)); ("key", JStr key); ("description", JNull);
        ("groups", JArr [JObj [("slug", JStr "developers"); ("permission", JStr "write")]])].

Definition permissions_page : json :=
  JObj [("values", JArr [JObj [("permission", JStr "write");
                               ("group", JObj [("slug", JStr "developers")])]]);
        ("next", JStr "https://api.bitbucket.org/more-groups")].

(** A workspace with two groups, one repository on one page, and two
    projects on two pages; every group-permissions answer names a next page. *)
Definition audit_server : server :=
  fun _ rq =>
    if String.eqb (url rq) "https://api.bitbucket.org/1.0/groups/ws"
    then two_groups_server [] rq
    else if String.eqb (url rq) "https://api.bitbucket.org/2.0/repositories/ws?pagelen=100"
    then answer 200 (JObj [("values", JArr [repository_item "app"])])
    else if String.eqb (url rq) "https://api.bitbucket.org/2.0/workspaces/ws/projects?pagelen=100"
    then answer 200 (JObj [("values", JArr [project_item "PRJ"]);
                           ("next", JStr projects_page2)])
    else if String.eqb (url rq) projects_page2
    then answer 200 (JObj [("values", JArr [project_item "OPS"])])
    else answer 200 permissions_page.


(** ** Merge checks *)

(** The settings [get_merge_checks] reads, in the order it reads them. *)
Definition merge_check_keys : list string :=
  ["needsWork"; "requiredAllApprovers"; "requiredAllTasksComplete"; "requiredApprovers";
   "requiredSuccessfulBuilds"].

(** The first of the settings that the object [fields] lacks. *)
Definition first_missing (fields : list (string * json)) : option string :=
  find (fun k => match assoc k fields with Some _ => false | None => true end) merge_check_keys.

Definition setting (k : string) (fields : list (string * json)) : json :=
  match assoc k fields with Some v => v | None => JNull end.

(** Every read of the inspector is refused with a JSON error body. *)
Definition unauthorized_server : server :=
  fun _ _ => inr (mkResponse 401 "{}" (Some (JObj [("errors", JArr [])]))).

(** The pull-request settings lack the build requirement. *)
Definition partial_settings_server : server :=
  fun _ _ => answer 200 (JObj [("needsWork", JBool true); ("requiredAllApprovers", JBool false);
                               ("requiredAllTasksComplete", JBool false);
                               ("requiredApprovers", JNum 2)]).

(** ** Provisioning *)

(** The requests of the provisioning script. *)
Definition create_project_request (credentials : BitbucketAuthentication)
    (bitbucket_cloud_workspace project_full_name project_key : string) : request :=
  mkRequest POST
    (CreateProject.BASE_URL_V2 +++ "/workspaces/" +++ bitbucket_cloud_workspace +++ "/projects")
    (basic credentials) []
    (Some (JObj [("name", JStr project_full_name); ("key", JStr project_key)])).

Definition create_group_request (credentials : BitbucketAuthentication)
    (bitbucket_cloud_workspace group_name : string) : request :=
  mkRequest POST (CreateProject.BASE_URL_V1 +++ "/groups/" +++ bitbucket_cloud_workspace)
    (basic credentials) [] (Some (JObj [("name", JStr group_name)])).

Definition set_permission_request (container_str : json -> string)
    (credentials : BitbucketAuthentication) (bitbucket_cloud_workspace : string)
    (project_key group_slug : json) (permission : string) : request :=
  mkRequest PUT
    (CreateProject.BASE_URL_V2 +++ "/workspaces/" +++ bitbucket_cloud_workspace +++ "/projects/"
       +++ py_str container_str project_key +++ "/permissions-config/groups/"
       +++ py_str container_str group_slug)
    (basic credentials) [] (Some (JObj [("permission", JStr permission)])).

(** The slug the group creation answer carries ([None] when it has none). *)
Definition slug_of (fields : list (string * json)) : json :=
  match assoc "slug" fields with Some slug => slug | None => JNull end.

(** A platform on which no project exists yet and every creation succeeds;
    it stores the project under the key [FINFOU]. *)
Definition fresh_platform : server :=
  fun _ rq =>
    match meth rq with
    | GET => answer 404 (JObj [])
    | POST =>
        if String.eqb (url rq) "https://api.bitbucket.org/2.0/workspaces/ws/projects"
        then answer 201 (JObj [("key", JStr "FINFOU")])
        else
          match payload rq with
          | Some (JObj [("name", JStr "Finance-Foundation-Development")]) =>
              answer 200 (JObj [("slug", JStr "finance-foundation-development")])
          | _ => answer 200 (JObj [("name", JStr "Finance-Foundation-AppSupport")])
          end
    | PUT => answer 200 (JObj [])
    end.

(** The same platform when it refuses to create projects. *)
Definition read_only_platform : server :=
  fun h rq =>
    match meth rq with
    | POST => answer 403 (JObj [("error", JStr "forbidden")])
    | _ => fresh_platform h rq
    end.

(** The same platform when the first of the two groups exists already. *)
Definition group_conflict_platform : server :=
  fun h rq =>
    match payload rq with
    | Some (JObj [("name", JStr "Finance-Foundation-Development")]) =>
        answer 409 (JObj [("error", JStr "exists")])
    | _ => fresh_platform h rq
    end.

(** A platform whose existence check answers with a server error. *)
Definition flaky_platform : server :=
  fun _ _ => answer 500 (JObj [("error", JStr "oops")]).

(** ** More of the bulk mutation workflow *)

(** The request that opens the change request. *)
Definition pr_request (credentials : BitbucketAuthentication)
    (pr_title pr_description feature_branch_name base_endpoint workspace repository_slug : string)
    : request :=
  mkRequest POST
    (base_endpoint +++ "/repositories/" +++ workspace +++ "/" +++ repository_slug
       +++ "/pullrequests")
    (basic credentials) []
    (Some (JObj [("title", JStr pr_title); ("description", JStr pr_description);
                 ("source", JObj [("branch", JObj [("name", JStr feature_branch_name)])])])).

(** A code-search hit whose file link leads into repository [repo]: the
    fifth segment of the link's path. *)
Definition search_hit (urlparse_path : string -> string) (item : json) (repo : string) : Prop :=
  exists fields file links self u,
    item = JObj fields /\
    assoc "file" fields = Some (JObj file) /\
    assoc "links" file = Some (JObj links) /\
    assoc "self" links = Some (JObj self) /\
    assoc "href" self = Some (JStr u) /\
    nth_error (split_on "/" (urlparse_path u)) 4 = Some repo.

(** A path function for URLs of the form [https://host/path]. *)
Fixpoint from_first_slash (s : string) : string :=
  match s with
  | EmptyString => EmptyString
  | String c s' => if Ascii.eqb c "/" then s else from_first_slash s'
  end.

Definition https_path (u : string) : string :=
  from_first_slash (substring 8 (String.length u) u).

Definition hit (repo : string) : json :=
  JObj [("type", JStr "code_search_result");
        ("file", JObj [("path", JStr "main.tf");
                       ("links", JObj [("self", JObj [("href",
                          JStr ("https://api.bitbucket.org/2.0/repositories/ws/" +++ repo
                                  +++ "/src/abc/main.tf"))])])])].

Definition search_page2 : string :=
  "https://api.bitbucket.org/2.0/workspaces/ws/search/code?page=2".

(** Two pages of hits: repositories [a], [b] and then [a] again. *)
Definition search_server : server :=
  fun _ rq =>
    if String.eqb (url rq) search_page2
    then answer 200 (JObj [("values", JArr [hit "a"])])
    else answer 200 (JObj [("values", JArr [hit "a"; hit "b"]); ("next", JStr search_page2)]).

(** A platform that rejects every change request. *)
Definition rejecting_server : server :=
  fun _ _ => inr (mkResponse 400 "There are no changes to be pulled" None).

(** A machine on which removing a directory fails. *)
Definition locked_windows_host : host :=
  mkHost (fun _ e => match e with Rmdir _ => Some (OSError "Access is denied") | _ => None end)
         (fun _ _ => []) (fun _ _ => inr []) "nt" (fun root file => root +++ "\" +++ file).

(** A machine on which the clone leaves no repository behind. *)
Definition broken_clone_host : host :=
  mkHost (fun _ e => match e with
                     | GitOpen p => Some (OSError ("InvalidGitRepositoryError: " +++ p))
                     | _ => None
                     end)
         (fun _ _ => []) (fun _ _ => inr []) "posix" (fun root file => root +++ "/" +++ file).


(** A machine whose working tree of [tmp_site.github.io] holds one file. *)
Definition pages_host : host :=
  mkHost (fun _ _ => None)
         (fun _ _ => [("tmp_site.github.io", ["index.html"]);
                      ("tmp_site.github.io/css", ["site.css"])])
         (fun _ _ => inr (encode "old")) "posix" (fun root file => root +++ "/" +++ file).

(** * Properties *)

(** ** The monad and the Python primitives *)

Lemma log_eta (l : log) : mkLog (stdout l) (trace l) = l.
Proof. destruct l; reflexivity. Qed.

Lemma append_literal_nonempty (a : string) (c : ascii) (s : string) :
  String.eqb (a +++ String c s) "" = false.
Proof. destruct a; reflexivity. Qed.

Lemma string_append_assoc (a b c : string) : (a +++ b) +++ c = a +++ b +++ c.
Proof. induction a as [|x a IH]; cbn; [reflexivity|]. rewrite IH. reflexivity. Qed.

Lemma http_answered (srv : server) (rq : request) (l : log) (r : response) :
  srv (trace l) rq = inr r ->
  http srv rq l = (Ok r, mkLog (stdout l) (trace l ++ [Http rq])).
Proof. intros H; unfold http; rewrite H; reflexivity. Qed.

Lemma for_each_app {A S} (xs ys : list A) (body : A -> S -> M S) (s : S) (l : log) :
  for_each (xs ++ ys) body s l =
  (s' <- for_each xs body s ;; for_each ys body s') l.
Proof.
  revert s l; induction xs as [|x xs IH]; intros s l.
  - reflexivity.
  - cbn [for_each app]. unfold bind.
    destruct (body x s l) as [[s1| |] l1]; try reflexivity.
    rewrite IH. reflexivity.
Qed.

Lemma repeat_snoc {A} (x : A) (n : nat) (t : list A) :
  (t ++ [x]) ++ repeat x n = t ++ repeat x (S n).
Proof. rewrite <- app_assoc; reflexivity. Qed.

(** ** The audit collectors *)

Section AuditFacts.
Variables (bitbucket_url workspace : string).
Variable srv : server.
Variable container_str : json -> string.
Variable credentials : BitbucketAuthentication.

Let rq_of := page_request container_str credentials.


Lemma projects_endpoint0_truthy :
  truthy (Audit.projects_endpoint0 bitbucket_url workspace) = true.
Proof. cbn. rewrite append_literal_nonempty. reflexivity. Qed.

Lemma api_get_request_page (endpoint : json) (l : log) (r : response) (j : json) :
  srv (trace l) (rq_of endpoint) = inr r ->
  status_code r = 200%Z ->
  json_body r = Some j ->
  Audit.api_get_request srv container_str credentials endpoint l =
    (Ok j, mkLog (stdout l) (trace l ++ [Http (rq_of endpoint)])).
Proof.
  intros Hsrv Hst Hj. unfold Audit.api_get_request, bind.
  fold (page_request container_str credentials endpoint). fold rq_of.
  rewrite (http_answered _ _ _ _ Hsrv), Hst. cbn.
  unfold response_json. rewrite Hj. reflexivity.
Qed.

Lemma api_get_request_status (endpoint : json) (l : log) (r : response) :
  srv (trace l) (rq_of endpoint) = inr r ->
  status_code r <> 200%Z ->
  Audit.api_get_request srv container_str credentials endpoint l =
    (Raise (Exception (status_error_prefix +++ str_int (status_code r))),
     mkLog (stdout l) (trace l ++ [Http (rq_of endpoint)])).
Proof.
  intros Hsrv Hst. unfold Audit.api_get_request, bind.
  fold (page_request container_str credentials endpoint). fold rq_of.
  rewrite (http_answered _ _ _ _ Hsrv).
  destruct (Z.eqb_spec (status_code r) 200) as [E|E]; [contradiction|].
  reflexivity.
Qed.

(** The projects loop on a first page without items: the endpoint is
    never advanced, so every iteration fetches the same page again. *)
Lemma projects_loop_empty_page (next : option json) (e : json) :
  truthy e = true ->
  (forall h, exists r, srv h (rq_of e) = inr r /\ is_page r [] next) ->
  forall fuel projects l,
    Audit.projects_loop bitbucket_url workspace srv container_str fuel credentials e projects l =
      (OutOfFuel, mkLog (stdout l) (trace l ++ repeat (Http (rq_of e)) fuel)).
Proof.
  intros He Hsrv fuel. induction fuel as [|fuel IH]; intros projects l.
  - cbn. rewrite He. cbn. rewrite app_nil_r, log_eta. reflexivity.
  - cbn [Audit.projects_loop]. rewrite He.
    destruct (Hsrv (trace l)) as (r & Hr & Hst & fields & Hj & Hv & Hn).
    unfold bind at 1.
    rewrite (api_get_request_page e l r (JObj fields) Hr Hst Hj).
    unfold bind, subscript. rewrite Hv. cbn.
    rewrite IH. cbn [stdout trace]. rewrite repeat_snoc. reflexivity.
Qed.

(** The item loop of the repository collector. *)
Lemma repository_items_loop (items records : list json) :
  Forall2 (repository_recorded bitbucket_url workspace srv container_str credentials)
    items records ->
  forall acc l,
    for_each items
      (Audit.repository_body bitbucket_url workspace srv container_str credentials) acc l =
    (Ok (acc ++ records),
     mkLog (stdout l)
       (trace l ++ map (fun item =>
                          Http (repository_groups_request bitbucket_url workspace
                                  container_str credentials item)) items)).
Proof.
  induction 1 as [|item record items records Hitem _ IH]; intros acc l.
  - cbn. rewrite !app_nil_r, log_eta. reflexivity.
  - cbn [for_each map]. unfold bind. rewrite Hitem, IH. cbn [stdout trace].
    rewrite <- !app_assoc. reflexivity.
Qed.

Lemma repositories_loop_done (fuel : nat) (acc : list json) (l : log) :
  Audit.repositories_loop bitbucket_url workspace srv container_str fuel credentials
    JNull acc l = (Ok acc, l).
Proof. destruct fuel; reflexivity. Qed.

(** The page loop of the repository collector over a served chain of
    pages. *)
Lemma repositories_loop_serves (e : json) (pages : list (json * list json)) :
  serves srv rq_of e pages ->
  forall recordss,
    Forall2 (fun page records =>
               Forall2 (repository_recorded bitbucket_url workspace srv container_str
                          credentials) (snd page) records) pages recordss ->
    forall fuel acc l,
      List.length pages <= fuel ->
      Audit.repositories_loop bitbucket_url workspace srv container_str fuel credentials
        e acc l =
      (Ok (acc ++ List.concat recordss),
       mkLog (stdout l)
         (trace l ++ collector_trace rq_of
                       (repository_groups_request bitbucket_url workspace container_str
                          credentials) pages)).
Proof.
  induction 1 as [e items He Hsrv | e items e' rest He Hsrv Hrest IH];
    intros recordss Hrec fuel acc l Hfuel.
  - inversion Hrec as [|page records ps rs Hitems Hnil]; subst.
    inversion Hnil; subst. cbn [snd] in Hitems.
    destruct fuel as [|fuel]; [cbn in Hfuel; lia|].
    cbn [Audit.repositories_loop]. rewrite He.
    destruct (Hsrv (trace l)) as (r & Hr & Hst & fields & Hj & Hv & Hn).
    unfold bind at 1.
    rewrite (api_get_request_page e l r (JObj fields) Hr Hst Hj).
    unfold bind at 1. cbn [subscript]. rewrite Hv. unfold ret at 1.
    unfold bind at 1. cbn [py_iter]. unfold ret at 1.
    unfold bind at 1. rewrite (repository_items_loop items records Hitems).
    unfold bind at 1. cbn [py_get]. rewrite Hn. unfold ret at 1.
    rewrite repositories_loop_done. cbn [stdout trace List.concat collector_trace flat_map fst snd].
    rewrite !app_nil_r, <- app_assoc. reflexivity.
  - inversion Hrec as [|page records ps rs Hitems Hmore]; subst. cbn [snd] in Hitems.
    destruct fuel as [|fuel]; [cbn in Hfuel; lia|].
    cbn [Audit.repositories_loop]. rewrite He.
    destruct (Hsrv (trace l)) as (r & Hr & Hst & fields & Hj & Hv & Hn).
    unfold bind at 1.
    rewrite (api_get_request_page e l r (JObj fields) Hr Hst Hj).
    unfold bind at 1. cbn [subscript]. rewrite Hv. unfold ret at 1.
    unfold bind at 1. cbn [py_iter]. unfold ret at 1.
    unfold bind at 1. rewrite (repository_items_loop items records Hitems).
    unfold bind at 1. cbn [py_get]. rewrite Hn. unfold ret at 1.
    rewrite (IH rs Hmore fuel) by (cbn in Hfuel; lia).
    cbn [stdout trace List.concat collector_trace flat_map fst snd].
    rewrite <- !app_assoc. reflexivity.
Qed.

End AuditFacts.

(** C1.  [get_projects] never returns when the first projects page has an
    empty item array: the assignment of the next endpoint sits inside the
    loop over the items, so the endpoint is never advanced and the same
    page is fetched once per iteration, whatever budget of iterations is
    granted.  (The claim promises the empty list after exactly one fetch.) *)
Theorem get_projects_empty_page_never_returns
    (bitbucket_url workspace : string) (srv : server) (container_str : json -> string)
    (credentials : BitbucketAuthentication) (next : option json) :
  let rq := page_request container_str credentials
              (Audit.projects_endpoint0 bitbucket_url workspace) in
  (forall h, exists r, srv h rq = inr r /\ is_page r [] next) ->
  forall fuel,
    Audit.get_projects bitbucket_url workspace srv container_str fuel credentials empty_log =
      (OutOfFuel, mkLog ["Auditing projects: "] (repeat (Http rq) fuel)).
Proof.
  intros rq Hsrv fuel. unfold Audit.get_projects, bind. cbn [Audit.print_status write_out].
  rewrite (projects_loop_empty_page bitbucket_url workspace srv container_str credentials next
             _ (projects_endpoint0_truthy _ _) Hsrv).
  reflexivity.
Qed.

Lemma get_projects_empty_page_never_returns_witness :
  (forall h, exists r,
      empty_page_server h
        (page_request no_container_str alice
           (Audit.projects_endpoint0 "https://api.bitbucket.org" "ws")) = inr r /\
      is_page r [] None) /\
  Audit.get_projects "https://api.bitbucket.org" "ws" empty_page_server no_container_str
    3 alice empty_log =
  (OutOfFuel,
   mkLog ["Auditing projects: "]
     (repeat (Http (page_request no_container_str alice
                      (Audit.projects_endpoint0 "https://api.bitbucket.org" "ws"))) 3)).
Proof.
  assert (Hsrv : forall h, exists r,
             empty_page_server h
               (page_request no_container_str alice
                  (Audit.projects_endpoint0 "https://api.bitbucket.org" "ws")) = inr r /\
             is_page r [] None).
  { intros h. eexists. split; [reflexivity|].
    split; [reflexivity|]. exists [("values", JArr [])]. repeat split; reflexivity. }
  split; [exact Hsrv|].
  exact (get_projects_empty_page_never_returns "https://api.bitbucket.org" "ws"
           empty_page_server no_container_str alice None Hsrv 3).
Defined.

(** The sibling collector [get_repositories] does what the claim says on
    every served chain of pages, empty pages included: given enough
    iterations it returns the records of all pages' items in page order, and
    it fetches each page exactly once (each item adding its one nested
    groups request). *)
Theorem get_repositories_collects_all_pages
    (bitbucket_url workspace : string) (srv : server) (container_str : json -> string)
    (credentials : BitbucketAuthentication)
    (pages : list (json * list json)) (recordss : list (list json)) (fuel : nat) :
  serves srv (page_request container_str credentials)
    (Audit.repositories_endpoint0 bitbucket_url workspace) pages ->
  Forall2 (fun page records =>
             Forall2 (repository_recorded bitbucket_url workspace srv container_str
                        credentials) (snd page) records) pages recordss ->
  List.length pages <= fuel ->
  Audit.get_repositories bitbucket_url workspace srv container_str fuel credentials empty_log =
    (Ok (List.concat recordss),
     mkLog ["Auditing repositories: "; "Successful" +++ nl]
       (collector_trace (page_request container_str credentials)
          (repository_groups_request bitbucket_url workspace container_str credentials)
          pages)).
Proof.
  intros Hserves Hrec Hfuel. unfold Audit.get_repositories.
  unfold bind at 1. cbn [Audit.print_status write_out]. unfold bind at 1.
  rewrite (repositories_loop_serves bitbucket_url workspace srv container_str credentials
             _ pages Hserves recordss Hrec fuel [] _ Hfuel).
  reflexivity.
Qed.

Example get_repositories_two_pages :
  Audit.get_repositories "https://api.bitbucket.org" "ws" two_page_workspace no_container_str
    2 alice empty_log =
  (Ok [repository_record "app"],
   mkLog ["Auditing repositories: "; "Successful" +++ nl]
     [Http (page_request no_container_str alice
              (Audit.repositories_endpoint0 "https://api.bitbucket.org" "ws"));
      Http (repository_groups_request "https://api.bitbucket.org" "ws" no_container_str alice
              (repository_item "app"));
      Http (page_request no_container_str alice (JStr repositories_page2))]).
Proof.
  refine (get_repositories_collects_all_pages "https://api.bitbucket.org" "ws"
            two_page_workspace no_container_str alice
            [(Audit.repositories_endpoint0 "https://api.bitbucket.org" "ws",
              [repository_item "app"]);
             (JStr repositories_page2, [])]
            [[repository_record "app"]; []] 2 _ _ _).
  - apply serves_next with (e' := JStr repositories_page2).
    + reflexivity.
    + intros h. eexists. split; [reflexivity|]. split; [reflexivity|].
      eexists. repeat split; reflexivity.
    + apply serves_last; [reflexivity|].
      intros h. eexists. split; [reflexivity|]. split; [reflexivity|].
      eexists. repeat split; reflexivity.
  - repeat constructor.
  - cbn. lia.
Qed.

(** On the same one-page answer the sibling collector [get_repositories]
    does what the claim says: the empty list after exactly one fetch. *)
Example get_repositories_empty_page :
  Audit.get_repositories "https://api.bitbucket.org" "ws" empty_page_server no_container_str
    1 alice empty_log =
  (Ok [],
   mkLog ["Auditing repositories: "; "Successful" +++ nl]
     [Http (page_request no_container_str alice
              (Audit.repositories_endpoint0 "https://api.bitbucket.org" "ws"))]).
Proof. reflexivity. Qed.

(** ** The request primitive's error *)

Lemma strip_prefix_append (p s : string) : strip_prefix p (p +++ s) = Some s.
Proof.
  induction p as [|a p IH]; cbn; [reflexivity|].
  rewrite Ascii.eqb_refl. exact IH.
Qed.

Lemma parse_int_str_int (z : Z) : parse_int (str_int z) = Some z.
Proof.
  unfold parse_int, str_int.
  rewrite NilZero.isi.
  - cbn. rewrite DecimalZ.of_to. reflexivity.
  - destruct z; cbn; try discriminate.
    intros [= H]. exact (DecimalPos.Unsigned.to_uint_nonnil _ H).
  - destruct z; cbn; try discriminate.
    intros [= H]. exact (DecimalPos.Unsigned.to_uint_nonnil _ H).
Qed.

(** C5, as amended.  On every response whose status is not 200 the request
    primitive [api_get_request] raises an exception whose message is fixed
    by the status code alone: the status can be read back from it, and the
    raw response body is not part of it. *)
Theorem api_get_request_error_carries_status_only
    (srv : server) (container_str : json -> string) (credentials : BitbucketAuthentication)
    (endpoint : json) (l : log) (r : response) :
  srv (trace l) (page_request container_str credentials endpoint) = inr r ->
  status_code r <> 200%Z ->
  let e := Exception (status_error_prefix +++ str_int (status_code r)) in
  Audit.api_get_request srv container_str credentials endpoint l =
    (Raise e,
     mkLog (stdout l) (trace l ++ [Http (page_request container_str credentials endpoint)]))
  /\ status_of_error e = Some (status_code r).
Proof.
  intros Hsrv Hst e. split.
  - apply api_get_request_status; assumption.
  - unfold e, status_of_error. rewrite strip_prefix_append. apply parse_int_str_int.
Qed.

Lemma api_get_request_error_carries_status_only_witness :
  Audit.api_get_request (failing_server "<html>Internal error</html>") no_container_str alice
    (JStr "https://api.bitbucket.org/2.0/repositories/ws") empty_log =
    (Raise (Exception "Failed to retrieve data. Status code: 500"),
     mkLog [] [Http (page_request no_container_str alice
                       (JStr "https://api.bitbucket.org/2.0/repositories/ws"))])
  /\ status_of_error (Exception "Failed to retrieve data. Status code: 500") = Some 500%Z.
Proof.
  apply (api_get_request_error_carries_status_only
           (failing_server "<html>Internal error</html>") no_container_str alice
           (JStr "https://api.bitbucket.org/2.0/repositories/ws") empty_log
           (mkResponse 500 "<html>Internal error</html>" None)).
  - reflexivity.
  - cbn. discriminate.
Defined.

(** C5, as stated, fails: two responses with the same status and different
    raw bodies raise the very same error, so no reading of the error can
    give the body back. *)
Lemma api_get_request_error_drops_body : ~ error_carries_body.
Proof.
  intros [body_of H].
  destruct (H (failing_server "first body") no_container_str alice (JStr "u") empty_log
              (mkResponse 500 "first body" None) eq_refl) as (e1 & He1 & Hb1);
    [cbn; discriminate|].
  destruct (H (failing_server "second body") no_container_str alice (JStr "u") empty_log
              (mkResponse 500 "second body" None) eq_refl) as (e2 & He2 & Hb2);
    [cbn; discriminate|].
  cbn in He1, He2, Hb1, Hb2.
  injection He1 as <-. injection He2 as <-.
  rewrite Hb1 in Hb2. discriminate.
Qed.

(** ** A page without the items field *)

(** C3, as amended.  On a page response that lacks the ['values'] field the
    code-search collector goes on as after an empty page: nothing is added
    to the repositories collected so far and the loop continues at the
    response's ['next'] endpoint (or stops when there is none).  The audit
    collectors [get_repositories] and [get_projects] instead stop with
    [KeyError('values')]. *)
Theorem missing_values_policy
    (bitbucket_url workspace : string) (srv : server) (container_str : json -> string)
    (urlparse_path : string -> string) (credentials : BitbucketAuthentication)
    (fuel : nat) (e : json) (query : string) (found : list string) (acc : list json)
    (l : log) (r_search r_audit : response) (next : option json) :
  truthy e = true ->
  srv (trace l) (search_request container_str credentials e query) = inr r_search ->
  lacks_values r_search next ->
  srv (trace l) (page_request container_str credentials e) = inr r_audit ->
  lacks_values r_audit next ->
  SearchReplace.search_loop srv container_str urlparse_path (S fuel) credentials e query found l =
    SearchReplace.search_loop srv container_str urlparse_path fuel credentials
      (next_or_none next) query found
      (mkLog (stdout l) (trace l ++ [Http (search_request container_str credentials e query)]))
  /\ Audit.repositories_loop bitbucket_url workspace srv container_str (S fuel) credentials e acc l =
       (Raise (KeyError "values"),
        mkLog (stdout l) (trace l ++ [Http (page_request container_str credentials e)]))
  /\ Audit.projects_loop bitbucket_url workspace srv container_str (S fuel) credentials e acc l =
       (Raise (KeyError "values"),
        mkLog (stdout l) (trace l ++ [Http (page_request container_str credentials e)])).
Proof.
  intros He Hs (Hst & fs & Hj & Hv & Hn) Ha (Hst' & fs' & Hj' & Hv' & Hn').
  split; [|split].
  - cbn [SearchReplace.search_loop]. rewrite He.
    unfold bind at 1. fold (search_request container_str credentials e query).
    rewrite (http_answered _ _ _ _ Hs), Hst. cbn [Z.eqb Pos.eqb].
    unfold bind, response_json. rewrite Hj. cbn. rewrite Hv, Hn. cbn.
    destruct next; reflexivity.
  - cbn [Audit.repositories_loop]. rewrite He. unfold bind at 1.
    rewrite (api_get_request_page srv container_str credentials e l r_audit (JObj fs') Ha Hst' Hj').
    unfold bind, subscript. rewrite Hv'. reflexivity.
  - cbn [Audit.projects_loop]. rewrite He. unfold bind at 1.
    rewrite (api_get_request_page srv container_str credentials e l r_audit (JObj fs') Ha Hst' Hj').
    unfold bind, subscript. rewrite Hv'. reflexivity.
Qed.

Lemma missing_values_policy_witness :
  SearchReplace.search_loop no_values_server no_container_str (fun u => u) 1 alice
    (JStr "https://api.bitbucket.org/2.0/workspaces/ws/search/code") "1882 tf" [] empty_log =
    (Ok [],
     mkLog [] [Http (search_request no_container_str alice
                       (JStr "https://api.bitbucket.org/2.0/workspaces/ws/search/code")
                       "1882 tf")])
  /\ Audit.repositories_loop "https://api.bitbucket.org" "ws" no_values_server no_container_str
       1 alice (JStr "https://api.bitbucket.org/2.0/workspaces/ws/search/code") [] empty_log =
       (Raise (KeyError "values"),
        mkLog [] [Http (page_request no_container_str alice
                          (JStr "https://api.bitbucket.org/2.0/workspaces/ws/search/code"))])
  /\ Audit.projects_loop "https://api.bitbucket.org" "ws" no_values_server no_container_str
       1 alice (JStr "https://api.bitbucket.org/2.0/workspaces/ws/search/code") [] empty_log =
       (Raise (KeyError "values"),
        mkLog [] [Http (page_request no_container_str alice
                          (JStr "https://api.bitbucket.org/2.0/workspaces/ws/search/code"))]).
Proof.
  assert (Hl : lacks_values (mkResponse 200 "" (Some (JObj []))) None).
  { split; [reflexivity|]. exists []. repeat split; reflexivity. }
  exact (missing_values_policy "https://api.bitbucket.org" "ws" no_values_server
           no_container_str (fun u => u) alice 0
           (JStr "https://api.bitbucket.org/2.0/workspaces/ws/search/code") "1882 tf" [] []
           empty_log (mkResponse 200 "" (Some (JObj []))) (mkResponse 200 "" (Some (JObj [])))
           None eq_refl eq_refl Hl eq_refl Hl).
Defined.

(** C3, as stated, fails for the audit collectors: on a first page [{}]
    (status 200, no ['values'] field) both of them raise [KeyError] where
    the claim promises an empty page, that is the empty result. *)
Lemma audit_collectors_raise_on_missing_values :
  lacks_values (mkResponse 200 "" (Some (JObj []))) None /\
  fst (Audit.get_repositories "https://api.bitbucket.org" "ws" no_values_server
         no_container_str 5 alice empty_log) = Raise (KeyError "values") /\
  fst (Audit.get_projects "https://api.bitbucket.org" "ws" no_values_server
         no_container_str 5 alice empty_log) = Raise (KeyError "values") /\
  fst (Audit.get_repositories "https://api.bitbucket.org" "ws" no_values_server
         no_container_str 5 alice empty_log) <> Ok [].
Proof.
  split; [|split; [|split]].
  - split; [reflexivity|]. exists []. repeat split; reflexivity.
  - reflexivity.
  - reflexivity.
  - cbn. discriminate.
Qed.

(** ** Project keys *)

Section KeyFacts.
Variable srv : server.
Variable container_str : json -> string.
Variable random_sample : nat -> string -> string.
Variable ws : string.

(** The verdict of the existence check is a function of the platform's
    answer alone. *)
Lemma check_if_project_exists_consistent (key : string) (l l' : log) :
  consistent_existence srv ws ->
  fst (CreateProject.check_if_project_exists srv container_str key ws l) =
  fst (CreateProject.check_if_project_exists srv container_str key ws l').
Proof.
  intros Hc. unfold CreateProject.check_if_project_exists, bind, http.
  fold (exists_request key ws). rewrite (Hc (trace l) (trace l') key).
  destruct (srv (trace l') (exists_request key ws)) as [e|r]; [reflexivity|].
  destruct (status_code r =? 200)%Z; [reflexivity|].
  destruct (status_code r =? 404)%Z; [reflexivity|].
  unfold response_json. destruct (json_body r); reflexivity.
Qed.

Lemma generate_unique_project_key_from_free (project_name business_area : string) :
  forall fuel n l key l',
    CreateProject.generate_unique_project_key_from srv container_str random_sample
      fuel n project_name business_area ws l = (Ok key, l') ->
    exists l1, fst (CreateProject.check_if_project_exists srv container_str key ws l1) = Ok false.
Proof.
  induction fuel as [|fuel IH]; intros n l key l' H.
  - discriminate H.
  - cbn [CreateProject.generate_unique_project_key_from] in H. unfold bind in H.
    revert H.
    match goal with
    | |- context [CreateProject.check_if_project_exists srv container_str ?k ws l] =>
        remember (CreateProject.check_if_project_exists srv container_str k ws l)
          as c eqn:Hc; symmetry in Hc; destruct c as [[b| |] l1]
    end; intros H; try discriminate H.
    destruct b; cbn [negb] in H.
    + eapply IH; eassumption.
    + unfold ret in H. injection H as <- <-. exists l. exact (f_equal fst Hc).
Qed.

End KeyFacts.

(** C4.  If the key derived first is reported as existing and the existence
    check answers consistently during the run, then a key returned by
    [generate_unique_project_key] is one the existence check reports as
    not existing, and it differs from the key derived first. *)
Theorem generate_unique_project_key_is_free
    (srv : server) (container_str : json -> string) (random_sample : nat -> string -> string)
    (project_name business_area ws : string) (fuel : nat) (l0 l l' : log) (key : string) :
  consistent_existence srv ws ->
  fst (CreateProject.check_if_project_exists srv container_str
         (CreateProject.generate_project_key project_name business_area) ws l0) = Ok true ->
  CreateProject.generate_unique_project_key srv container_str random_sample
    fuel project_name business_area ws l = (Ok key, l') ->
  (forall l1, fst (CreateProject.check_if_project_exists srv container_str key ws l1) = Ok false)
  /\ key <> CreateProject.generate_project_key project_name business_area.
Proof.
  intros Hc Hexists Hret.
  destruct (generate_unique_project_key_from_free srv container_str random_sample ws
              project_name business_area fuel 0 l key l' Hret) as [l1 Hfree].
  assert (Hall : forall l2,
             fst (CreateProject.check_if_project_exists srv container_str key ws l2) = Ok false).
  { intros l2. rewrite <- Hfree. apply check_if_project_exists_consistent. exact Hc. }
  split; [exact Hall|].
  intros ->. rewrite Hall in Hexists. discriminate.
Qed.

Lemma generate_unique_project_key_is_free_witness :
  CreateProject.generate_project_key "Foundation" "Finance" = "FIN_FOU" /\
  CreateProject.generate_unique_project_key finance_server no_container_str reversing_sample
    5 "Foundation" "Finance" "ws" empty_log =
    (Ok "FIN_NOI", mkLog [] [Http (exists_request "FIN_NOI" "ws")]) /\
  (forall l1, fst (CreateProject.check_if_project_exists finance_server no_container_str
                     "FIN_NOI" "ws" l1) = Ok false) /\
  "FIN_NOI" <> CreateProject.generate_project_key "Foundation" "Finance".
Proof.
  split; [reflexivity|]. split; [reflexivity|].
  apply (generate_unique_project_key_is_free finance_server no_container_str reversing_sample
           "Foundation" "Finance" "ws" 5 empty_log empty_log
           (mkLog [] [Http (exists_request "FIN_NOI" "ws")]) "FIN_NOI").
  - intros h h' key. reflexivity.
  - reflexivity.
  - reflexivity.
Defined.

Section RetryFacts.
Variable container_str : json -> string.
Variables project_name business_area ws : string.

Let key0 := CreateProject.generate_project_key project_name business_area.
Let rq0 := exists_request key0 ws.

Lemma identity_sample_permutes (n : nat) :
  Permutation (list_ascii_of_string (identity_sample n project_name))
              (list_ascii_of_string project_name).
Proof. apply Permutation_refl. Qed.

(** Where every key exists, each iteration checks and goes round again. *)
Lemma crowded_never_returns :
  forall fuel n l,
    CreateProject.generate_unique_project_key_from crowded_server container_str
      identity_sample fuel n project_name business_area ws l =
    (OutOfFuel, mkLog (stdout l) (trace l ++ repeat (Http rq0) fuel)).
Proof.
  induction fuel as [|fuel IH]; intros n l.
  - cbn. rewrite app_nil_r, log_eta. reflexivity.
  - cbn [CreateProject.generate_unique_project_key_from]. unfold bind at 1.
    unfold CreateProject.check_if_project_exists, bind, http, crowded_server, answer.
    cbn [status_code Z.eqb Pos.eqb negb ret].
    unfold identity_sample in IH |- *. rewrite IH. cbn [stdout trace].
    fold (exists_request key0 ws). fold rq0.
    rewrite <- app_assoc. reflexivity.
Qed.

(** Where the platform frees the key after [k] requests, the loop needs
    exactly one iteration more than requests remain. *)
Lemma busy_returns_late (k : nat) :
  forall j n l,
    List.length (trace l) + j = k ->
    CreateProject.generate_unique_project_key_from (busy_server k) container_str
      identity_sample (S j) n project_name business_area ws l =
      (Ok key0, mkLog (stdout l) (trace l ++ repeat (Http rq0) (S j)))
    /\ fst (CreateProject.generate_unique_project_key_from (busy_server k) container_str
              identity_sample j n project_name business_area ws l) = OutOfFuel.
Proof.
  induction j as [|j IH]; intros n l Hk.
  - split; [|reflexivity].
    cbn [CreateProject.generate_unique_project_key_from]. unfold bind at 1.
    unfold CreateProject.check_if_project_exists, bind, http, busy_server.
    replace (List.length (trace l) <? k)%nat with false
      by (symmetry; apply Nat.ltb_ge; lia).
    reflexivity.
  - assert (Hlt : (List.length (trace l) <? k)%nat = true) by (apply Nat.ltb_lt; lia).
    assert (Hnext : List.length (trace (mkLog (stdout l) (trace l ++ [Http rq0]))) + j = k).
    { cbn [trace]. rewrite length_app. cbn. lia. }
    destruct (IH (S n) _ Hnext) as [IHret IHout].
    split.
    + remember (S j) as fuel eqn:Hfuel.
      cbn [CreateProject.generate_unique_project_key_from]. unfold bind at 1.
      unfold CreateProject.check_if_project_exists, bind, http, busy_server.
      rewrite Hlt. cbn [answer status_code Z.eqb Pos.eqb negb ret].
      etransitivity; [exact IHret|].
      cbn [stdout trace]. rewrite <- app_assoc. reflexivity.
    + cbn [CreateProject.generate_unique_project_key_from]. unfold bind at 1.
      unfold CreateProject.check_if_project_exists, bind, http, busy_server.
      rewrite Hlt. cbn [answer status_code Z.eqb Pos.eqb negb ret].
      exact IHout.
Qed.

End RetryFacts.

(** C9.  The retry loop of [generate_unique_project_key] has no attempt
    cap and need not terminate.  For every project name and business area
    there are a random source (made of permutations of the name) and a
    platform reporting every key as existing under which no budget of
    iterations lets the loop return: it performs one existence check per
    iteration, for ever.  And for every number [k] there is a world in which
    the loop returns only after [k + 1] existence checks. *)
Theorem generate_unique_project_key_unbounded
    (container_str : json -> string) (project_name business_area ws : string) :
  (exists (srv : server) (random_sample : nat -> string -> string),
      (forall n, Permutation (list_ascii_of_string (random_sample n project_name))
                             (list_ascii_of_string project_name)) /\
      (forall key l,
          fst (CreateProject.check_if_project_exists srv container_str key ws l) = Ok true) /\
      (forall fuel, exists l',
          CreateProject.generate_unique_project_key srv container_str random_sample
            fuel project_name business_area ws empty_log = (OutOfFuel, l') /\
          List.length (trace l') = fuel))
  /\
  (forall k, exists (srv : server) (random_sample : nat -> string -> string) key l',
      (forall n, Permutation (list_ascii_of_string (random_sample n project_name))
                             (list_ascii_of_string project_name)) /\
      CreateProject.generate_unique_project_key srv container_str random_sample
        (S k) project_name business_area ws empty_log = (Ok key, l') /\
      List.length (trace l') = S k /\
      fst (CreateProject.generate_unique_project_key srv container_str random_sample
             k project_name business_area ws empty_log) = OutOfFuel).
Proof.
  split.
  - exists crowded_server, identity_sample. split; [|split].
    + apply identity_sample_permutes.
    + reflexivity.
    + intros fuel. eexists. split.
      * apply crowded_never_returns.
      * cbn [trace app]. apply repeat_length.
  - intros k. exists (busy_server k), identity_sample.
    destruct (busy_returns_late container_str project_name business_area ws k k 0 empty_log
                eq_refl) as [Hret Hout].
    do 2 eexists. split; [apply identity_sample_permutes|].
    split; [exact Hret|]. split; [|exact Hout].
    cbn [trace app]. apply repeat_length.
Qed.

(** ** Literal replacement *)

Section ReplaceFacts.

Lemma starts_with_true (p s : bytes) :
  starts_with p s = true <-> exists rest, s = p ++ rest.
Proof.
  revert s; induction p as [|a p IH]; intros s; cbn.
  - split; [intros _; exists s; reflexivity | reflexivity].
  - destruct s as [|b s]; cbn.
    + split; [discriminate | intros [rest H]; discriminate H].
    + rewrite andb_true_iff, IH. split.
      * intros [Hab [rest ->]]. apply Byte.byte_dec_bl in Hab. subst b.
        exists rest. reflexivity.
      * intros [rest H]. injection H as -> ->. split.
        -- apply Byte.byte_dec_lb. reflexivity.
        -- exists rest. reflexivity.
Qed.

Lemma skipn_length_app {A} (l r : list A) : skipn (List.length l) (l ++ r) = r.
Proof. induction l as [|x l IH]; [reflexivity | exact IH]. Qed.

Lemma replace_scan_skip (old new : bytes) (k : nat) (s : bytes) :
  replace_scan old new k s = replace_scan old new 0 (skipn k s).
Proof.
  revert k; induction s as [|b s IH]; intros k.
  - destruct k; reflexivity.
  - destruct k as [|k]; [reflexivity|]. cbn [replace_scan skipn]. apply IH.
Qed.

Lemma replace_scan_hit (old new : bytes) (rest : bytes) :
  old <> [] ->
  replace_scan old new 0 (old ++ rest) = new ++ replace_scan old new 0 rest.
Proof.
  intros Hne. destruct old as [|o old']; [contradiction|].
  cbn [app replace_scan].
  assert (Hs : starts_with (o :: old') (o :: old' ++ rest) = true).
  { apply starts_with_true. exists rest. reflexivity. }
  rewrite Hs. f_equal.
  cbn [List.length]. rewrite Nat.sub_succ, Nat.sub_0_r.
  rewrite replace_scan_skip, skipn_length_app. reflexivity.
Qed.

Lemma replace_scan_miss (old new : bytes) (b : byte) (s : bytes) :
  starts_with old (b :: s) = false ->
  replace_scan old new 0 (b :: s) = b :: replace_scan old new 0 s.
Proof. intros H. cbn [replace_scan]. rewrite H. reflexivity. Qed.

Lemma occurs_in_cons (old : bytes) (b : byte) (s : bytes) :
  occurs_in old (b :: s) -> starts_with old (b :: s) = true \/ occurs_in old s.
Proof.
  intros (pre & post & H). destruct pre as [|c pre].
  - left. apply starts_with_true. exists post. exact H.
  - right. injection H as _ ->. exists pre, post. reflexivity.
Qed.

Lemma Replaced_cons (old new : bytes) (b : byte) (s out : bytes) :
  starts_with old (b :: s) = false ->
  Replaced old new s out ->
  Replaced old new (b :: s) (b :: out).
Proof.
  intros Hmiss H. destruct H as [s Hnone | pre rest out Hleft Hrest].
  - apply Replaced_none. intros Hocc.
    destruct (occurs_in_cons old b s Hocc) as [Hs | Hs].
    + rewrite Hs in Hmiss. discriminate.
    + exact (Hnone Hs).
  - apply (Replaced_hit old new (b :: pre) rest out); [|exact Hrest].
    intros p q Hpq. destruct p as [|c p].
    + exfalso.
      assert (Hs : starts_with old (b :: pre ++ old ++ rest) = true).
      { apply starts_with_true. exists (q ++ rest).
        change (b :: pre ++ old ++ rest) with ((b :: pre) ++ old ++ rest).
        rewrite (app_assoc (b :: pre)), Hpq. cbn [app].
        rewrite <- app_assoc. reflexivity. }
      rewrite Hs in Hmiss. discriminate.
    + injection Hpq as _ Hpq. exact (Hleft p q Hpq).
Qed.

Lemma replace_scan_Replaced (old new : bytes) :
  old <> [] ->
  forall n s, List.length s <= n -> Replaced old new s (replace_scan old new 0 s).
Proof.
  intros Hne. induction n as [|n IH]; intros s Hn.
  - destruct s; [|cbn in Hn; lia]. apply Replaced_none.
    intros (pre & post & H). destruct pre; destruct old; try discriminate H.
    contradiction.
  - destruct s as [|b s].
    + apply Replaced_none.
      intros (pre & post & H). destruct pre; destruct old; try discriminate H.
      contradiction.
    + destruct (starts_with old (b :: s)) eqn:Hs.
      * apply starts_with_true in Hs. destruct Hs as [rest Hs]. rewrite Hs.
        rewrite replace_scan_hit by exact Hne.
        apply (Replaced_hit old new [] rest).
        -- intros p q Hpq. apply (f_equal (@List.length byte)) in Hpq.
           cbn [app] in Hpq. rewrite !length_app in Hpq.
           destruct q; [reflexivity | cbn in Hpq; lia].
        -- apply IH. apply (f_equal (@List.length byte)) in Hs.
           rewrite length_app in Hs. cbn in Hs, Hn.
           destruct old; [contradiction | cbn in Hs; lia].
      * rewrite replace_scan_miss by exact Hs.
        apply Replaced_cons; [exact Hs|]. apply IH. cbn in Hn. lia.
Qed.

Lemma replace_scan_absent (old new : bytes) (s : bytes) :
  ~ occurs_in old s -> replace_scan old new 0 s = s.
Proof.
  induction s as [|b s IH]; intros Hno; [reflexivity|].
  destruct (starts_with old (b :: s)) eqn:Hs.
  - exfalso. apply Hno. apply starts_with_true in Hs. destruct Hs as [rest Hs].
    exists [], rest. exact Hs.
  - rewrite replace_scan_miss by exact Hs. f_equal. apply IH.
    intros (pre & post & H). apply Hno. exists (b :: pre), post.
    rewrite H. reflexivity.
Qed.

Lemma bytes_replace_Replaced (old new : bytes) (content : bytes) :
  old <> [] -> Replaced old new content (bytes_replace content old new).
Proof.
  intros Hne. unfold bytes_replace. destruct old as [|o old'] eqn:Hold; [contradiction|].
  apply (replace_scan_Replaced (o :: old') new Hne (List.length content)). lia.
Qed.

Lemma bytes_replace_absent (old new : bytes) (content : bytes) :
  ~ occurs_in old content -> bytes_replace content old new = content.
Proof.
  intros Hno. unfold bytes_replace. destruct old as [|o old'] eqn:Hold.
  - exfalso. apply Hno. exists [], content. reflexivity.
  - apply replace_scan_absent. exact Hno.
Qed.

End ReplaceFacts.

Section EditFacts.
Variable hst : host.
Variable contents : string -> bytes.
Variables search_str replace_str : string.
Hypothesis run_ok : forall h e, run hst h e = None.
Hypothesis read_ok : forall h p, read_file hst h p = inr (contents p).

Lemma update_files_trace (root : string) (files : list string) (l : log) :
  SearchReplace.skipped root = false ->
  for_each files (SearchReplace.update_file hst root search_str replace_str) tt l =
    (Ok tt,
     mkLog (stdout l)
       (trace l ++ edits_of hst contents search_str replace_str [(root, files)])).
Proof.
  intros Hskip. unfold edits_of. cbn [flat_map fst snd]. rewrite Hskip, app_nil_r.
  revert l. induction files as [|file files IH]; intros l.
  - cbn. rewrite app_nil_r, log_eta. reflexivity.
  - cbn [for_each flat_map]. unfold bind at 1.
    unfold SearchReplace.update_file at 1.
    unfold bind, SearchReplace.open_rb, SearchReplace.perform. cbn [trace stdout].
    rewrite read_ok, run_ok. rewrite IH. cbn [stdout trace app].
    rewrite <- !app_assoc. reflexivity.
Qed.

Lemma edits_of_cons (root : string) (files : list string)
    (dirs : list (string * list string)) :
  edits_of hst contents search_str replace_str ((root, files) :: dirs) =
  (if SearchReplace.skipped root then []
   else edits_of hst contents search_str replace_str [(root, files)])
  ++ edits_of hst contents search_str replace_str dirs.
Proof.
  unfold edits_of. cbn [flat_map fst snd].
  destruct (SearchReplace.skipped root); [reflexivity|].
  rewrite app_nil_r. reflexivity.
Qed.

Lemma update_dirs_trace (dirs : list (string * list string)) (l : log) :
  for_each dirs (fun entry _ =>
      if SearchReplace.skipped (fst entry) then ret tt
      else for_each (snd entry)
             (SearchReplace.update_file hst (fst entry) search_str replace_str) tt) tt l =
    (Ok tt, mkLog (stdout l) (trace l ++ edits_of hst contents search_str replace_str dirs)).
Proof.
  revert l. induction dirs as [|[root files] dirs IH]; intros l.
  - cbn. rewrite app_nil_r, log_eta. reflexivity.
  - cbn [for_each fst snd]. unfold bind at 1. rewrite edits_of_cons.
    destruct (SearchReplace.skipped root) eqn:Hs.
    + unfold ret at 1. rewrite IH. reflexivity.
    + rewrite (update_files_trace root files l Hs). rewrite IH.
      cbn [stdout trace]. rewrite <- app_assoc. reflexivity.
Qed.

End EditFacts.

(** C6.  The edit step's replace is literal and exact on arbitrary bytes.
    On a machine where reading and writing succeed, [update_references]
    reads every file of every directory it does not skip and writes it back
    with [bytes.replace] applied, whether or not the pattern occurs.  For a
    non-empty pattern the written bytes are the read bytes with exactly the
    occurrences of the pattern (found from the left, without overlap)
    replaced and every other byte kept; when the pattern does not occur the
    written bytes are the read bytes. *)
Theorem literal_replace_is_exact
    (hst : host) (contents : string -> bytes) (dirs : list (string * list string))
    (repo_location search_str replace_str : string) (l : log) :
  (forall h e, run hst h e = None) ->
  (forall h p, read_file hst h p = inr (contents p)) ->
  (forall h, os_walk hst h repo_location = dirs) ->
  SearchReplace.update_references hst repo_location search_str replace_str l =
    (Ok tt,
     mkLog (stdout l ++ [" - Updating references to the modules: "; "Successful" +++ nl])
           (trace l ++ edits_of hst contents search_str replace_str dirs))
  /\ (forall content,
        encode search_str <> [] ->
        Replaced (encode search_str) (encode replace_str) content
          (bytes_replace content (encode search_str) (encode replace_str)))
  /\ (forall content,
        ~ occurs_in (encode search_str) content ->
        bytes_replace content (encode search_str) (encode replace_str) = content).
Proof.
  intros Hrun Hread Hwalk. split; [|split].
  - unfold SearchReplace.update_references, try_except, SearchReplace.update_references_try.
    unfold bind at 1. cbn [write_out]. unfold bind at 1. cbn [trace stdout].
    rewrite Hwalk.
    rewrite (update_dirs_trace hst contents search_str replace_str Hrun Hread dirs).
    cbn [stdout trace print write_out]. rewrite <- app_assoc. reflexivity.
  - intros content Hne. apply bytes_replace_Replaced. exact Hne.
  - intros content Hno. apply bytes_replace_absent. exact Hno.
Qed.

Lemma literal_replace_is_exact_witness :
  SearchReplace.update_references (calm_host sample_dirs sample_contents)
    "tmp_repo" "old" "new" empty_log =
    (Ok tt,
     mkLog [" - Updating references to the modules: "; "Successful" +++ nl]
       [FileRead "tmp_repo/main.tf";
        FileWrite "tmp_repo/main.tf" (encode "source = new//x");
        FileRead "tmp_repo/logo.png";
        FileWrite "tmp_repo/logo.png" [x89; x50; x00; xff]])
  /\ Replaced (encode "old") (encode "new") (encode "source = old//x") (encode "source = new//x")
  /\ bytes_replace [x89; x50; x00; xff] (encode "old") (encode "new") = [x89; x50; x00; xff].
Proof.
  pose proof (literal_replace_is_exact (calm_host sample_dirs sample_contents) sample_contents
                sample_dirs "tmp_repo" "old" "new" empty_log
                (fun _ _ => eq_refl) (fun _ _ => eq_refl) (fun _ => eq_refl))
    as (Hrun & Hhit & Hmiss).
  split; [exact Hrun|]. split.
  - apply (Hhit (encode "source = old//x")). discriminate.
  - apply Hmiss. intros (pre & post & H).
    destruct pre as [|b0 [|b1 [|b2 [|b3 [|b4 pre]]]]]; discriminate H.
Defined.

(** The pattern embedded in bytes that are not text: only the occurrence
    changes. *)
Example replace_inside_binary :
  bytes_replace ([x00; xff] ++ encode "old" ++ [x80; x0a]) (encode "old") (encode "new")
  = [x00; xff] ++ encode "new" ++ [x80; x0a].
Proof. reflexivity. Qed.

(** ** The single-repository inspector *)

Section InspectorFacts.
Variable bitbucket_url : string.
Variable srv : server.
Variable auth : string * string.
Variables project_key repository_slug : string.

Let rq := reviewers_request bitbucket_url auth project_key repository_slug.

Lemma reviewers_loop (reviewers acc : list json) (l : log) :
  Forall is_object reviewers ->
  for_each reviewers (fun item default_reviewers =>
      displayName <- py_get item "displayName" (JStr "") ;;
      emailAddress <- py_get item "emailAddress" (JStr "") ;;
      ret (default_reviewers
             ++ [JObj [("displayName", displayName); ("emailAddress", emailAddress)]]))
    acc l =
  (Ok (acc ++ map reviewer_pair reviewers), l).
Proof.
  intros H. revert acc. induction H as [|item reviewers [fields ->] _ IH]; intros acc.
  - cbn. rewrite app_nil_r. reflexivity.
  - cbn [for_each map]. unfold bind at 1. cbn [py_get]. unfold bind at 1 2, ret at 1 2 3.
    rewrite IH. rewrite <- app_assoc. reflexivity.
Qed.

Lemma get_default_reviewers_200 (l : log) (r : response) (body : json) :
  srv (trace l) rq = inr r ->
  status_code r = 200%Z ->
  json_body r = Some body ->
  RepoInfo.get_default_reviewers bitbucket_url srv auth project_key repository_slug l =
    (first <- subscript_int body 0 ;;
     reviewers <- subscript first "reviewers" ;;
     items <- py_iter reviewers ;;
     for_each items (fun item default_reviewers =>
       displayName <- py_get item "displayName" (JStr "") ;;
       emailAddress <- py_get item "emailAddress" (JStr "") ;;
       ret (default_reviewers
              ++ [JObj [("displayName", displayName); ("emailAddress", emailAddress)]])) [])
      (mkLog (stdout l) (trace l ++ [Http rq])).
Proof.
  intros Hsrv Hst Hbody. unfold RepoInfo.get_default_reviewers.
  unfold bind at 1. fold (reviewers_request bitbucket_url auth project_key repository_slug).
  fold rq. rewrite (http_answered _ _ _ _ Hsrv).
  unfold bind at 1. unfold response_json. rewrite Hbody. unfold ret at 1.
  rewrite Hst. reflexivity.
Qed.

End InspectorFacts.

(** C10.  On a 200 answer to the default-reviewers read,
    [get_default_reviewers] looks at the first condition of the response
    array only: it returns the display-name/email pairs of that condition's
    reviewers, whatever conditions follow; and when the array is empty it
    raises ([IndexError]) instead of returning the empty list. *)
Theorem get_default_reviewers_first_condition_only
    (bitbucket_url : string) (srv : server) (auth : string * string)
    (project_key repository_slug : string) (l : log) (r : response) :
  let rq := reviewers_request bitbucket_url auth project_key repository_slug in
  let l' := mkLog (stdout l) (trace l ++ [Http rq]) in
  srv (trace l) rq = inr r ->
  status_code r = 200%Z ->
  (forall fields reviewers later,
      json_body r = Some (JArr (JObj fields :: later)) ->
      assoc "reviewers" fields = Some (JArr reviewers) ->
      Forall is_object reviewers ->
      RepoInfo.get_default_reviewers bitbucket_url srv auth project_key repository_slug l =
        (Ok (map reviewer_pair reviewers), l'))
  /\ (json_body r = Some (JArr []) ->
      RepoInfo.get_default_reviewers bitbucket_url srv auth project_key repository_slug l =
        (Raise IndexError, l')).
Proof.
  intros rq l' Hsrv Hst. split.
  - intros fields reviewers later Hbody Hrev Hobj.
    rewrite (get_default_reviewers_200 bitbucket_url srv auth project_key repository_slug
               l r _ Hsrv Hst Hbody).
    unfold bind at 1. cbn [subscript_int nth_error]. unfold ret at 1.
    unfold bind at 1. cbn [subscript]. rewrite Hrev. unfold ret at 1.
    unfold bind at 1. cbn [py_iter]. unfold ret at 1.
    rewrite (reviewers_loop reviewers [] _ Hobj). reflexivity.
  - intros Hbody.
    rewrite (get_default_reviewers_200 bitbucket_url srv auth project_key repository_slug
               l r _ Hsrv Hst Hbody).
    reflexivity.
Qed.

Lemma get_default_reviewers_first_condition_only_witness :
  RepoInfo.get_default_reviewers "https://bitbucket.example.com" two_conditions_server bob
    "PRJ" "repo" empty_log =
    (Ok [JObj [("displayName", JStr "Ann"); ("emailAddress", JStr "ann@example.com")]],
     mkLog [] [Http (reviewers_request "https://bitbucket.example.com" bob "PRJ" "repo")])
  /\ RepoInfo.get_default_reviewers "https://bitbucket.example.com" no_conditions_server bob
       "PRJ" "repo" empty_log =
     (Raise IndexError,
      mkLog [] [Http (reviewers_request "https://bitbucket.example.com" bob "PRJ" "repo")]).
Proof.
  split.
  - refine (proj1 (get_default_reviewers_first_condition_only "https://bitbucket.example.com"
                     two_conditions_server bob "PRJ" "repo" empty_log _ eq_refl eq_refl)
              [("id", JNum 1); ("reviewers", JArr [reviewer "Ann" "ann@example.com"])]
              [reviewer "Ann" "ann@example.com"] _ eq_refl eq_refl _).
    repeat constructor. eexists. reflexivity.
  - exact (proj2 (get_default_reviewers_first_condition_only "https://bitbucket.example.com"
                    no_conditions_server bob "PRJ" "repo" empty_log _ eq_refl eq_refl)
             eq_refl).
Defined.

(** A read that is answered with a status other than 200 and a body that
    parses as JSON prints its failure and returns the empty result. *)
Lemma failed_reads_with_json_body_return_empty
    (bitbucket_url : string) (srv : server) (auth : string * string)
    (project_key repository_slug : string) (l : log) (r : response) (body : json) :
  status_code r <> 200%Z ->
  json_body r = Some body ->
  (srv (trace l) (reviewers_request bitbucket_url auth project_key repository_slug) = inr r ->
   RepoInfo.get_default_reviewers bitbucket_url srv auth project_key repository_slug l =
     (Ok [],
      mkLog (stdout l ++ ["Failed to fetch default reviewers. Status code: "
                            +++ str_int (status_code r) +++ nl])
            (trace l ++ [Http (reviewers_request bitbucket_url auth project_key repository_slug)])))
  /\ (srv (trace l) (merge_checks_request bitbucket_url auth project_key repository_slug) = inr r ->
      RepoInfo.get_merge_checks bitbucket_url srv auth project_key repository_slug l =
        (Ok [],
         mkLog (stdout l ++ ["Failed to fetch repository settings. Status code: "
                               +++ str_int (status_code r) +++ nl])
               (trace l ++ [Http (merge_checks_request bitbucket_url auth project_key
                                    repository_slug)])))
  /\ (srv (trace l) (restrictions_request bitbucket_url auth project_key repository_slug) = inr r ->
      RepoInfo.get_branch_restrictions bitbucket_url srv auth project_key repository_slug l =
        (Ok [],
         mkLog (stdout l ++ ["Failed to fetch branch restrictions. Status code: "
                               +++ str_int (status_code r) +++ nl])
               (trace l ++ [Http (restrictions_request bitbucket_url auth project_key
                                    repository_slug)]))).
Proof.
  intros Hst Hbody.
  assert (Hne : (status_code r =? 200)%Z = false) by (apply Z.eqb_neq; exact Hst).
  split; [|split]; intros Hsrv.
  - unfold RepoInfo.get_default_reviewers. unfold bind at 1.
    fold (reviewers_request bitbucket_url auth project_key repository_slug).
    rewrite (http_answered _ _ _ _ Hsrv).
    unfold bind at 1. unfold response_json. rewrite Hbody. unfold ret at 1.
    rewrite Hne. reflexivity.
  - unfold RepoInfo.get_merge_checks. unfold bind at 1.
    fold (merge_checks_request bitbucket_url auth project_key repository_slug).
    rewrite (http_answered _ _ _ _ Hsrv).
    unfold bind at 1. unfold response_json. rewrite Hbody. unfold ret at 1.
    rewrite Hne. reflexivity.
  - unfold RepoInfo.get_branch_restrictions. unfold bind at 1.
    fold (restrictions_request bitbucket_url auth project_key repository_slug).
    rewrite (http_answered _ _ _ _ Hsrv).
    unfold bind at 1. unfold response_json. rewrite Hbody. unfold ret at 1.
    rewrite Hne. reflexivity.
Qed.

(** C7.  A failing default-reviewers read whose body is not JSON (an HTML
    error page, an empty body) is not turned into a printed error and an
    empty result: [get_default_reviewers] parses the body before it looks
    at the status, the parse raises, and the script stops there.  Nothing is
    printed about the failure, and the merge-checks and branch-restrictions
    reads are never sent. *)
Theorem failed_read_with_unparsable_body_aborts
    (bitbucket_url : string) (srv : server) (container_str : json -> string)
    (yaml_dump : pydict -> string) (auth : string * string)
    (project_key repository_slug : string) (l : log) (r : response) :
  srv (trace l) (reviewers_request bitbucket_url auth project_key repository_slug) = inr r ->
  status_code r <> 200%Z ->
  json_body r = None ->
  RepoInfo.main bitbucket_url srv container_str yaml_dump auth project_key repository_slug l =
    (Raise JSONDecodeError,
     mkLog (stdout l ++ ["Repository: " +++ repository_slug +++ nl])
           (trace l ++ [Http (reviewers_request bitbucket_url auth project_key repository_slug)])).
Proof.
  intros Hsrv Hst Hbody. unfold RepoInfo.main.
  unfold bind at 1. cbn [print write_out]. unfold bind at 1.
  unfold RepoInfo.get_default_reviewers. unfold bind at 1.
  fold (reviewers_request bitbucket_url auth project_key repository_slug).
  cbn [trace stdout]. rewrite (http_answered srv _ (mkLog _ (trace l)) r Hsrv).
  unfold bind at 1. unfold response_json. rewrite Hbody. reflexivity.
Qed.

Lemma failed_read_with_unparsable_body_aborts_witness :
  RepoInfo.main "https://bitbucket.example.com" html_error_server no_container_str no_yaml
    bob "PRJ" "repo" empty_log =
    (Raise JSONDecodeError,
     mkLog ["Repository: repo" +++ nl]
           [Http (reviewers_request "https://bitbucket.example.com" bob "PRJ" "repo")]).
Proof.
  refine (failed_read_with_unparsable_body_aborts "https://bitbucket.example.com"
            html_error_server no_container_str no_yaml bob "PRJ" "repo" empty_log
            (mkResponse 503 "<html>Service Unavailable</html>" None) eq_refl _ eq_refl).
  cbn. discriminate.
Defined.

(** ** Branch restrictions *)

Section FirstSeen.

Lemma mem_In (x : string) (l : list string) : mem x l = true <-> In x l.
Proof.
  unfold mem. rewrite existsb_exists. split.
  - intros (y & Hy & E). apply String.eqb_eq in E. subst. exact Hy.
  - intros H. exists x. split; [exact H | apply String.eqb_refl].
Qed.

Lemma mem_false (x : string) (l : list string) : mem x l = false <-> ~ In x l.
Proof.
  rewrite <- mem_In. destruct (mem x l); split; intros H; try reflexivity;
    try discriminate; try congruence.
Qed.

Lemma In_first_seen (x : string) (l : list string) : In x (first_seen l) <-> In x l.
Proof.
  induction l as [|a l IH]; cbn; [reflexivity|].
  rewrite filter_In, IH. destruct (String.eqb_spec a x) as [E|E].
  - subst. split; intros; left; reflexivity.
  - split.
    + intros [H|[H _]]; [left|right]; assumption.
    + intros [H|H]; [left; exact H | right; split; [exact H | reflexivity]].
Qed.

Lemma mem_first_seen (x : string) (l : list string) : mem x (first_seen l) = mem x l.
Proof.
  destruct (mem x l) eqn:E.
  - apply mem_In, In_first_seen, mem_In. exact E.
  - apply mem_false. rewrite In_first_seen. apply mem_false. exact E.
Qed.

Lemma NoDup_first_seen (l : list string) : NoDup (first_seen l).
Proof.
  induction l as [|a l IH]; cbn; constructor.
  - rewrite filter_In. intros [_ H]. rewrite String.eqb_refl in H. discriminate.
  - apply NoDup_filter. exact IH.
Qed.

Lemma first_seen_snoc (l : list string) (x : string) :
  first_seen (l ++ [x]) = if mem x l then first_seen l else first_seen l ++ [x].
Proof.
  induction l as [|a l IH]; [reflexivity|].
  cbn [app first_seen]. rewrite IH. unfold mem. cbn [existsb]. fold (mem x l).
  destruct (String.eqb_spec x a) as [E|E].
  - subst a. cbn [orb]. destruct (mem x l); [reflexivity|].
    rewrite filter_app. cbn [filter]. rewrite String.eqb_refl. cbn [negb].
    rewrite app_nil_r. reflexivity.
  - cbn [orb]. destruct (mem x l); [reflexivity|].
    rewrite filter_app. cbn [filter].
    destruct (String.eqb_spec a x) as [E'|E']; [congruence|]. reflexivity.
Qed.

Lemma types_at_snoc (k b t : string) (pairs : list (string * string)) :
  types_at k (pairs ++ [(b, t)]) =
  types_at k pairs ++ (if String.eqb k b then [t] else []).
Proof.
  unfold types_at. rewrite filter_app, map_app. cbn [filter fst].
  destruct (String.eqb k b); reflexivity.
Qed.

Lemma types_at_absent (b : string) (pairs : list (string * string)) :
  ~ In b (map fst pairs) -> types_at b pairs = [].
Proof.
  induction pairs as [|[b' t'] pairs IH]; intros H; [reflexivity|].
  unfold types_at in *. cbn [filter fst map] in *.
  destruct (String.eqb_spec b b') as [E|E].
  - exfalso. apply H. left. symmetry. exact E.
  - apply IH. intros Hin. apply H. right. exact Hin.
Qed.

Lemma In_types_at (b t : string) (pairs : list (string * string)) :
  In t (types_at b pairs) <-> In (b, t) pairs.
Proof.
  unfold types_at. rewrite in_map_iff. split.
  - intros ([b' t'] & E & H). apply filter_In in H. destruct H as [H Hb].
    cbn in E, Hb. apply String.eqb_eq in Hb. subst. exact H.
  - intros H. exists (b, t). split; [reflexivity|]. apply filter_In.
    split; [exact H | apply String.eqb_refl].
Qed.

End FirstSeen.

Section DictFacts.
Variable f : string -> list json.

Lemma dict_lookup_keys (b : string) (ks : list string) :
  dict_lookup (JStr b) (map (fun k => (JStr k, f k)) ks) =
  if mem b ks then Some (f b) else None.
Proof.
  induction ks as [|k ks IH]; [reflexivity|].
  cbn [map dict_lookup py_eq]. unfold mem. cbn [existsb]. fold (mem b ks).
  destruct (String.eqb_spec b k) as [E|E]; [subst; reflexivity|]. exact IH.
Qed.

Lemma dict_append_keys (b : string) (x : json) (ks : list string) :
  NoDup ks ->
  dict_append (JStr b) x (map (fun k => (JStr k, f k)) ks) =
  map (fun k => (JStr k, if String.eqb k b then f k ++ [x] else f k)) ks.
Proof.
  induction 1 as [|k ks Hk Hnd IH]; [reflexivity|].
  cbn [map dict_append py_eq]. destruct (String.eqb_spec b k) as [E|E].
  - subst k. rewrite String.eqb_refl. f_equal.
    apply map_ext_in. intros k' Hin.
    destruct (String.eqb_spec k' b) as [E'|E']; [subst; contradiction | reflexivity].
  - destruct (String.eqb_spec k b) as [E'|E']; [congruence|]. f_equal. exact IH.
Qed.

Lemma existsb_py_eq_strings (t : string) (ts : list string) :
  existsb (py_eq (JStr t)) (map JStr ts) = mem t ts.
Proof.
  induction ts as [|a ts IH]; [reflexivity|].
  cbn [map existsb]. rewrite IH. reflexivity.
Qed.

End DictFacts.

Section RestrictionFacts.

Lemma restrictions_of_snoc_seen (pairs0 : list (string * string)) (b t : string) :
  mem b (map fst pairs0) = true ->
  restrictions_of (pairs0 ++ [(b, t)]) =
  map (fun k => (JStr k,
                 if String.eqb k b
                 then (if mem t (types_at b pairs0)
                       then map JStr (first_seen (types_at k pairs0))
                       else map JStr (first_seen (types_at k pairs0)) ++ [JStr t])
                 else map JStr (first_seen (types_at k pairs0))))
      (first_seen (map fst pairs0)).
Proof.
  intros Hb. unfold restrictions_of. rewrite map_app. cbn [map fst].
  rewrite first_seen_snoc, Hb. apply map_ext. intros k. f_equal.
  rewrite types_at_snoc. destruct (String.eqb_spec k b) as [E|E].
  - subst k. rewrite first_seen_snoc. destruct (mem t (types_at b pairs0)); [reflexivity|].
    rewrite map_app. reflexivity.
  - rewrite app_nil_r. reflexivity.
Qed.

Lemma restrictions_of_snoc_new (pairs0 : list (string * string)) (b t : string) :
  mem b (map fst pairs0) = false ->
  restrictions_of (pairs0 ++ [(b, t)]) = restrictions_of pairs0 ++ [(JStr b, [JStr t])].
Proof.
  intros Hb. unfold restrictions_of. rewrite map_app. cbn [map fst].
  rewrite first_seen_snoc, Hb, map_app. f_equal.
  - apply map_ext_in. intros k Hin. f_equal. rewrite types_at_snoc.
    destruct (String.eqb_spec k b) as [E|E]; [|rewrite app_nil_r; reflexivity].
    exfalso. rewrite E in Hin. apply (proj1 (In_first_seen _ _)) in Hin.
    apply (proj1 (mem_false _ _)) in Hb. exact (Hb Hin).
  - cbn [map]. rewrite types_at_snoc, String.eqb_refl.
    rewrite (types_at_absent b pairs0) by (apply mem_false; exact Hb). reflexivity.
Qed.

(** One turn of the loop extends the mapping by one item. *)
Lemma restriction_body_step (item : json) (p : string * string)
    (pairs0 : list (string * string)) (l : log) :
  restriction_item item p ->
  RepoInfo.restriction_body item (restrictions_of pairs0) l =
    (Ok (restrictions_of (pairs0 ++ [p])), l).
Proof.
  destruct p as [b t]. intros (fields & matcher & -> & Hm & Hid & Ht). cbn [fst snd] in *.
  unfold RepoInfo.restriction_body.
  unfold bind at 1. cbn [subscript]. rewrite Hm. unfold ret at 1.
  unfold bind at 1. cbn [subscript]. rewrite Hid. unfold ret at 1.
  unfold bind at 1. rewrite Ht. unfold ret at 1. cbn [hashable].
  unfold restrictions_of at 1.
  rewrite (dict_lookup_keys (fun k => map JStr (first_seen (types_at k pairs0)))).
  rewrite mem_first_seen. destruct (mem b (map fst pairs0)) eqn:Hb.
  - rewrite existsb_py_eq_strings, mem_first_seen.
    rewrite (restrictions_of_snoc_seen pairs0 b t Hb).
    destruct (mem t (types_at b pairs0)) eqn:Hmem.
    + unfold ret, restrictions_of. f_equal. f_equal. apply map_ext. intros k.
      destruct (String.eqb k b); reflexivity.
    + unfold ret, restrictions_of. f_equal. f_equal.
      rewrite (dict_append_keys (fun k => map JStr (first_seen (types_at k pairs0))))
        by apply NoDup_first_seen.
      reflexivity.
  - rewrite (restrictions_of_snoc_new pairs0 b t Hb). reflexivity.
Qed.

Lemma restriction_loop (items : list json) (pairs : list (string * string)) :
  Forall2 restriction_item items pairs ->
  forall pairs0 l,
    for_each items RepoInfo.restriction_body (restrictions_of pairs0) l =
      (Ok (restrictions_of (pairs0 ++ pairs)), l).
Proof.
  induction 1 as [|item p items pairs Hitem _ IH]; intros pairs0 l.
  - cbn. rewrite app_nil_r. reflexivity.
  - cbn [for_each]. unfold bind. rewrite (restriction_body_step item p pairs0 l Hitem).
    rewrite IH, <- app_assoc. reflexivity.
Qed.

Lemma NoDup_map_JStr (ks : list string) : NoDup ks -> NoDup (map JStr ks).
Proof.
  induction 1 as [|k ks Hk _ IH]; cbn; constructor; [|exact IH].
  rewrite in_map_iff. intros (k' & E & Hin). injection E as ->. contradiction.
Qed.

End RestrictionFacts.

(** C8, as amended.  The branch-restrictions read sends one request and
    reduces the items of that one response (whether or not the response
    names a next page) into a mapping from each branch matcher identity to
    the distinct restriction-type strings applied to it: one entry per
    branch, each branch's types in first-seen order and without duplicates,
    and a type is listed under a branch exactly when the pair occurs among
    the items. *)
Theorem get_branch_restrictions_reduces_first_page
    (bitbucket_url : string) (srv : server) (auth : string * string)
    (project_key repository_slug : string) (l : log) (r : response)
    (items : list json) (next : option json) (pairs : list (string * string)) :
  let rq := restrictions_request bitbucket_url auth project_key repository_slug in
  srv (trace l) rq = inr r ->
  is_page r items next ->
  Forall2 restriction_item items pairs ->
  RepoInfo.get_branch_restrictions bitbucket_url srv auth project_key repository_slug l =
    (Ok (restrictions_of pairs), mkLog (stdout l) (trace l ++ [Http rq]))
  /\ (forall b,
        dict_lookup (JStr b) (restrictions_of pairs) =
        if mem b (map fst pairs) then Some (map JStr (first_seen (types_at b pairs))) else None)
  /\ NoDup (map fst (restrictions_of pairs))
  /\ (forall b, NoDup (first_seen (types_at b pairs)))
  /\ (forall b t, In t (first_seen (types_at b pairs)) <-> In (b, t) pairs).
Proof.
  intros rq Hsrv (Hst & fields & Hbody & Hvalues & _) Hitems.
  split; [|split; [|split; [|split]]].
  - unfold RepoInfo.get_branch_restrictions. unfold bind at 1.
    fold (restrictions_request bitbucket_url auth project_key repository_slug). fold rq.
    rewrite (http_answered _ _ _ _ Hsrv).
    unfold bind at 1. unfold response_json. rewrite Hbody. unfold ret at 1.
    rewrite Hst. cbn [Z.eqb Pos.eqb].
    unfold bind at 1. cbn [subscript]. rewrite Hvalues. unfold ret at 1.
    unfold bind at 1. cbn [py_iter]. unfold ret at 1.
    exact (restriction_loop items pairs Hitems [] _).
  - intros b. unfold restrictions_of.
    rewrite (dict_lookup_keys (fun k => map JStr (first_seen (types_at k pairs)))).
    rewrite mem_first_seen. reflexivity.
  - unfold restrictions_of. rewrite map_map. cbn [fst].
    apply NoDup_map_JStr, NoDup_first_seen.
  - intros b. apply NoDup_first_seen.
  - intros b t. rewrite In_first_seen. apply In_types_at.
Qed.

Lemma get_branch_restrictions_reduces_first_page_witness :
  RepoInfo.get_branch_restrictions "https://bitbucket.example.com" repeated_pairs_server bob
    "PRJ" "repo" empty_log =
    (Ok [(JStr "main", [JStr "read-only"; JStr "fast-forward-only"]);
         (JStr "dev", [JStr "no-deletes"])],
     mkLog [] [Http (restrictions_request "https://bitbucket.example.com" bob "PRJ" "repo")]).
Proof.
  refine (proj1 (get_branch_restrictions_reduces_first_page "https://bitbucket.example.com"
                   repeated_pairs_server bob "PRJ" "repo" empty_log _
                   [restriction "main" "read-only"; restriction "dev" "no-deletes";
                    restriction "main" "fast-forward-only"; restriction "main" "read-only";
                    restriction "dev" "no-deletes"]
                   None
                   [("main", "read-only"); ("dev", "no-deletes"); ("main", "fast-forward-only");
                    ("main", "read-only"); ("dev", "no-deletes")]
                   eq_refl _ _)).
  - split; [reflexivity|]. eexists. repeat split; reflexivity.
  - repeat constructor; do 2 eexists; repeat split; reflexivity.
Defined.

(** C8, as stated, fails: the read is no paginated collector.  When the
    platform serves the restrictions on two pages, the items of the second
    page are missing from the result. *)
Lemma branch_restrictions_ignore_later_pages : ~ collects_restrictions_of_all_pages.
Proof.
  intros H.
  specialize (H "https://bitbucket.example.com" two_page_server bob "PRJ" "repo"
                [(JStr (RepoInfo.branch_restrictions_url "https://bitbucket.example.com"
                          "PRJ" "repo"),
                  [restriction "refs/heads/main" "pull-request-only"]);
                 (JStr restrictions_page2, [restriction "refs/heads/release" "read-only"])]
                [("refs/heads/main", "pull-request-only"); ("refs/heads/release", "read-only")]).
  assert (Hserves : serves two_page_server (inspector_request bob)
            (JStr (RepoInfo.branch_restrictions_url "https://bitbucket.example.com" "PRJ" "repo"))
            [(JStr (RepoInfo.branch_restrictions_url "https://bitbucket.example.com"
                      "PRJ" "repo"),
              [restriction "refs/heads/main" "pull-request-only"]);
             (JStr restrictions_page2, [restriction "refs/heads/release" "read-only"])]).
  { apply serves_next with (e' := JStr restrictions_page2).
    - reflexivity.
    - intros h. eexists. split; [reflexivity|]. split; [reflexivity|].
      eexists. repeat split; reflexivity.
    - apply serves_last.
      + reflexivity.
      + intros h. eexists. split; [reflexivity|]. split; [reflexivity|].
        eexists. repeat split; reflexivity. }
  specialize (H Hserves).
  assert (Hitems : Forall2 restriction_item
            (List.concat (map snd
               [(JStr (RepoInfo.branch_restrictions_url "https://bitbucket.example.com"
                         "PRJ" "repo"),
                 [restriction "refs/heads/main" "pull-request-only"]);
                (JStr restrictions_page2, [restriction "refs/heads/release" "read-only"])]))
            [("refs/heads/main", "pull-request-only"); ("refs/heads/release", "read-only")]).
  { repeat constructor; do 2 eexists; repeat split; reflexivity. }
  specialize (H Hitems). vm_compute in H. discriminate H.
Qed.

(** ** The bulk mutation workflow *)

Section WorkflowFacts.
Variable srv : server.
Variable hst : host.
Variable container_str : json -> string.
Variable credentials : BitbucketAuthentication.
Variables base_endpoint workspace feature_branch_name search_str replace_str
          commit_message pr_title pr_description : string.

Let body := SearchReplace.mutate_repository srv hst container_str credentials base_endpoint
              workspace feature_branch_name search_str replace_str commit_message
              pr_title pr_description.
Let steps := run_steps hst workspace feature_branch_name search_str replace_str commit_message.
Let attempt := step_try hst workspace feature_branch_name search_str replace_str commit_message.
Let call := step_run hst workspace feature_branch_name search_str replace_str commit_message.

Lemma all_steps_split (s : step) : all_steps = steps_before s ++ s :: steps_after s.
Proof. destruct s; reflexivity. Qed.

Lemma step_run_is_try (repository : string) (s : step) :
  call repository s =
  try_except (attempt repository s) (step_catches s) SearchReplace.failed_reraise.
Proof. destruct s; reflexivity. Qed.

(** A caught failure is printed and raised again. *)
Lemma step_run_reraises (repository : string) (s : step) (l1 l2 : log) (e : exn) :
  attempt repository s l1 = (Raise e, l2) ->
  step_catches s e = true ->
  call repository s l1 =
    (Raise e, mkLog (stdout l2 ++ ["Failed: " +++ exn_str e +++ nl]) (trace l2)).
Proof.
  intros Htry Hcatch. rewrite step_run_is_try. unfold try_except.
  rewrite Htry, Hcatch. reflexivity.
Qed.

(** The loop body runs the five steps in order and only then goes on. *)
Lemma mutate_repository_steps (repository : string) (l : log) :
  body repository tt l =
  (print repository ;;;
   steps repository all_steps ;;;
   SearchReplace.create_pr srv container_str credentials pr_title pr_description
     feature_branch_name base_endpoint workspace repository ;;;
   SearchReplace.cleanup_repository hst ("tmp_" +++ repository) ;;;
   SearchReplace.perform hst (Input "Press enter to continue")) l.
Proof.
  unfold body, SearchReplace.mutate_repository, steps, run_steps, all_steps.
  cbn [for_each step_run]. unfold bind, ret.
  destruct (print repository l) as [[[]| |] l0]; [|reflexivity..].
  destruct (SearchReplace.clone_repository hst _ _ l0) as [[[]| |] l1]; [|reflexivity..].
  destruct (SearchReplace.create_and_switch_branch hst _ _ l1) as [[[]| |] l2];
    [|reflexivity..].
  destruct (SearchReplace.update_references hst _ _ _ l2) as [[[]| |] l3]; [|reflexivity..].
  destruct (SearchReplace.stage_and_commit hst _ _ l3) as [[[]| |] l4]; [|reflexivity..].
  destruct (SearchReplace.push_changes hst _ _ l4) as [[[]| |] l5]; reflexivity.
Qed.

End WorkflowFacts.

(** C2, as amended.  In the bulk mutation workflow a failure in a
    per-target step (clone, branch creation, edit, commit or push) that the
    step's handler catches (a [GitCommandError] in the four git steps, any
    exception in the edit step) is printed as ["Failed: ..."] and raised
    again; the driver loop has no handler, so the exception ends the
    whole run: the run's outcome is that exception and its log ends with the
    failure message, whatever targets were still to come.  The clone step is
    no exception among the five. *)
Theorem step_failure_aborts_run
    (srv : server) (hst : host) (container_str : json -> string)
    (credentials : BitbucketAuthentication)
    (base_endpoint workspace feature_branch_name search_str replace_str
       commit_message pr_title pr_description : string)
    (s : step) (repository : string) (later : list string) (l l1 l2 : log) (e : exn) :
  run_steps hst workspace feature_branch_name search_str replace_str commit_message
    repository (steps_before s) (mkLog (stdout l ++ [repository +++ nl]) (trace l)) = (Ok tt, l1) ->
  step_try hst workspace feature_branch_name search_str replace_str commit_message
    repository s l1 = (Raise e, l2) ->
  step_catches s e = true ->
  for_each (repository :: later)
    (SearchReplace.mutate_repository srv hst container_str credentials base_endpoint
       workspace feature_branch_name search_str replace_str commit_message
       pr_title pr_description) tt l =
    (Raise e, mkLog (stdout l2 ++ ["Failed: " +++ exn_str e +++ nl]) (trace l2)).
Proof.
  intros Hbefore Htry Hcatch.
  cbn [for_each]. unfold bind at 1. rewrite mutate_repository_steps.
  unfold bind at 1. cbn [print write_out]. unfold bind at 1.
  rewrite (all_steps_split s). unfold run_steps at 1. rewrite for_each_app.
  unfold bind at 1. unfold run_steps in Hbefore. rewrite Hbefore.
  cbn [for_each]. unfold bind at 1.
  rewrite (step_run_reraises hst workspace feature_branch_name search_str replace_str
             commit_message repository s l1 l2 e Htry Hcatch).
  reflexivity.
Qed.

Lemma step_failure_aborts_run_witness :
  for_each ["a"; "b"]
    (SearchReplace.mutate_repository accepting_server branch_failing_host no_container_str
       alice "https://api.bitbucket.org/2.0" "ws" "feature/x" "old" "new"
       "Updating module references" "Updating module references" "PR") tt empty_log =
    (Raise (GitCommandError "fatal: a branch named 'feature/x' already exists"),
     mkLog ["a" +++ nl; " - Cloning repository locally: "; "Successful" +++ nl;
            " - Creating and switching to a new branch: ";
            "Failed: fatal: a branch named 'feature/x' already exists" +++ nl]
           [GitClone "git@bitbucket.org:ws/a.git" "tmp_a"; GitOpen "tmp_a";
            GitCreateHead "tmp_a" "feature/x"]).
Proof.
  exact (step_failure_aborts_run accepting_server branch_failing_host no_container_str
           alice "https://api.bitbucket.org/2.0" "ws" "feature/x" "old" "new"
           "Updating module references" "Updating module references" "PR"
           Branch "a" ["b"] empty_log
           (mkLog ["a" +++ nl; " - Cloning repository locally: "; "Successful" +++ nl]
                  [GitClone "git@bitbucket.org:ws/a.git" "tmp_a"])
           (mkLog ["a" +++ nl; " - Cloning repository locally: "; "Successful" +++ nl;
                   " - Creating and switching to a new branch: "]
                  [GitClone "git@bitbucket.org:ws/a.git" "tmp_a"; GitOpen "tmp_a";
                   GitCreateHead "tmp_a" "feature/x"])
           (GitCommandError "fatal: a branch named 'feature/x' already exists")
           eq_refl eq_refl eq_refl).
Defined.

(** C2, as stated, fails: when creating the branch fails in the first of
    two targets, the second target is never cloned. *)
Lemma loop_does_not_advance_after_step_failure : ~ advances_after_step_failure.
Proof.
  intros H.
  specialize (H accepting_server branch_failing_host no_container_str alice
                "https://api.bitbucket.org/2.0" "ws" "feature/x" "old" "new"
                "Updating module references" "Updating module references" "PR"
                Branch "a" "b" [] empty_log
                (mkLog ["a" +++ nl; " - Cloning repository locally: "; "Successful" +++ nl]
                       [GitClone "git@bitbucket.org:ws/a.git" "tmp_a"])
                (mkLog ["a" +++ nl; " - Cloning repository locally: "; "Successful" +++ nl;
                        " - Creating and switching to a new branch: "]
                       [GitClone "git@bitbucket.org:ws/a.git" "tmp_a"; GitOpen "tmp_a";
                        GitCreateHead "tmp_a" "feature/x"])
                (GitCommandError "fatal: a branch named 'feature/x' already exists")).
  assert (Hin : In (GitClone "git@bitbucket.org:ws/b.git" "tmp_b")
                   [GitClone "git@bitbucket.org:ws/a.git" "tmp_a"; GitOpen "tmp_a";
                    GitCreateHead "tmp_a" "feature/x"]).
  { apply H; [discriminate | reflexivity | reflexivity | reflexivity]. }
  cbn in Hin. repeat destruct Hin as [Hin|Hin]; try discriminate Hin; exact Hin.
Qed.

(** * Further properties of the scripts *)

(** ** Text utilities *)








Example generate_project_key_example :
  CreateProject.generate_project_key "Foundation" "Finance" = "FIN_FOU"
  /\ CreateProject.generate_project_key "X" "" = "_X".
Proof. split; reflexivity. Qed.

Lemma split_on_cons (sep : ascii) (s : string) :
  exists w ws, split_on sep s = w :: ws.
Proof.
  induction s as [|c s (w & ws & IH)]; cbn.
  - eexists _, _. reflexivity.
  - destruct (Ascii.eqb c sep); [eexists _, _; reflexivity|].
    rewrite IH. eexists _, _. reflexivity.
Qed.

(** [split_on] (the script's [path.split('/')]) loses nothing: joining
    the pieces with the separator gives the string back, no piece holds the
    separator, and there is one piece more than separators in the string. *)
Lemma split_on_round_trip (sep : ascii) (s : string) :
  String.concat (String sep EmptyString) (split_on sep s) = s
  /\ Forall (fun piece => count_char sep piece = 0) (split_on sep s)
  /\ List.length (split_on sep s) = S (count_char sep s).
Proof.
  induction s as [|c s (IHj & IHf & IHl)].
  - cbn. repeat split. repeat constructor.
  - cbn [split_on count_char]. destruct (split_on_cons sep s) as (w & ws & Hs).
    rewrite Hs in *. destruct (Ascii.eqb_spec c sep) as [E|E].
    + subst c. split; [|split].
      * cbn [String.concat]. cbn in IHj |- *. rewrite IHj. reflexivity.
      * constructor; [reflexivity | exact IHf].
      * cbn [List.length] in *. lia.
    + pose proof (Forall_inv IHf) as Hw. pose proof (Forall_inv_tail IHf) as Hws.
      split; [|split].
      * destruct ws as [|w' ws]; cbn in IHj |- *; rewrite IHj; reflexivity.
      * constructor; [|exact Hws]. cbn.
        destruct (Ascii.eqb_spec c sep) as [E'|_]; [contradiction | exact Hw].
      * cbn [List.length] in *. lia.
Qed.

Lemma prefix_true (p s : string) :
  String.prefix p s = true <-> exists rest, s = p +++ rest.
Proof.
  revert s; induction p as [|a p IH]; intros s.
  - destruct s; cbn; (split; [intros _; eexists; reflexivity | reflexivity]).
  - destruct s as [|b s]; cbn.
    + split; [discriminate | intros [rest H]; discriminate H].
    + destruct (ascii_dec a b) as [E|E].
      * subst b. rewrite IH. split.
        -- intros [rest ->]. exists rest. reflexivity.
        -- intros [rest H]. injection H as ->. exists rest. reflexivity.
      * split; [discriminate|]. intros [rest H]. injection H as H _. congruence.
Qed.

Lemma contains_true (needle hay : string) :
  contains needle hay = true <-> exists pre post, hay = pre +++ needle +++ post.
Proof.
  induction hay as [|c hay IH].
  - cbn [contains]. rewrite prefix_true. split.
    + intros [rest H]. exists "", rest. exact H.
    + intros (pre & post & H). destruct pre; [|discriminate H]. exists post. exact H.
  - cbn [contains]. rewrite orb_true_iff, prefix_true, IH. split.
    + intros [[rest H] | (pre & post & H)].
      * exists "", rest. exact H.
      * exists (String c pre), post. rewrite H. reflexivity.
    + intros (pre & post & H). destruct pre as [|a pre].
      * left. exists post. exact H.
      * right. injection H as _ H. exists pre, post. exact H.
Qed.

(** X2.  The edit step skips a directory exactly when its path holds
    [.git] or [.terraform] anywhere as a substring, not only as a path
    segment: a directory such as [.github] or [docs.gitlab] is skipped
    too. *)
Theorem skipped_is_substring_test (root : string) :
  SearchReplace.skipped root = true <->
  (exists pre post, root = pre +++ ".git" +++ post) \/
  (exists pre post, root = pre +++ ".terraform" +++ post).
Proof.
  unfold SearchReplace.skipped. rewrite orb_true_iff, !contains_true. reflexivity.
Qed.

Example skipped_github_directory :
  SearchReplace.skipped "tmp_repo/.github/workflows" = true
  /\ SearchReplace.skipped "tmp_repo/docs.gitlab" = true
  /\ SearchReplace.skipped "tmp_repo/src" = false.
Proof. repeat split. Qed.

Lemma fromkeys_from (l p : list string) :
  fold_left (fun keys k => if existsb (String.eqb k) keys then keys else keys ++ [k])
    l (first_seen p) = first_seen (p ++ l).
Proof.
  revert p; induction l as [|k l IH]; intros p.
  - rewrite app_nil_r. reflexivity.
  - cbn [fold_left]. fold (mem k (first_seen p)). rewrite mem_first_seen.
    rewrite <- first_seen_snoc, IH, <- app_assoc. reflexivity.
Qed.

(** X3.  [fromkeys] (the script's [list(dict.fromkeys(l))]) removes
    duplicates and keeps the first occurrences in their order: the result
    has no duplicates, holds exactly the elements of [l], and is [l] with
    every later repetition dropped. *)
Theorem fromkeys_keeps_first_occurrences (l : list string) :
  fromkeys l = first_seen l
  /\ NoDup (fromkeys l)
  /\ (forall x, In x (fromkeys l) <-> In x l).
Proof.
  assert (H : fromkeys l = first_seen l) by exact (fromkeys_from l []).
  rewrite H. split; [reflexivity|]. split; [apply NoDup_first_seen|].
  intros x. apply In_first_seen.
Qed.

Example fromkeys_example : fromkeys ["repoA"; "repoB"; "repoA"] = ["repoA"; "repoB"].
Proof. reflexivity. Qed.

(** ** More on the audit collectors *)

Lemma bind_ok {A B} (m : M A) (k : A -> M B) (l l' : log) (a : A) :
  m l = (Ok a, l') -> bind m k l = k a l'.
Proof. intros H. unfold bind. rewrite H. reflexivity. Qed.

Lemma bind_raise {A B} (m : M A) (k : A -> M B) (l l' : log) (e : exn) :
  m l = (Raise e, l') -> bind m k l = (Raise e, l').
Proof. intros H. unfold bind. rewrite H. reflexivity. Qed.

Lemma subscript_ok (fields : list (string * json)) (k : string) (v : json) (l : log) :
  assoc k fields = Some v -> subscript (JObj fields) k l = (Ok v, l).
Proof. intros H. cbn. rewrite H. reflexivity. Qed.

Lemma subscript_missing (fields : list (string * json)) (k : string) (l : log) :
  assoc k fields = None -> subscript (JObj fields) k l = (Raise (KeyError k), l).
Proof. intros H. cbn. rewrite H. reflexivity. Qed.

Ltac field H := erewrite bind_ok by (apply subscript_ok; exact H).

Lemma groups_info_loop (entries : list json) (sps : list (json * json)) :
  Forall2 group_permission entries sps ->
  forall acc l,
    for_each entries (fun group groups_info =>
        g <- subscript group "group" ;;
        slug <- subscript g "slug" ;;
        permission <- subscript group "permission" ;;
        ret (groups_info ++ [JObj [("slug", slug); ("permission", permission)]])) acc l =
    (Ok (acc ++ map permission_record sps), l).
Proof.
  induction 1 as [|entry sp entries sps (fields & g & -> & Hg & Hs & Hp) _ IH]; intros acc l.
  - cbn. rewrite app_nil_r. reflexivity.
  - cbn [for_each map]. unfold bind at 1.
    field Hg. field Hs. field Hp. unfold ret at 1.
    rewrite IH, <- app_assoc. reflexivity.
Qed.

Lemma groups_info_of_page (groups : json) (fields : list (string * json))
    (entries : list json) (sps : list (json * json)) (l : log) :
  groups = JObj fields ->
  assoc "values" fields = Some (JArr entries) ->
  Forall2 group_permission entries sps ->
  Audit.groups_info_of groups l = (Ok (map permission_record sps), l).
Proof.
  intros -> Hv Hentries. unfold Audit.groups_info_of.
  field Hv. unfold bind at 1. cbn [py_iter]. unfold ret at 1.
  exact (groups_info_loop entries sps Hentries [] l).
Qed.

Section CollectorFacts.
Variables (bitbucket_url workspace : string).
Variable srv : server.
Variable container_str : json -> string.
Variable credentials : BitbucketAuthentication.

Let rq_of := page_request container_str credentials.

Lemma repository_body_well_formed
    (item slug description main_branchname is_private project_key : json)
    (entries : list json) (sps : list (json * json)) (next : option json)
    (acc : list json) (l : log) (r : response) :
  well_formed_repository item slug description main_branchname is_private project_key ->
  srv (trace l)
    (rq_of (Audit.repository_groups_endpoint bitbucket_url workspace container_str slug))
    = inr r ->
  is_page r entries next ->
  Forall2 group_permission entries sps ->
  Audit.repository_body bitbucket_url workspace srv container_str credentials item acc l =
    (Ok (acc ++ [JObj [("slug", slug); ("description", description);
                       ("main_branchname", main_branchname); ("is_private", is_private);
                       ("project_key", project_key);
                       ("groups", JArr (map permission_record sps))]]),
     mkLog (stdout l)
       (trace l ++ [Http (repository_groups_request bitbucket_url workspace container_str
                            credentials item)])).
Proof.
  intros (fields & mb & pr & -> & Hslug & Hdesc & Hmb & Hname & Hpriv & Hpr & Hkey)
         Hsrv (Hst & gf & Hj & Hv & _) Hentries.
  unfold Audit.repository_body.
  field Hslug. field Hdesc. field Hmb. field Hname. field Hpriv. field Hpr. field Hkey.
  field Hslug.
  erewrite bind_ok by (exact (api_get_request_page srv container_str credentials _ l r
                                (JObj gf) Hsrv Hst Hj)).
  erewrite bind_ok by (exact (groups_info_of_page (JObj gf) gf entries sps _ eq_refl Hv Hentries)).
  unfold ret, repository_groups_request. rewrite Hslug. reflexivity.
Qed.

Lemma project_body_well_formed
    (item name key description : json)
    (entries : list json) (sps : list (json * json)) (next : option json)
    (fields : list (string * json)) (projects : list json) (endpoint : json)
    (l : log) (r : response) :
  well_formed_project item name key description ->
  srv (trace l)
    (rq_of (Audit.project_groups_endpoint bitbucket_url workspace container_str key))
    = inr r ->
  is_page r entries next ->
  Forall2 group_permission entries sps ->
  Audit.project_body bitbucket_url workspace srv container_str credentials
    (JObj fields) item (projects, endpoint) l =
    (Ok (projects ++ [JObj [("name", name); ("key", key); ("description", description);
                            ("groups", JArr (map permission_record sps))]],
         next_or_none (assoc "next" fields)),
     mkLog (stdout l)
       (trace l ++ [Http (project_groups_request bitbucket_url workspace container_str
                            credentials item)])).
Proof.
  intros (pf & -> & Hname & Hkey & Hdesc) Hsrv (Hst & gf & Hj & Hv & _) Hentries.
  unfold Audit.project_body. cbn [fst].
  field Hname. field Hkey. field Hdesc. field Hkey.
  erewrite bind_ok by (exact (api_get_request_page srv container_str credentials _ l r
                                (JObj gf) Hsrv Hst Hj)).
  erewrite bind_ok by (exact (groups_info_of_page (JObj gf) gf entries sps _ eq_refl Hv Hentries)).
  unfold bind, py_get, ret, project_groups_request. rewrite Hkey.
  destruct (assoc "next" fields); reflexivity.
Qed.

End CollectorFacts.

(** X4.  For a repository item that has the fields the collector reads,
    the body of the repository loop records slug, description, main branch
    name, visibility and project key, and attaches the group permissions of
    the nested answer.  The nested read is a single request: when that
    answer names a next page, the groups on it are not fetched. *)
Theorem repository_record_reads_one_groups_page
    (bitbucket_url workspace : string) (srv : server) (container_str : json -> string)
    (credentials : BitbucketAuthentication)
    (item slug description main_branchname is_private project_key : json)
    (entries : list json) (sps : list (json * json)) (next : option json)
    (acc : list json) (l : log) (r : response) :
  well_formed_repository item slug description main_branchname is_private project_key ->
  srv (trace l)
    (page_request container_str credentials
       (Audit.repository_groups_endpoint bitbucket_url workspace container_str slug))
    = inr r ->
  is_page r entries next ->
  Forall2 group_permission entries sps ->
  Audit.repository_body bitbucket_url workspace srv container_str credentials item acc l =
    (Ok (acc ++ [JObj [("slug", slug); ("description", description);
                       ("main_branchname", main_branchname); ("is_private", is_private);
                       ("project_key", project_key);
                       ("groups", JArr (map permission_record sps))]]),
     mkLog (stdout l)
       (trace l ++ [Http (repository_groups_request bitbucket_url workspace container_str
                            credentials item)])).
Proof. apply repository_body_well_formed. Qed.

Lemma repository_record_reads_one_groups_page_witness :
  Audit.repository_body "https://api.bitbucket.org" "ws" audit_server no_container_str alice
    (repository_item "app") [] empty_log =
    (Ok [repository_record "app"],
     mkLog [] [Http (repository_groups_request "https://api.bitbucket.org" "ws"
                       no_container_str alice (repository_item "app"))]).
Proof.
  refine (repository_record_reads_one_groups_page "https://api.bitbucket.org" "ws"
            audit_server no_container_str alice (repository_item "app")
            (JStr "app") (JStr "") (JStr "main") (JBool true) (JStr "PRJ")
            [JObj [("permission", JStr "write"); ("group", JObj [("slug", JStr "developers")])]]
            [(JStr "developers", JStr "write")]
            (Some (JStr "https://api.bitbucket.org/more-groups")) [] empty_log _ _ eq_refl _ _).
  - do 3 eexists. repeat split; reflexivity.
  - split; [reflexivity|]. eexists. repeat split; reflexivity.
  - repeat constructor. do 2 eexists. repeat split; reflexivity.
Defined.

Section ProjectsFacts.
Variables (bitbucket_url workspace : string).
Variable srv : server.
Variable container_str : json -> string.
Variable credentials : BitbucketAuthentication.

Let rq_of := page_request container_str credentials.
Let recorded := project_recorded bitbucket_url workspace srv container_str credentials.
Let nested := project_groups_request bitbucket_url workspace container_str credentials.

(** The item loop of the project collector: the endpoint is replaced by the
    page's ['next'] as soon as one item has been handled. *)
Lemma project_items_loop (fields : list (string * json)) (items records : list json) :
  Forall2 recorded items records ->
  forall acc endpoint l,
    for_each items
      (Audit.project_body bitbucket_url workspace srv container_str credentials (JObj fields))
      (acc, endpoint) l =
    (Ok (acc ++ records,
         match items with [] => endpoint | _ :: _ => next_or_none (assoc "next" fields) end),
     mkLog (stdout l) (trace l ++ map (fun item => Http (nested item)) items)).
Proof.
  induction 1 as [|item record items records Hitem Hrest IH]; intros acc endpoint l.
  - cbn. rewrite !app_nil_r, log_eta. reflexivity.
  - cbn [for_each map]. unfold bind. rewrite (Hitem fields acc endpoint l), IH.
    cbn [stdout trace]. rewrite <- !app_assoc. cbn [app].
    destruct items; reflexivity.
Qed.

Lemma projects_loop_done (fuel : nat) (acc : list json) (l : log) :
  Audit.projects_loop bitbucket_url workspace srv container_str fuel credentials
    JNull acc l = (Ok acc, l).
Proof. destruct fuel; reflexivity. Qed.

Lemma projects_loop_serves (e : json) (pages : list (json * list json)) :
  serves srv rq_of e pages ->
  Forall (fun page => snd page <> []) pages ->
  forall recordss,
    Forall2 (fun page records => Forall2 recorded (snd page) records) pages recordss ->
    forall fuel acc l,
      List.length pages <= fuel ->
      Audit.projects_loop bitbucket_url workspace srv container_str fuel credentials
        e acc l =
      (Ok (acc ++ List.concat recordss),
       mkLog (stdout l) (trace l ++ collector_trace rq_of nested pages)).
Proof.
  induction 1 as [e items He Hsrv | e items e' rest He Hsrv Hrest IH];
    intros Hne recordss Hrec fuel acc l Hfuel.
  - inversion Hrec as [|page records ps rs Hitems Hnil]; subst.
    inversion Hnil; subst. cbn [snd] in Hitems.
    pose proof (Forall_inv Hne) as Hitems_ne. cbn [snd] in Hitems_ne.
    destruct fuel as [|fuel]; [cbn in Hfuel; lia|].
    cbn [Audit.projects_loop]. rewrite He.
    destruct (Hsrv (trace l)) as (r & Hr & Hst & fields & Hj & Hv & Hn).
    erewrite bind_ok
      by (exact (api_get_request_page srv container_str credentials e l r (JObj fields)
                   Hr Hst Hj)).
    field Hv. unfold bind at 1. cbn [py_iter]. unfold ret at 1.
    erewrite bind_ok by (exact (project_items_loop fields items records Hitems acc e _)).
    cbn [fst snd]. destruct items as [|item items]; [contradiction|].
    rewrite Hn. cbn [next_or_none]. rewrite projects_loop_done.
    cbn [stdout trace List.concat collector_trace flat_map fst snd].
    rewrite !app_nil_r, <- app_assoc. reflexivity.
  - inversion Hrec as [|page records ps rs Hitems Hmore]; subst. cbn [snd] in Hitems.
    pose proof (Forall_inv Hne) as Hitems_ne. cbn [snd] in Hitems_ne.
    pose proof (Forall_inv_tail Hne) as Hrest_ne.
    destruct fuel as [|fuel]; [cbn in Hfuel; lia|].
    cbn [Audit.projects_loop]. rewrite He.
    destruct (Hsrv (trace l)) as (r & Hr & Hst & fields & Hj & Hv & Hn).
    erewrite bind_ok
      by (exact (api_get_request_page srv container_str credentials e l r (JObj fields)
                   Hr Hst Hj)).
    field Hv. unfold bind at 1. cbn [py_iter]. unfold ret at 1.
    erewrite bind_ok by (exact (project_items_loop fields items records Hitems acc e _)).
    cbn [fst snd]. destruct items as [|item items]; [contradiction|].
    rewrite Hn. cbn [next_or_none].
    rewrite (IH Hrest_ne rs Hmore fuel) by (cbn in Hfuel; lia).
    cbn [stdout trace List.concat collector_trace flat_map fst snd].
    rewrite <- !app_assoc. reflexivity.
Qed.

End ProjectsFacts.

(** X5.  On a served chain of pages none of which is empty, [get_projects]
    returns the records of all pages' items in page order and fetches each
    page exactly once (each item adding its one nested groups request). *)
Theorem get_projects_collects_nonempty_pages
    (bitbucket_url workspace : string) (srv : server) (container_str : json -> string)
    (credentials : BitbucketAuthentication)
    (pages : list (json * list json)) (recordss : list (list json)) (fuel : nat) :
  serves srv (page_request container_str credentials)
    (Audit.projects_endpoint0 bitbucket_url workspace) pages ->
  Forall (fun page => snd page <> []) pages ->
  Forall2 (fun page records =>
             Forall2 (project_recorded bitbucket_url workspace srv container_str credentials)
               (snd page) records) pages recordss ->
  List.length pages <= fuel ->
  Audit.get_projects bitbucket_url workspace srv container_str fuel credentials empty_log =
    (Ok (List.concat recordss),
     mkLog ["Auditing projects: "; "Successful" +++ nl]
       (collector_trace (page_request container_str credentials)
          (project_groups_request bitbucket_url workspace container_str credentials) pages)).
Proof.
  intros Hserves Hne Hrec Hfuel. unfold Audit.get_projects.
  unfold bind at 1. cbn [Audit.print_status write_out]. unfold bind at 1.
  rewrite (projects_loop_serves bitbucket_url workspace srv container_str credentials
             _ pages Hserves Hne recordss Hrec fuel [] _ Hfuel).
  reflexivity.
Qed.

Lemma get_projects_collects_nonempty_pages_witness :
  Audit.get_projects "https://api.bitbucket.org" "ws" audit_server no_container_str
    2 alice empty_log =
  (Ok [project_record "PRJ"; project_record "OPS"],
   mkLog ["Auditing projects: "; "Successful" +++ nl]
     [Http (page_request no_container_str alice
              (Audit.projects_endpoint0 "https://api.bitbucket.org" "ws"));
      Http (project_groups_request "https://api.bitbucket.org" "ws" no_container_str alice
              (project_item "PRJ"));
      Http (page_request no_container_str alice (JStr projects_page2));
      Http (project_groups_request "https://api.bitbucket.org" "ws" no_container_str alice
              (project_item "OPS"))]).
Proof.
  refine (get_projects_collects_nonempty_pages "https://api.bitbucket.org" "ws"
            audit_server no_container_str alice
            [(Audit.projects_endpoint0 "https://api.bitbucket.org" "ws", [project_item "PRJ"]);
             (JStr projects_page2, [project_item "OPS"])]
            [[project_record "PRJ"]; [project_record "OPS"]] 2 _ _ _ _).
  - apply serves_next with (e' := JStr projects_page2).
    + reflexivity.
    + intros h. eexists. split; [reflexivity|]. split; [reflexivity|].
      eexists. repeat split; reflexivity.
    + apply serves_last; [reflexivity|].
      intros h. eexists. split; [reflexivity|]. split; [reflexivity|].
      eexists. repeat split; reflexivity.
  - repeat constructor; discriminate.
  - repeat constructor; intros fields projects endpoint l; cbn;
      destruct (assoc "next" fields); reflexivity.
  - cbn. lia.
Defined.



Lemma members_loop (members : list json) (das : list (json * json)) :
  Forall2 group_member members das ->
  forall acc l,
    for_each members (fun member member_info =>
        display_name <- subscript member "display_name" ;;
        account_id <- subscript member "account_id" ;;
        ret (member_info
               ++ [JObj [("display_name", display_name); ("account_id", account_id)]])) acc l =
    (Ok (acc ++ map member_record das), l).
Proof.
  induction 1 as [|member da members das (fields & -> & Hd & Ha) _ IH]; intros acc l.
  - cbn. rewrite app_nil_r. reflexivity.
  - cbn [for_each map]. unfold bind at 1. field Hd. field Ha. unfold ret at 1.
    rewrite IH, <- app_assoc. reflexivity.
Qed.

Lemma groups_loop (groups : list json) (gs : list (json * json * list (json * json))) :
  Forall2 well_formed_group groups gs ->
  forall acc l,
    for_each groups Audit.group_body acc l = (Ok (acc ++ map group_record gs), l).
Proof.
  induction 1 as [|group g groups gs (fields & members & -> & Hn & Hs & Hm & Hms) _ IH];
    intros acc l.
  - cbn. rewrite app_nil_r. reflexivity.
  - cbn [for_each map]. unfold bind at 1. unfold Audit.group_body.
    field Hn. field Hs. field Hm. unfold bind at 1. cbn [py_iter]. unfold ret at 1.
    erewrite bind_ok by (exact (members_loop members (snd g) Hms [] l)).
    unfold ret at 1. rewrite IH, <- app_assoc. reflexivity.
Qed.

(** X7.  [get_groups] reads the groups with a single request and no
    pagination: answered with a flat array of groups that have a name, a
    slug and members, it returns one record per group, in order, each with
    its members reduced to display name and account identifier (other
    member fields are dropped). *)
Theorem get_groups_flat_array
    (bitbucket_url workspace : string) (srv : server) (container_str : json -> string)
    (credentials : BitbucketAuthentication) (l : log) (r : response)
    (groups : list json) (gs : list (json * json * list (json * json))) :
  let rq := page_request container_str credentials
              (Audit.groups_endpoint bitbucket_url workspace) in
  srv (trace l) rq = inr r ->
  status_code r = 200%Z ->
  json_body r = Some (JArr groups) ->
  Forall2 well_formed_group groups gs ->
  Audit.get_groups bitbucket_url workspace srv container_str credentials l =
    (Ok (map group_record gs),
     mkLog (stdout l ++ ["Auditing groups: "; "Successful" +++ nl]) (trace l ++ [Http rq])).
Proof.
  intros rq Hsrv Hst Hbody Hgroups. unfold Audit.get_groups.
  unfold bind at 1. cbn [Audit.print_status write_out].
  erewrite bind_ok
    by (exact (api_get_request_page srv container_str credentials _ (mkLog _ (trace l)) r _
                 Hsrv Hst Hbody)).
  unfold bind at 1. cbn [py_iter]. unfold ret at 1.
  erewrite bind_ok by (exact (groups_loop groups gs Hgroups [] _)).
  unfold bind, Audit.print_status, write_out, ret. cbn [stdout trace].
  rewrite <- app_assoc. reflexivity.
Qed.

Lemma get_groups_flat_array_witness :
  Audit.get_groups "https://api.bitbucket.org" "ws" two_groups_server no_container_str alice
    empty_log =
    (Ok [JObj [("name", JStr "Developers"); ("slug", JStr "developers");
               ("members", JArr [JObj [("display_name", JStr "Ann");
                                       ("account_id", JStr "a-1")]])];
         JObj [("name", JStr "Admins"); ("slug", JStr "admins");
               ("members", JArr [JObj [("display_name", JStr "Ben");
                                       ("account_id", JStr "b-2")]])]],
     mkLog ["Auditing groups: "; "Successful" +++ nl]
       [Http (page_request no_container_str alice
                (Audit.groups_endpoint "https://api.bitbucket.org" "ws"))]).
Proof.
  refine (get_groups_flat_array "https://api.bitbucket.org" "ws" two_groups_server
            no_container_str alice empty_log _ _
            [(JStr "Developers", JStr "developers", [(JStr "Ann", JStr "a-1")]);
             (JStr "Admins", JStr "admins", [(JStr "Ben", JStr "b-2")])]
            eq_refl eq_refl eq_refl _).
  repeat constructor; do 2 eexists; repeat split; try reflexivity;
    repeat constructor; eexists; repeat split; reflexivity.
Defined.

(** X8.  The audit's main block writes the report only after the three
    collectors have all succeeded, in the order groups, repositories,
    projects.  When any of them raises, nothing is written: the exception
    is printed as ["Error: ..."] and the script ends normally. *)
Theorem audit_main_reports_or_prints_error
    (bitbucket_url workspace : string) (srv : server) (container_str : json -> string)
    (yaml_dump : json -> string) (write_text : list event -> string -> string -> option exn)
    (fuel : nat) (credentials : BitbucketAuthentication) (output_file : string) (l : log) :
  let main := Audit.main bitbucket_url workspace srv container_str yaml_dump write_text
                fuel credentials output_file in
  let groups_of := Audit.get_groups bitbucket_url workspace srv container_str credentials in
  let repositories_of :=
    Audit.get_repositories bitbucket_url workspace srv container_str fuel credentials in
  let projects_of :=
    Audit.get_projects bitbucket_url workspace srv container_str fuel credentials in
  (forall groups l1 repositories l2 projects l3,
      groups_of l = (Ok groups, l1) ->
      repositories_of l1 = (Ok repositories, l2) ->
      projects_of l2 = (Ok projects, l3) ->
      let report := yaml_dump (JObj [("groups", JArr groups);
                                     ("repositories", JArr repositories);
                                     ("projects", JArr projects)]) in
      write_text (trace l3) output_file report = None ->
      main l =
        (Ok tt,
         mkLog (stdout l3 ++ ["Generating YAML report: "; "Successful" +++ nl])
               (trace l3 ++ [FileWrite output_file (list_byte_of_string report)])))
  /\ (forall e l1,
        groups_of l = (Raise e, l1) ->
        main l = (Ok tt, mkLog (stdout l1 ++ ["Error: " +++ exn_str e +++ nl]) (trace l1)))
  /\ (forall groups l1 e l2,
        groups_of l = (Ok groups, l1) ->
        repositories_of l1 = (Raise e, l2) ->
        main l = (Ok tt, mkLog (stdout l2 ++ ["Error: " +++ exn_str e +++ nl]) (trace l2)))
  /\ (forall groups l1 repositories l2 e l3,
        groups_of l = (Ok groups, l1) ->
        repositories_of l1 = (Ok repositories, l2) ->
        projects_of l2 = (Raise e, l3) ->
        main l = (Ok tt, mkLog (stdout l3 ++ ["Error: " +++ exn_str e +++ nl]) (trace l3))).
Proof.
  intros main groups_of repositories_of projects_of.
  unfold main, Audit.main, try_except. split; [|split; [|split]].
  - intros groups l1 repositories l2 projects l3 Hg Hr Hp. cbv zeta. intros Hw.
    erewrite bind_ok by exact Hg. erewrite bind_ok by exact Hr.
    erewrite bind_ok by exact Hp.
    unfold bind, Audit.print_status, write_out. cbn [stdout trace].
    rewrite Hw. cbn [stdout trace]. rewrite <- app_assoc. reflexivity.
  - intros e l1 Hg. erewrite bind_raise by exact Hg. reflexivity.
  - intros groups l1 e l2 Hg Hr. erewrite bind_ok by exact Hg.
    erewrite bind_raise by exact Hr. reflexivity.
  - intros groups l1 repositories l2 e l3 Hg Hr Hp. erewrite bind_ok by exact Hg.
    erewrite bind_ok by exact Hr. erewrite bind_raise by exact Hp. reflexivity.
Qed.

Lemma audit_main_reports_or_prints_error_witness :
  Audit.main "https://api.bitbucket.org" "ws" (failing_server "down") no_container_str
    no_yaml_config never_writes 2 alice "output.yaml" empty_log =
    (Ok tt,
     mkLog ["Auditing groups: "; "Error: Failed to retrieve data. Status code: 500" +++ nl]
       [Http (page_request no_container_str alice
                (Audit.groups_endpoint "https://api.bitbucket.org" "ws"))])
  /\ fst (Audit.main "https://api.bitbucket.org" "ws" audit_server no_container_str
            no_yaml_config never_writes 2 alice "output.yaml" empty_log) = Ok tt
  /\ last (trace (snd (Audit.main "https://api.bitbucket.org" "ws" audit_server
                         no_container_str no_yaml_config never_writes 2 alice "output.yaml"
                         empty_log))) (Sleep 0) = FileWrite "output.yaml" [].
Proof.
  split.
  - exact (proj1 (proj2 (audit_main_reports_or_prints_error "https://api.bitbucket.org" "ws"
                           (failing_server "down") no_container_str no_yaml_config
                           never_writes 2 alice "output.yaml" empty_log))
             _ _ eq_refl).
  - rewrite (proj1 (audit_main_reports_or_prints_error "https://api.bitbucket.org" "ws"
                      audit_server no_container_str no_yaml_config never_writes 2 alice
                      "output.yaml" empty_log)
               _ _ _ _ _ _ eq_refl eq_refl eq_refl eq_refl).
    split; reflexivity.
Defined.

(** ** More on the single-repository inspector *)

(** X9.  On a 200 answer whose body is an object, [get_merge_checks]
    returns the five merge checks under their report labels, in a fixed
    order, when the object has all five settings; otherwise it raises
    [KeyError] for the first setting (in reading order) that is absent, and
    returns nothing. *)
Theorem get_merge_checks_reads_five_settings
    (bitbucket_url : string) (srv : server) (auth : string * string)
    (project_key repository_slug : string) (l : log) (r : response)
    (fields : list (string * json)) :
  let rq := merge_checks_request bitbucket_url auth project_key repository_slug in
  srv (trace l) rq = inr r ->
  status_code r = 200%Z ->
  json_body r = Some (JObj fields) ->
  RepoInfo.get_merge_checks bitbucket_url srv auth project_key repository_slug l =
    (match first_missing fields with
     | Some k => Raise (KeyError k)
     | None =>
         Ok [("No " +++ String "034" "needs work" +++ String "034" " status",
              setting "needsWork" fields);
             ("All reviewers approve", setting "requiredAllApprovers" fields);
             ("No incomplete tasks", setting "requiredAllTasksComplete" fields);
             ("Minimum Approvals", setting "requiredApprovers" fields);
             ("Minimum successful builds", setting "requiredSuccessfulBuilds" fields)]
     end,
     mkLog (stdout l) (trace l ++ [Http rq])).
Proof.
  intros rq Hsrv Hst Hbody. unfold RepoInfo.get_merge_checks.
  fold (merge_checks_request bitbucket_url auth project_key repository_slug). fold rq.
  erewrite bind_ok by (exact (http_answered _ _ _ _ Hsrv)).
  unfold bind at 1. unfold response_json. rewrite Hbody. unfold ret at 1.
  rewrite Hst. cbn [Z.eqb Pos.eqb].
  unfold first_missing, merge_check_keys, setting. cbn [find].
  unfold bind, subscript, ret, raise.
  destruct (assoc "needsWork" fields); [|reflexivity].
  destruct (assoc "requiredAllApprovers" fields); [|reflexivity].
  destruct (assoc "requiredAllTasksComplete" fields); [|reflexivity].
  destruct (assoc "requiredApprovers" fields); [|reflexivity].
  destruct (assoc "requiredSuccessfulBuilds" fields); reflexivity.
Qed.

Lemma get_merge_checks_reads_five_settings_witness :
  RepoInfo.get_merge_checks "https://bitbucket.example.com" partial_settings_server bob
    "PRJ" "repo" empty_log =
    (Raise (KeyError "requiredSuccessfulBuilds"),
     mkLog [] [Http (merge_checks_request "https://bitbucket.example.com" bob "PRJ" "repo")]).
Proof.
  exact (get_merge_checks_reads_five_settings "https://bitbucket.example.com"
           partial_settings_server bob "PRJ" "repo" empty_log _ _ eq_refl eq_refl eq_refl).
Defined.

(** X10.  When every body parses as JSON, the three reads of the
    inspector are independent: whatever non-200 statuses the three answers
    carry, the script sends all three requests in order, prints one failure
    line per read, reports empty results and ends normally. *)
Theorem inspector_reads_all_three_on_json_failures
    (bitbucket_url : string) (srv : server) (container_str : json -> string)
    (yaml_dump : pydict -> string) (auth : string * string)
    (project_key repository_slug : string) (l : log)
    (r1 r2 r3 : response) (b1 b2 b3 : json) :
  (forall h, srv h (reviewers_request bitbucket_url auth project_key repository_slug) = inr r1) ->
  (forall h, srv h (merge_checks_request bitbucket_url auth project_key repository_slug) = inr r2) ->
  (forall h, srv h (restrictions_request bitbucket_url auth project_key repository_slug) = inr r3) ->
  status_code r1 <> 200%Z -> status_code r2 <> 200%Z -> status_code r3 <> 200%Z ->
  json_body r1 = Some b1 -> json_body r2 = Some b2 -> json_body r3 = Some b3 ->
  RepoInfo.main bitbucket_url srv container_str yaml_dump auth project_key repository_slug l =
    (Ok tt,
     mkLog (stdout l ++
              ["Repository: " +++ repository_slug +++ nl;
               "Failed to fetch default reviewers. Status code: "
                 +++ str_int (status_code r1) +++ nl;
               nl +++ "Default Reviewers:" +++ nl;
               "Failed to fetch repository settings. Status code: "
                 +++ str_int (status_code r2) +++ nl;
               nl +++ "Merge Checks:" +++ nl;
               "Failed to fetch branch restrictions. Status code: "
                 +++ str_int (status_code r3) +++ nl;
               nl +++ "Branch Restrictions:" +++ nl;
               yaml_dump [] +++ nl])
           (trace l ++
              [Http (reviewers_request bitbucket_url auth project_key repository_slug);
               Http (merge_checks_request bitbucket_url auth project_key repository_slug);
               Http (restrictions_request bitbucket_url auth project_key repository_slug)])).
Proof.
  intros H1 H2 H3 Hs1 Hs2 Hs3 Hb1 Hb2 Hb3. unfold RepoInfo.main.
  unfold bind at 1. cbn [print write_out].
  erewrite bind_ok
    by (exact (proj1 (failed_reads_with_json_body_return_empty bitbucket_url srv auth
                        project_key repository_slug _ r1 b1 Hs1 Hb1) (H1 _))).
  unfold bind at 1. cbn [print write_out stdout trace]. cbn [for_each]. unfold bind at 1, ret at 1.
  erewrite bind_ok
    by (exact (proj1 (proj2 (failed_reads_with_json_body_return_empty bitbucket_url srv auth
                               project_key repository_slug _ r2 b2 Hs2 Hb2)) (H2 _))).
  unfold bind at 1. cbn [print write_out stdout trace]. cbn [for_each]. unfold bind at 1, ret at 1.
  erewrite bind_ok
    by (exact (proj2 (proj2 (failed_reads_with_json_body_return_empty bitbucket_url srv auth
                               project_key repository_slug _ r3 b3 Hs3 Hb3)) (H3 _))).
  unfold bind, print, write_out. cbn [stdout trace].
  rewrite <- !app_assoc. reflexivity.
Qed.

Lemma inspector_reads_all_three_on_json_failures_witness :
  RepoInfo.main "https://bitbucket.example.com" unauthorized_server no_container_str no_yaml
    bob "PRJ" "repo" empty_log =
    (Ok tt,
     mkLog ["Repository: repo" +++ nl;
            "Failed to fetch default reviewers. Status code: 401" +++ nl;
            nl +++ "Default Reviewers:" +++ nl;
            "Failed to fetch repository settings. Status code: 401" +++ nl;
            nl +++ "Merge Checks:" +++ nl;
            "Failed to fetch branch restrictions. Status code: 401" +++ nl;
            nl +++ "Branch Restrictions:" +++ nl;
            "{}" +++ nl]
           [Http (reviewers_request "https://bitbucket.example.com" bob "PRJ" "repo");
            Http (merge_checks_request "https://bitbucket.example.com" bob "PRJ" "repo");
            Http (restrictions_request "https://bitbucket.example.com" bob "PRJ" "repo")]).
Proof.
  refine (inspector_reads_all_three_on_json_failures "https://bitbucket.example.com"
            unauthorized_server no_container_str no_yaml bob "PRJ" "repo" empty_log
            _ _ _ (JObj [("errors", JArr [])]) (JObj [("errors", JArr [])])
            (JObj [("errors", JArr [])])
            (fun _ => eq_refl) (fun _ => eq_refl) (fun _ => eq_refl) _ _ _
            eq_refl eq_refl eq_refl); cbn; discriminate.
Defined.

(** ** More on project keys and provisioning *)

(** X11.  The existence check treats only status 200 as "exists": whenever
    [check_if_project_exists] returns, its verdict is true exactly when the
    status is 200, so 401, 403 or 500 count as "does not exist"; and for a
    status other than 200 and 404 whose body is not JSON the check raises
    instead of returning. *)
Theorem check_if_project_exists_verdict
    (srv : server) (container_str : json -> string) (project_key ws : string)
    (l : log) (r : response) :
  srv (trace l) (exists_request project_key ws) = inr r ->
  (forall b l',
      CreateProject.check_if_project_exists srv container_str project_key ws l = (Ok b, l') ->
      (b = true <-> status_code r = 200%Z))
  /\ (status_code r <> 200%Z -> status_code r <> 404%Z -> json_body r = None ->
      CreateProject.check_if_project_exists srv container_str project_key ws l =
        (Raise JSONDecodeError,
         mkLog (stdout l) (trace l ++ [Http (exists_request project_key ws)])))
  /\ (status_code r <> 200%Z -> forall body, json_body r = Some body ->
      fst (CreateProject.check_if_project_exists srv container_str project_key ws l) = Ok false).
Proof.
  intros Hsrv. unfold CreateProject.check_if_project_exists.
  fold (exists_request project_key ws).
  erewrite bind_ok by (exact (http_answered _ _ _ _ Hsrv)).
  destruct (Z.eqb_spec (status_code r) 200) as [E|E].
  - split; [|split].
    + intros b l' H. injection H as <- _. split; [intros _; exact E | reflexivity].
    + intros H. contradiction.
    + intros H. contradiction.
  - destruct (Z.eqb_spec (status_code r) 404) as [E'|E'].
    + split; [|split].
      * intros b l' H. injection H as <- _. split; [discriminate | contradiction].
      * intros _ H. contradiction.
      * intros _ body _. reflexivity.
    + split; [|split].
      * intros b l' H. unfold bind, response_json in H.
        destruct (json_body r); [|discriminate H]. cbn in H. injection H as <- _.
        split; [discriminate | contradiction].
      * intros _ _ Hbody. unfold bind, response_json. rewrite Hbody. reflexivity.
      * intros _ body Hbody. unfold bind, response_json. rewrite Hbody. reflexivity.
Qed.

Lemma check_if_project_exists_verdict_witness :
  fst (CreateProject.check_if_project_exists flaky_platform no_container_str "FIN_FOU" "ws"
         empty_log) = Ok false
  /\ CreateProject.check_if_project_exists (failing_server "<html>") no_container_str
       "FIN_FOU" "ws" empty_log =
     (Raise JSONDecodeError, mkLog [] [Http (exists_request "FIN_FOU" "ws")]).
Proof.
  split.
  - refine (proj2 (proj2 (check_if_project_exists_verdict flaky_platform no_container_str
                            "FIN_FOU" "ws" empty_log _ eq_refl)) _ _ eq_refl).
    cbn. discriminate.
  - refine (proj1 (proj2 (check_if_project_exists_verdict (failing_server "<html>")
                            no_container_str "FIN_FOU" "ws" empty_log _ eq_refl)) _ _ eq_refl);
      cbn; discriminate.
Defined.

(** X12.  What [generate_unique_project_key] returns is always the key of
    one of the random samples: the upper-cased first three characters of the
    business area, an underscore, and the upper-cased first three characters
    of the sample drawn in the last iteration; it has then sent exactly one
    existence check per iteration. *)
Theorem generate_unique_project_key_shape
    (srv : server) (container_str : json -> string) (random_sample : nat -> string -> string)
    (project_name business_area ws : string) (fuel : nat) (l l' : log) (key : string) :
  CreateProject.generate_unique_project_key srv container_str random_sample
    fuel project_name business_area ws l = (Ok key, l') ->
  exists n,
    n < fuel /\
    key = upper (substring 0 3 business_area) +++ "_"
            +++ upper (substring 0 3 (random_sample n project_name)) /\
    List.length (filter (fun e => match e with Http _ => true | _ => false end) (trace l')) =
    List.length (filter (fun e => match e with Http _ => true | _ => false end) (trace l))
      + S n.
Proof.
  unfold CreateProject.generate_unique_project_key.
  assert (Hgen : forall fuel n l,
             CreateProject.generate_unique_project_key_from srv container_str random_sample
               fuel n project_name business_area ws l = (Ok key, l') ->
             exists m,
               n <= m < n + fuel /\
               key = upper (substring 0 3 business_area) +++ "_"
                       +++ upper (substring 0 3 (random_sample m project_name)) /\
               List.length (filter (fun e => match e with Http _ => true | _ => false end)
                              (trace l')) =
               List.length (filter (fun e => match e with Http _ => true | _ => false end)
                              (trace l)) + S (m - n)).
  { clear fuel l. induction fuel as [|fuel IH]; intros n l H; [discriminate H|].
    cbn [CreateProject.generate_unique_project_key_from] in H. unfold bind in H.
    revert H.
    match goal with
    | |- context [CreateProject.check_if_project_exists srv container_str ?k ws l] =>
        destruct (CreateProject.check_if_project_exists srv container_str k ws l)
          as [[b| |] l1] eqn:Hc
    end; intros H; try discriminate H.
    assert (Hl1 : List.length (filter (fun e => match e with Http _ => true | _ => false end)
                                 (trace l1)) =
                  S (List.length (filter (fun e => match e with Http _ => true | _ => false end)
                                    (trace l)))).
    { revert Hc. unfold CreateProject.check_if_project_exists, bind, http.
      destruct (srv (trace l) _) as [x|r]; [discriminate|].
      destruct (status_code r =? 200)%Z; [intros [= _ <-]|].
      - cbn [trace]. rewrite filter_app, length_app. cbn. lia.
      - destruct (status_code r =? 404)%Z; [intros [= _ <-]|].
        + cbn [trace]. rewrite filter_app, length_app. cbn. lia.
        + unfold response_json. destruct (json_body r); [|discriminate].
          intros [= _ <-]. cbn [trace]. rewrite filter_app, length_app. cbn. lia. }
    destruct b; cbn [negb] in H.
    - destruct (IH (S n) l1 H) as (m & Hm & Hkey & Hlen).
      exists m. split; [lia|]. split; [exact Hkey|]. rewrite Hlen, Hl1. lia.
    - unfold ret in H. injection H as <- <-. exists n. split; [lia|].
      split; [reflexivity|]. rewrite Hl1. lia. }
  intros H. destruct (Hgen fuel 0 l H) as (m & Hm & Hkey & Hlen).
  exists m. split; [lia|]. split; [exact Hkey|]. rewrite Hlen. lia.
Qed.

Lemma generate_unique_project_key_shape_witness :
  exists n,
    n < 5 /\
    "FIN_NOI" = upper (substring 0 3 "Finance") +++ "_"
                  +++ upper (substring 0 3 (reversing_sample n "Foundation")) /\
    List.length (filter (fun e => match e with Http _ => true | _ => false end)
                   [Http (exists_request "FIN_NOI" "ws")]) =
    List.length (filter (fun e => match e with Http _ => true | _ => false end)
                   (trace empty_log)) + S n.
Proof.
  exact (generate_unique_project_key_shape finance_server no_container_str reversing_sample
           "Foundation" "Finance" "ws" 5 empty_log
           (mkLog [] [Http (exists_request "FIN_NOI" "ws")]) "FIN_NOI" eq_refl).
Defined.

Lemma uniform_sample (random_sample : nat -> string -> string) (c : ascii) (n i : nat) :
  Permutation (list_ascii_of_string (random_sample i (string_of_list_ascii (repeat c n))))
              (list_ascii_of_string (string_of_list_ascii (repeat c n))) ->
  random_sample i (string_of_list_ascii (repeat c n)) = string_of_list_ascii (repeat c n).
Proof.
  intros H. rewrite list_ascii_of_string_of_list_ascii in H.
  apply Permutation_repeat in H.
  rewrite <- (string_of_list_ascii_of_string (random_sample i _)), H. reflexivity.
Qed.

(** X13.  For a project name made of one repeated character (or of at most
    one character) the retry loop cannot succeed: every permutation of the
    name is the name itself, so every iteration derives the colliding key
    again.  If the platform keeps reporting that key as existing, no budget
    of iterations lets [generate_unique_project_key] return, whatever the
    random source draws. *)
Theorem generate_unique_project_key_stuck_on_uniform_name
    (srv : server) (container_str : json -> string) (random_sample : nat -> string -> string)
    (c : ascii) (n : nat) (business_area ws : string) :
  let project_name := string_of_list_ascii (repeat c n) in
  (forall i, Permutation (list_ascii_of_string (random_sample i project_name))
                         (list_ascii_of_string project_name)) ->
  (forall h, exists r,
      srv h (exists_request (CreateProject.generate_project_key project_name business_area) ws)
        = inr r /\ status_code r = 200%Z) ->
  forall fuel l,
    fst (CreateProject.generate_unique_project_key srv container_str random_sample
           fuel project_name business_area ws l) = OutOfFuel.
Proof.
  intros project_name Hperm Hexists fuel. unfold CreateProject.generate_unique_project_key.
  generalize 0 as i. induction fuel as [|fuel IH]; intros i l; [reflexivity|].
  cbn [CreateProject.generate_unique_project_key_from].
  unfold project_name in *. rewrite (uniform_sample random_sample c n i (Hperm i)).
  destruct (Hexists (trace l)) as (r & Hr & Hst).
  unfold bind at 1, CreateProject.check_if_project_exists at 1.
  unfold CreateProject.generate_project_key, exists_request in Hr.
  erewrite bind_ok by (exact (http_answered _ _ _ _ Hr)).
  rewrite Hst. cbn [Z.eqb Pos.eqb ret negb]. apply IH.
Qed.

Lemma generate_unique_project_key_stuck_on_uniform_name_witness :
  fst (CreateProject.generate_unique_project_key crowded_server no_container_str
         reversing_sample 4 (string_of_list_ascii (repeat "a"%char 5)) "Finance" "ws"
         empty_log) = OutOfFuel.
Proof.
  refine (generate_unique_project_key_stuck_on_uniform_name crowded_server no_container_str
            reversing_sample "a"%char 5 "Finance" "ws" _ _ 4 empty_log).
  - intros i. apply Permutation_refl.
  - intros h. eexists. split; reflexivity.
Defined.

Section ProvisioningFacts.
Variable srv : server.
Variable container_str : json -> string.
Variable credentials : BitbucketAuthentication.
Variable ws : string.

(** A group is created and its permission set: two requests, two lines. *)
Lemma create_group_and_set_permission_ok (project_key : json) (group_name permission : string)
    (l : log) (rg rp : response) (gf : list (string * json)) :
  srv (trace l) (create_group_request credentials ws group_name) = inr rg ->
  status_code rg = 200%Z ->
  json_body rg = Some (JObj gf) ->
  srv (trace l ++ [Http (create_group_request credentials ws group_name)])
    (set_permission_request container_str credentials ws project_key (slug_of gf) permission)
    = inr rp ->
  status_code rp = 200%Z ->
  CreateProject.create_group_and_set_permission srv container_str project_key group_name
    permission credentials ws l =
    (Ok tt,
     mkLog (stdout l ++
              ["Group '" +++ group_name +++ "' created successfully." +++ nl;
               "Permission '" +++ permission +++ "' assigned to group '" +++ group_name
                 +++ "' on project '" +++ py_str container_str project_key +++ "'." +++ nl])
           (trace l ++
              [Http (create_group_request credentials ws group_name);
               Http (set_permission_request container_str credentials ws project_key
                       (slug_of gf) permission)])).
Proof.
  intros Hg Hsg Hbg Hp Hsp. unfold CreateProject.create_group_and_set_permission.
  fold (create_group_request credentials ws group_name).
  erewrite bind_ok by (exact (http_answered _ _ _ _ Hg)).
  rewrite Hsg. cbn [Z.eqb Pos.eqb].
  unfold bind at 1. cbn [print write_out].
  unfold bind at 1, response_json at 1. rewrite Hbg. unfold ret at 1.
  unfold bind at 1. cbn [py_get]. unfold ret at 1. fold (slug_of gf).
  fold (set_permission_request container_str credentials ws project_key (slug_of gf) permission).
  erewrite bind_ok by (exact (http_answered srv _ (mkLog _ _) _ Hp)).
  rewrite Hsp. cbn [Z.eqb Pos.eqb]. unfold print, write_out. cbn [stdout trace].
  rewrite <- !app_assoc, !string_append_assoc. reflexivity.
Qed.

(** A refused group creation is reported and its permission never set. *)
Lemma create_group_and_set_permission_refused (project_key : json)
    (group_name permission : string) (l : log) (rg : response) (body : json) :
  srv (trace l) (create_group_request credentials ws group_name) = inr rg ->
  status_code rg <> 200%Z ->
  json_body rg = Some body ->
  CreateProject.create_group_and_set_permission srv container_str project_key group_name
    permission credentials ws l =
    (Ok tt,
     mkLog (stdout l ++ ["Error creating group: " +++ py_str container_str body +++ nl])
           (trace l ++ [Http (create_group_request credentials ws group_name)])).
Proof.
  intros Hg Hsg Hbg. unfold CreateProject.create_group_and_set_permission.
  fold (create_group_request credentials ws group_name).
  erewrite bind_ok by (exact (http_answered _ _ _ _ Hg)).
  destruct (Z.eqb_spec (status_code rg) 200) as [E|_]; [contradiction|].
  unfold bind, response_json. rewrite Hbg. reflexivity.
Qed.

End ProvisioningFacts.

Section ProvisioningRuns.
Variable srv : server.
Variable container_str : json -> string.
Variable random_sample : nat -> string -> string.
Variable fuel : nat.
Variables project_name business_area ws : string.
Variable credentials : BitbucketAuthentication.
Variable l : log.

Let key := CreateProject.generate_project_key project_name business_area.
Let full_name := business_area +++ "-" +++ project_name.
Let development := business_area +++ "-" +++ project_name +++ "-Development".
Let app_support := business_area +++ "-" +++ project_name +++ "-AppSupport".

Variables r0 r1 : response.
Hypothesis check_answer : forall h, srv h (exists_request key ws) = inr r0.
Hypothesis key_is_free : status_code r0 = 404%Z.
Hypothesis create_answer :
  forall h, srv h (create_project_request credentials ws full_name key) = inr r1.

Lemma provisioning_prefix :
  CreateProject.create_project_and_groups srv container_str random_sample fuel
    project_name business_area credentials ws l =
  (if (status_code r1 =? 201)%Z
   then
     print ("Project '" +++ full_name +++ "' created successfully.") ;;;
     body <- response_json r1 ;;
     project_key <- subscript body "key" ;;
     CreateProject.create_group_and_set_permission srv container_str project_key
       development "write" credentials ws ;;;
     CreateProject.create_group_and_set_permission srv container_str project_key
       app_support "admin" credentials ws
   else
     body <- response_json r1 ;;
     print ("Error creating project: " +++ py_str container_str body))
    (mkLog (stdout l)
       (trace l ++ [Http (exists_request key ws);
                    Http (create_project_request credentials ws full_name key)])).
Proof.
  unfold CreateProject.create_project_and_groups.
  unfold bind at 1, CreateProject.check_if_project_exists at 1.
  fold key. fold (exists_request key ws).
  erewrite bind_ok by (exact (http_answered _ _ _ _ (check_answer _))).
  rewrite key_is_free. cbn [Z.eqb Pos.eqb ret].
  unfold bind at 1, ret at 1.
  fold full_name. fold (create_project_request credentials ws full_name key).
  erewrite bind_ok by (exact (http_answered srv _ (mkLog _ _) _ (create_answer _))).
  cbn [stdout trace]. rewrite <- app_assoc. reflexivity.
Qed.

End ProvisioningRuns.

(** X14.  When the derived key is free and every call succeeds,
    [create_project_and_groups] sends exactly six requests, in this order:
    the existence check, the project creation, the creation of the
    Development group and its [write] permission, the creation of the
    AppSupport group and its [admin] permission.  The permissions are granted
    on the key the platform returned in its creation answer, not on the key
    the script derived, and for the slug each group creation returned. *)
Theorem create_project_and_groups_provisions
    (srv : server) (container_str : json -> string) (random_sample : nat -> string -> string)
    (fuel : nat) (project_name business_area ws : string)
    (credentials : BitbucketAuthentication) (l : log)
    (r0 r1 rg1 rp1 rg2 rp2 : response) (pf gf1 gf2 : list (string * json))
    (stored_key : json) :
  let key := CreateProject.generate_project_key project_name business_area in
  let full_name := business_area +++ "-" +++ project_name in
  let development := business_area +++ "-" +++ project_name +++ "-Development" in
  let app_support := business_area +++ "-" +++ project_name +++ "-AppSupport" in
  (forall h, srv h (exists_request key ws) = inr r0) ->
  status_code r0 = 404%Z ->
  (forall h, srv h (create_project_request credentials ws full_name key) = inr r1) ->
  status_code r1 = 201%Z ->
  json_body r1 = Some (JObj pf) ->
  assoc "key" pf = Some stored_key ->
  (forall h, srv h (create_group_request credentials ws development) = inr rg1) ->
  status_code rg1 = 200%Z ->
  json_body rg1 = Some (JObj gf1) ->
  (forall h, srv h (set_permission_request container_str credentials ws stored_key
                      (slug_of gf1) "write") = inr rp1) ->
  status_code rp1 = 200%Z ->
  (forall h, srv h (create_group_request credentials ws app_support) = inr rg2) ->
  status_code rg2 = 200%Z ->
  json_body rg2 = Some (JObj gf2) ->
  (forall h, srv h (set_permission_request container_str credentials ws stored_key
                      (slug_of gf2) "admin") = inr rp2) ->
  status_code rp2 = 200%Z ->
  CreateProject.create_project_and_groups srv container_str random_sample fuel
    project_name business_area credentials ws l =
    (Ok tt,
     mkLog (stdout l ++
              ["Project '" +++ full_name +++ "' created successfully." +++ nl;
               "Group '" +++ development +++ "' created successfully." +++ nl;
               "Permission 'write' assigned to group '" +++ development
                 +++ "' on project '" +++ py_str container_str stored_key +++ "'." +++ nl;
               "Group '" +++ app_support +++ "' created successfully." +++ nl;
               "Permission 'admin' assigned to group '" +++ app_support
                 +++ "' on project '" +++ py_str container_str stored_key +++ "'." +++ nl])
           (trace l ++
              [Http (exists_request key ws);
               Http (create_project_request credentials ws full_name key);
               Http (create_group_request credentials ws development);
               Http (set_permission_request container_str credentials ws stored_key
                       (slug_of gf1) "write");
               Http (create_group_request credentials ws app_support);
               Http (set_permission_request container_str credentials ws stored_key
                       (slug_of gf2) "admin")])).
Proof.
  intros key full_name development app_support
         H0 Hs0 H1 Hs1 Hb1 Hk Hg1 Hsg1 Hbg1 Hp1 Hsp1 Hg2 Hsg2 Hbg2 Hp2 Hsp2.
  rewrite (provisioning_prefix srv container_str random_sample fuel project_name
             business_area ws credentials l r0 r1 H0 Hs0 H1).
  rewrite Hs1. cbn [Z.eqb Pos.eqb].
  unfold bind at 1. cbn [print write_out].
  unfold bind at 1, response_json at 1. rewrite Hb1. unfold ret at 1.
  field Hk.
  erewrite bind_ok
    by (exact (create_group_and_set_permission_ok srv container_str credentials ws
                 stored_key _ "write" _ rg1 rp1 gf1 (Hg1 _) Hsg1 Hbg1 (Hp1 _) Hsp1)).
  rewrite (create_group_and_set_permission_ok srv container_str credentials ws
             stored_key _ "admin" _ rg2 rp2 gf2 (Hg2 _) Hsg2 Hbg2 (Hp2 _) Hsp2).
  cbn [stdout trace]. unfold full_name, development, app_support.
  rewrite <- !app_assoc, !string_append_assoc. reflexivity.
Qed.

Lemma create_project_and_groups_provisions_witness :
  CreateProject.create_project_and_groups fresh_platform no_container_str reversing_sample 3
    "Foundation" "Finance" alice "ws" empty_log =
    (Ok tt,
     mkLog ["Project 'Finance-Foundation' created successfully." +++ nl;
            "Group 'Finance-Foundation-Development' created successfully." +++ nl;
            "Permission 'write' assigned to group 'Finance-Foundation-Development' on project 'FINFOU'."
              +++ nl;
            "Group 'Finance-Foundation-AppSupport' created successfully." +++ nl;
            "Permission 'admin' assigned to group 'Finance-Foundation-AppSupport' on project 'FINFOU'."
              +++ nl]
           [Http (exists_request "FIN_FOU" "ws");
            Http (create_project_request alice "ws" "Finance-Foundation" "FIN_FOU");
            Http (create_group_request alice "ws" "Finance-Foundation-Development");
            Http (set_permission_request no_container_str alice "ws" (JStr "FINFOU")
                    (JStr "finance-foundation-development") "write");
            Http (create_group_request alice "ws" "Finance-Foundation-AppSupport");
            Http (set_permission_request no_container_str alice "ws" (JStr "FINFOU")
                    JNull "admin")]).
Proof.
  exact (create_project_and_groups_provisions fresh_platform no_container_str reversing_sample
           3 "Foundation" "Finance" "ws" alice empty_log _ _ _ _ _ _
           [("key", JStr "FINFOU")] [("slug", JStr "finance-foundation-development")]
           [("name", JStr "Finance-Foundation-AppSupport")] (JStr "FINFOU")
           (fun _ => eq_refl) eq_refl (fun _ => eq_refl) eq_refl eq_refl eq_refl
           (fun _ => eq_refl) eq_refl eq_refl (fun _ => eq_refl) eq_refl
           (fun _ => eq_refl) eq_refl eq_refl (fun _ => eq_refl) eq_refl).
Defined.

(** X15.  When the project creation is answered with a status other than
    201, [create_project_and_groups] stops there: with a JSON body it prints
    the error and returns without creating any group; with a body that is
    not JSON the error report itself raises. *)
Theorem create_project_and_groups_stops_on_refusal
    (srv : server) (container_str : json -> string) (random_sample : nat -> string -> string)
    (fuel : nat) (project_name business_area ws : string)
    (credentials : BitbucketAuthentication) (l : log) (r0 r1 : response) :
  let key := CreateProject.generate_project_key project_name business_area in
  let full_name := business_area +++ "-" +++ project_name in
  let l' := mkLog (stdout l)
              (trace l ++ [Http (exists_request key ws);
                           Http (create_project_request credentials ws full_name key)]) in
  (forall h, srv h (exists_request key ws) = inr r0) ->
  status_code r0 = 404%Z ->
  (forall h, srv h (create_project_request credentials ws full_name key) = inr r1) ->
  status_code r1 <> 201%Z ->
  (forall body, json_body r1 = Some body ->
     CreateProject.create_project_and_groups srv container_str random_sample fuel
       project_name business_area credentials ws l =
       (Ok tt,
        mkLog (stdout l ++ ["Error creating project: " +++ py_str container_str body +++ nl])
              (trace l')))
  /\ (json_body r1 = None ->
      CreateProject.create_project_and_groups srv container_str random_sample fuel
        project_name business_area credentials ws l = (Raise JSONDecodeError, l')).
Proof.
  intros key full_name l' H0 Hs0 H1 Hs1.
  rewrite (provisioning_prefix srv container_str random_sample fuel project_name
             business_area ws credentials l r0 r1 H0 Hs0 H1).
  destruct (Z.eqb_spec (status_code r1) 201) as [E|_]; [contradiction|].
  split.
  - intros body Hb. unfold bind, response_json. rewrite Hb. reflexivity.
  - intros Hb. unfold bind, response_json. rewrite Hb. reflexivity.
Qed.

Lemma create_project_and_groups_stops_on_refusal_witness :
  CreateProject.create_project_and_groups read_only_platform no_container_str
    reversing_sample 3 "Foundation" "Finance" alice "ws" empty_log =
    (Ok tt,
     mkLog ["Error creating project: " +++ nl]
           [Http (exists_request "FIN_FOU" "ws");
            Http (create_project_request alice "ws" "Finance-Foundation" "FIN_FOU")]).
Proof.
  refine (proj1 (create_project_and_groups_stops_on_refusal read_only_platform
                   no_container_str reversing_sample 3 "Foundation" "Finance" "ws" alice
                   empty_log _ _ (fun _ => eq_refl) eq_refl (fun _ => eq_refl) _)
            (JObj [("error", JStr "forbidden")]) eq_refl).
  cbn. discriminate.
Defined.

(** X16.  Provisioning has no rollback and the two groups are handled
    independently: when the creation of the Development group is refused
    (with a JSON body), its permission is never set, the project stays
    created, and the AppSupport group is still created and given [admin]. *)
Theorem create_project_and_groups_goes_on_after_group_refusal
    (srv : server) (container_str : json -> string) (random_sample : nat -> string -> string)
    (fuel : nat) (project_name business_area ws : string)
    (credentials : BitbucketAuthentication) (l : log)
    (r0 r1 rg1 rg2 rp2 : response) (pf gf2 : list (string * json))
    (stored_key refusal : json) :
  let key := CreateProject.generate_project_key project_name business_area in
  let full_name := business_area +++ "-" +++ project_name in
  let development := business_area +++ "-" +++ project_name +++ "-Development" in
  let app_support := business_area +++ "-" +++ project_name +++ "-AppSupport" in
  (forall h, srv h (exists_request key ws) = inr r0) ->
  status_code r0 = 404%Z ->
  (forall h, srv h (create_project_request credentials ws full_name key) = inr r1) ->
  status_code r1 = 201%Z ->
  json_body r1 = Some (JObj pf) ->
  assoc "key" pf = Some stored_key ->
  (forall h, srv h (create_group_request credentials ws development) = inr rg1) ->
  status_code rg1 <> 200%Z ->
  json_body rg1 = Some refusal ->
  (forall h, srv h (create_group_request credentials ws app_support) = inr rg2) ->
  status_code rg2 = 200%Z ->
  json_body rg2 = Some (JObj gf2) ->
  (forall h, srv h (set_permission_request container_str credentials ws stored_key
                      (slug_of gf2) "admin") = inr rp2) ->
  status_code rp2 = 200%Z ->
  CreateProject.create_project_and_groups srv container_str random_sample fuel
    project_name business_area credentials ws l =
    (Ok tt,
     mkLog (stdout l ++
              ["Project '" +++ full_name +++ "' created successfully." +++ nl;
               "Error creating group: " +++ py_str container_str refusal +++ nl;
               "Group '" +++ app_support +++ "' created successfully." +++ nl;
               "Permission 'admin' assigned to group '" +++ app_support
                 +++ "' on project '" +++ py_str container_str stored_key +++ "'." +++ nl])
           (trace l ++
              [Http (exists_request key ws);
               Http (create_project_request credentials ws full_name key);
               Http (create_group_request credentials ws development);
               Http (create_group_request credentials ws app_support);
               Http (set_permission_request container_str credentials ws stored_key
                       (slug_of gf2) "admin")])).
Proof.
  intros key full_name development app_support
         H0 Hs0 H1 Hs1 Hb1 Hk Hg1 Hsg1 Hbg1 Hg2 Hsg2 Hbg2 Hp2 Hsp2.
  rewrite (provisioning_prefix srv container_str random_sample fuel project_name
             business_area ws credentials l r0 r1 H0 Hs0 H1).
  rewrite Hs1. cbn [Z.eqb Pos.eqb].
  unfold bind at 1. cbn [print write_out].
  unfold bind at 1, response_json at 1. rewrite Hb1. unfold ret at 1.
  field Hk.
  erewrite bind_ok
    by (exact (create_group_and_set_permission_refused srv container_str credentials ws
                 stored_key _ "write" _ rg1 refusal (Hg1 _) Hsg1 Hbg1)).
  rewrite (create_group_and_set_permission_ok srv container_str credentials ws
             stored_key _ "admin" _ rg2 rp2 gf2 (Hg2 _) Hsg2 Hbg2 (Hp2 _) Hsp2).
  cbn [stdout trace]. unfold full_name, development, app_support.
  rewrite <- !app_assoc, !string_append_assoc. reflexivity.
Qed.

Lemma create_project_and_groups_goes_on_after_group_refusal_witness :
  CreateProject.create_project_and_groups group_conflict_platform no_container_str
    reversing_sample 3 "Foundation" "Finance" alice "ws" empty_log =
    (Ok tt,
     mkLog ["Project 'Finance-Foundation' created successfully." +++ nl;
            "Error creating group: " +++ nl;
            "Group 'Finance-Foundation-AppSupport' created successfully." +++ nl;
            "Permission 'admin' assigned to group 'Finance-Foundation-AppSupport' on project 'FINFOU'."
              +++ nl]
           [Http (exists_request "FIN_FOU" "ws");
            Http (create_project_request alice "ws" "Finance-Foundation" "FIN_FOU");
            Http (create_group_request alice "ws" "Finance-Foundation-Development");
            Http (create_group_request alice "ws" "Finance-Foundation-AppSupport");
            Http (set_permission_request no_container_str alice "ws" (JStr "FINFOU")
                    JNull "admin")]).
Proof.
  refine (create_project_and_groups_goes_on_after_group_refusal group_conflict_platform
            no_container_str reversing_sample 3 "Foundation" "Finance" "ws" alice empty_log
            _ _ _ _ _ [("key", JStr "FINFOU")]
            [("name", JStr "Finance-Foundation-AppSupport")] (JStr "FINFOU")
            (JObj [("error", JStr "exists")])
            (fun _ => eq_refl) eq_refl (fun _ => eq_refl) eq_refl eq_refl eq_refl
            (fun _ => eq_refl) _ eq_refl
            (fun _ => eq_refl) eq_refl eq_refl (fun _ => eq_refl) eq_refl).
  cbn. discriminate.
Defined.

(** ** More on the bulk mutation workflow *)

(** X17.  Opening the change request is not fatal when it is refused: for
    every answer whose status is not 201, [create_pr] prints the status and
    the raw body and returns normally, having sent that one request.  A 201
    answer whose body lacks the ['links'] field, however, raises
    [KeyError]. *)
Theorem create_pr_refusal_is_not_fatal
    (srv : server) (container_str : json -> string) (credentials : BitbucketAuthentication)
    (pr_title pr_description feature_branch_name base_endpoint workspace repository_slug : string)
    (l : log) (r : response) :
  let rq := pr_request credentials pr_title pr_description feature_branch_name
              base_endpoint workspace repository_slug in
  srv (trace l) rq = inr r ->
  (status_code r <> 201%Z ->
   SearchReplace.create_pr srv container_str credentials pr_title pr_description
     feature_branch_name base_endpoint workspace repository_slug l =
     (Ok tt,
      mkLog (stdout l ++ [" - Creating PR: ";
                          "Failed: " +++ str_int (status_code r) +++ " | " +++ text r +++ nl])
            (trace l ++ [Http rq])))
  /\ (status_code r = 201%Z ->
      forall fields, json_body r = Some (JObj fields) -> assoc "links" fields = None ->
      SearchReplace.create_pr srv container_str credentials pr_title pr_description
        feature_branch_name base_endpoint workspace repository_slug l =
        (Raise (KeyError "links"),
         mkLog (stdout l ++ [" - Creating PR: "; "Successful" +++ nl]) (trace l ++ [Http rq]))).
Proof.
  intros rq Hsrv.
  assert (Hrun : forall k : response -> M unit,
             (write_out " - Creating PR: " ;;; response <- http srv rq ;; k response) l =
             k r (mkLog (stdout l ++ [" - Creating PR: "]) (trace l ++ [Http rq]))).
  { intros k. unfold bind at 1. cbn [write_out].
    erewrite bind_ok by (exact (http_answered srv rq (mkLog _ (trace l)) r Hsrv)).
    reflexivity. }
  unfold SearchReplace.create_pr.
  fold (pr_request credentials pr_title pr_description feature_branch_name base_endpoint
          workspace repository_slug). fold rq.
  rewrite !Hrun. split.
  - intros Hst. destruct (Z.eqb_spec (status_code r) 201) as [E|_]; [contradiction|].
    unfold print, write_out. cbn [stdout trace].
    rewrite <- !app_assoc, !string_append_assoc. reflexivity.
  - intros Hst fields Hbody Hlinks. rewrite Hst. cbn [Z.eqb Pos.eqb].
    unfold bind at 1. cbn [print write_out].
    unfold bind at 1, response_json at 1. rewrite Hbody. unfold ret at 1.
    apply bind_raise. rewrite (subscript_missing fields "links" _ Hlinks).
    cbn [stdout trace]. rewrite <- !app_assoc. reflexivity.
Qed.

Lemma create_pr_refusal_is_not_fatal_witness :
  SearchReplace.create_pr rejecting_server no_container_str alice "Title" "Text" "feature/x"
    "https://api.bitbucket.org/2.0" "ws" "a" empty_log =
    (Ok tt,
     mkLog [" - Creating PR: "; "Failed: 400 | There are no changes to be pulled" +++ nl]
           [Http (pr_request alice "Title" "Text" "feature/x" "https://api.bitbucket.org/2.0"
                    "ws" "a")]).
Proof.
  refine (proj1 (create_pr_refusal_is_not_fatal rejecting_server no_container_str alice
                   "Title" "Text" "feature/x" "https://api.bitbucket.org/2.0" "ws" "a"
                   empty_log _ eq_refl) _).
  cbn. discriminate.
Defined.

(** X18.  The cleanup step never fails the run: whatever the machine does,
    [cleanup_repository] returns normally (a failure is printed and
    swallowed).  On a machine that is not Windows it removes nothing and
    reports the step as skipped. *)
Theorem cleanup_repository_never_raises (hst : host) (repository : string) (l : log) :
  fst (SearchReplace.cleanup_repository hst repository l) = Ok tt
  /\ (String.eqb (os_name hst) "nt" = false ->
      run hst (trace l) (Sleep 5) = None ->
      SearchReplace.cleanup_repository hst repository l =
        (Ok tt,
         mkLog (stdout l ++ [" - Cleaning up repository " +++ repository +++ ":";
                             "Skipped - Only supported for Windows OS" +++ nl])
               (trace l ++ [Sleep 5]))).
Proof.
  unfold SearchReplace.cleanup_repository, try_except. split.
  - unfold bind at 1. cbn [write_out]. unfold bind at 1, SearchReplace.perform at 1.
    cbn [stdout trace]. destruct (run hst (trace l) (Sleep 5)); [reflexivity|].
    destruct (String.eqb (os_name hst) "nt"); [|reflexivity].
    unfold bind, SearchReplace.perform. cbn [stdout trace].
    destruct (run hst _ (Rmdir repository)); reflexivity.
  - intros Hos Hsleep. unfold bind at 1. cbn [write_out].
    unfold bind at 1, SearchReplace.perform at 1. cbn [stdout trace].
    rewrite Hsleep, Hos. unfold print, write_out. cbn [stdout trace].
    rewrite <- !app_assoc. reflexivity.
Qed.

Lemma cleanup_repository_never_raises_witness :
  SearchReplace.cleanup_repository (calm_host [] (fun _ => [])) "tmp_a" empty_log =
    (Ok tt,
     mkLog [" - Cleaning up repository tmp_a:"; "Skipped - Only supported for Windows OS" +++ nl]
           [Sleep 5]).
Proof.
  exact (proj2 (cleanup_repository_never_raises (calm_host [] (fun _ => [])) "tmp_a" empty_log)
           eq_refl eq_refl).
Defined.

Example cleanup_failure_is_swallowed :
  SearchReplace.cleanup_repository locked_windows_host "tmp_a" empty_log =
    (Ok tt,
     mkLog [" - Cleaning up repository tmp_a:"; "Failed: Access is denied" +++ nl]
           [Sleep 5; Rmdir "tmp_a"]).
Proof. reflexivity. Qed.

Lemma search_loop_break
    (srv : server) (container_str : json -> string) (urlparse_path : string -> string)
    (fuel : nat) (credentials : BitbucketAuthentication) (endpoint : json) (query : string)
    (found : list string) (l : log) (r : response) :
  truthy endpoint = true ->
  srv (trace l) (search_request container_str credentials endpoint query) = inr r ->
  status_code r <> 200%Z ->
  SearchReplace.search_loop srv container_str urlparse_path (S fuel) credentials endpoint
    query found l =
    (Ok found,
     mkLog (stdout l ++ ["Failed to retrieve data. Status code: "
                           +++ str_int (status_code r) +++ nl])
           (trace l ++ [Http (search_request container_str credentials endpoint query)])).
Proof.
  intros He Hsrv Hst. cbn [SearchReplace.search_loop]. rewrite He.
  fold (search_request container_str credentials endpoint query).
  erewrite bind_ok by (exact (http_answered _ _ _ _ Hsrv)).
  destruct (Z.eqb_spec (status_code r) 200) as [E|_]; [contradiction|].
  reflexivity.
Qed.

(** X19.  A failed search page does not fail the discovery: when a page
    request is answered with a status other than 200, [search_loop] prints
    the status, leaves the loop and returns the repositories collected from
    the pages before it. *)
Theorem search_loop_stops_at_failed_page
    (srv : server) (container_str : json -> string) (urlparse_path : string -> string)
    (fuel : nat) (credentials : BitbucketAuthentication) (endpoint : json) (query : string)
    (found : list string) (l : log) (r : response) :
  let rq := search_request container_str credentials endpoint query in
  truthy endpoint = true ->
  srv (trace l) rq = inr r ->
  status_code r <> 200%Z ->
  SearchReplace.search_loop srv container_str urlparse_path (S fuel) credentials endpoint
    query found l =
    (Ok found,
     mkLog (stdout l ++ ["Failed to retrieve data. Status code: "
                           +++ str_int (status_code r) +++ nl])
           (trace l ++ [Http rq])).
Proof. intros rq. apply search_loop_break. Qed.

Lemma search_loop_stops_at_failed_page_witness :
  SearchReplace.search_loop (failing_server "down") no_container_str https_path 1 alice
    (JStr search_page2) "1882 tf" ["a"; "b"] empty_log =
    (Ok ["a"; "b"],
     mkLog ["Failed to retrieve data. Status code: 500" +++ nl]
           [Http (search_request no_container_str alice (JStr search_page2) "1882 tf")]).
Proof.
  refine (search_loop_stops_at_failed_page (failing_server "down") no_container_str https_path
            0 alice (JStr search_page2) "1882 tf" ["a"; "b"] empty_log _ eq_refl eq_refl _).
  cbn. discriminate.
Defined.

(** X20.  An exception of a git step that is not a [GitCommandError] (the
    local repository cannot be opened, say) passes through the step's handler
    untouched: the step raises it without printing a ["Failed: ..."] line. *)
Theorem git_step_passes_other_exceptions
    (hst : host)
    (workspace feature_branch_name search_str replace_str commit_message repository : string)
    (s : step) (l1 l2 : log) (e : exn) :
  s <> Edit ->
  is_git_command_error e = false ->
  step_try hst workspace feature_branch_name search_str replace_str commit_message
    repository s l1 = (Raise e, l2) ->
  step_run hst workspace feature_branch_name search_str replace_str commit_message
    repository s l1 = (Raise e, l2).
Proof.
  intros Hs He Htry. rewrite step_run_is_try. unfold try_except. rewrite Htry.
  destruct s; try (cbn [step_catches]; rewrite He; reflexivity). contradiction.
Qed.

Lemma git_step_passes_other_exceptions_witness :
  step_run broken_clone_host "ws" "feature/x" "old" "new" "message" "a" Branch empty_log =
    (Raise (OSError "InvalidGitRepositoryError: tmp_a"),
     mkLog [" - Creating and switching to a new branch: "] [GitOpen "tmp_a"]).
Proof.
  refine (git_step_passes_other_exceptions broken_clone_host "ws" "feature/x" "old" "new"
            "message" "a" Branch empty_log _ (OSError "InvalidGitRepositoryError: tmp_a")
            _ eq_refl eq_refl).
  discriminate.
Defined.

Section DiscoveryFacts.
Variable srv : server.
Variable container_str : json -> string.
Variable urlparse_path : string -> string.
Variable credentials : BitbucketAuthentication.
Variable query : string.

Let rq_of := fun e => search_request container_str credentials e query.

Lemma hits_loop (items : list json) (repos : list string) :
  Forall2 (search_hit urlparse_path) items repos ->
  forall acc l,
    for_each items (fun item all_repositories =>
        file <- subscript item "file" ;;
        links <- subscript file "links" ;;
        self <- subscript links "self" ;;
        href <- subscript self "href" ;;
        path <- match href with
                | JStr u => ret (urlparse_path u)
                | _ => raise TypeError
                end ;;
        parsed_repository <- match nth_error (split_on "/" path) 4 with
                             | Some segment => ret segment
                             | None => raise IndexError
                             end ;;
        ret (all_repositories ++ [parsed_repository])) acc l =
    (Ok (acc ++ repos), l).
Proof.
  induction 1 as [|item repo items repos
                    (fields & file & links & self & u & -> & Hf & Hl & Hs & Hh & Hseg) _ IH];
    intros acc l.
  - cbn. rewrite app_nil_r. reflexivity.
  - cbn [for_each]. unfold bind at 1.
    field Hf. field Hl. field Hs. field Hh.
    unfold bind at 1, ret at 1. rewrite Hseg. unfold bind at 1, ret at 1 2.
    rewrite IH, <- app_assoc. reflexivity.
Qed.

Lemma search_loop_done (fuel : nat) (acc : list string) (l : log) :
  SearchReplace.search_loop srv container_str urlparse_path fuel credentials JNull query acc l
  = (Ok acc, l).
Proof. destruct fuel; reflexivity. Qed.

Lemma search_loop_serves (e : json) (pages : list (json * list json)) :
  serves srv rq_of e pages ->
  forall reposs,
    Forall2 (fun page repos => Forall2 (search_hit urlparse_path) (snd page) repos)
      pages reposs ->
    forall fuel acc l,
      List.length pages <= fuel ->
      SearchReplace.search_loop srv container_str urlparse_path fuel credentials e query acc l =
      (Ok (acc ++ List.concat reposs),
       mkLog (stdout l) (trace l ++ map (fun page => Http (rq_of (fst page))) pages)).
Proof.
  induction 1 as [e items He Hsrv | e items e' rest He Hsrv Hrest IH];
    intros reposs Hrec fuel acc l Hfuel.
  - inversion Hrec as [|page repos ps rs Hitems Hnil]; subst.
    inversion Hnil; subst. cbn [snd] in Hitems.
    destruct fuel as [|fuel]; [cbn in Hfuel; lia|].
    cbn [SearchReplace.search_loop]. rewrite He.
    destruct (Hsrv (trace l)) as (r & Hr & Hst & fields & Hj & Hv & Hn).
    fold (search_request container_str credentials e query).
    erewrite bind_ok by (exact (http_answered _ _ _ _ Hr)).
    rewrite Hst. cbn [Z.eqb Pos.eqb].
    unfold bind at 1, response_json at 1. rewrite Hj. unfold ret at 1.
    unfold bind at 1. cbn [py_get]. rewrite Hv. unfold ret at 1.
    unfold bind at 1. cbn [py_iter]. unfold ret at 1.
    erewrite bind_ok by (exact (hits_loop items repos Hitems acc _)).
    unfold bind at 1. cbn [py_get]. rewrite Hn. unfold ret at 1.
    rewrite search_loop_done. cbn [stdout trace List.concat map fst].
    rewrite app_nil_r. reflexivity.
  - inversion Hrec as [|page repos ps rs Hitems Hmore]; subst. cbn [snd] in Hitems.
    destruct fuel as [|fuel]; [cbn in Hfuel; lia|].
    cbn [SearchReplace.search_loop]. rewrite He.
    destruct (Hsrv (trace l)) as (r & Hr & Hst & fields & Hj & Hv & Hn).
    fold (search_request container_str credentials e query).
    erewrite bind_ok by (exact (http_answered _ _ _ _ Hr)).
    rewrite Hst. cbn [Z.eqb Pos.eqb].
    unfold bind at 1, response_json at 1. rewrite Hj. unfold ret at 1.
    unfold bind at 1. cbn [py_get]. rewrite Hv. unfold ret at 1.
    unfold bind at 1. cbn [py_iter]. unfold ret at 1.
    erewrite bind_ok by (exact (hits_loop items repos Hitems acc _)).
    unfold bind at 1. cbn [py_get]. rewrite Hn. unfold ret at 1.
    rewrite (IH rs Hmore fuel) by (cbn in Hfuel; lia).
    cbn [stdout trace List.concat map fst]. rewrite <- !app_assoc. reflexivity.
Qed.

End DiscoveryFacts.

(** X21.  Over a served chain of search pages whose hits carry a file link,
    the discovery loop returns, in page order, the repository of every hit
    (the fifth segment of the link's path, repetitions included) and sends
    one request per page. *)
Theorem search_loop_collects_all_pages
    (srv : server) (container_str : json -> string) (urlparse_path : string -> string)
    (credentials : BitbucketAuthentication) (query : string) (endpoint : json)
    (pages : list (json * list json)) (reposs : list (list string)) (fuel : nat) (l : log) :
  serves srv (fun e => search_request container_str credentials e query) endpoint pages ->
  Forall2 (fun page repos => Forall2 (search_hit urlparse_path) (snd page) repos)
    pages reposs ->
  List.length pages <= fuel ->
  SearchReplace.search_loop srv container_str urlparse_path fuel credentials endpoint query
    [] l =
    (Ok (List.concat reposs),
     mkLog (stdout l)
       (trace l ++ map (fun page =>
                          Http (search_request container_str credentials (fst page) query))
                     pages)).
Proof.
  intros Hserves Hhits Hfuel.
  exact (search_loop_serves srv container_str urlparse_path credentials query endpoint pages
           Hserves reposs Hhits fuel [] l Hfuel).
Qed.

Lemma search_loop_collects_all_pages_witness :
  SearchReplace.search_loop search_server no_container_str https_path 2 alice
    (JStr "https://api.bitbucket.org/2.0/workspaces/ws/search/code") "1882 tf" [] empty_log =
    (Ok ["a"; "b"; "a"],
     mkLog []
       [Http (search_request no_container_str alice
                (JStr "https://api.bitbucket.org/2.0/workspaces/ws/search/code") "1882 tf");
        Http (search_request no_container_str alice (JStr search_page2) "1882 tf")]).
Proof.
  refine (search_loop_collects_all_pages search_server no_container_str https_path alice
            "1882 tf" (JStr "https://api.bitbucket.org/2.0/workspaces/ws/search/code")
            [(JStr "https://api.bitbucket.org/2.0/workspaces/ws/search/code",
              [hit "a"; hit "b"]);
             (JStr search_page2, [hit "a"])]
            [["a"; "b"]; ["a"]] 2 empty_log _ _ _).
  - apply serves_next with (e' := JStr search_page2).
    + reflexivity.
    + intros h. eexists. split; [reflexivity|]. split; [reflexivity|].
      eexists. repeat split; reflexivity.
    + apply serves_last; [reflexivity|].
      intros h. eexists. split; [reflexivity|]. split; [reflexivity|].
      eexists. repeat split; reflexivity.
  - repeat constructor; do 5 eexists; repeat split; reflexivity.
  - cbn. lia.
Defined.

Section PipelineFacts.
Variable hst : host.
Hypothesis run_ok : forall h e, run hst h e = None.

Lemma perform_ok (e : event) (l : log) :
  SearchReplace.perform hst e l = (Ok tt, mkLog (stdout l) (trace l ++ [e])).
Proof. unfold SearchReplace.perform. rewrite run_ok. reflexivity. Qed.

Lemma clone_repository_ok (url local_path : string) (l : log) :
  SearchReplace.clone_repository hst url local_path l =
    (Ok tt,
     mkLog (stdout l ++ [" - Cloning repository locally: "; "Successful" +++ nl])
           (trace l ++ [GitClone url local_path])).
Proof.
  unfold SearchReplace.clone_repository, try_except, SearchReplace.clone_repository_try.
  unfold bind at 1. cbn [write_out]. rewrite (bind_ok _ _ _ _ _ (perform_ok _ _)).
  unfold print, write_out. cbn [stdout trace]. rewrite <- app_assoc. reflexivity.
Qed.

Lemma create_and_switch_branch_ok (local_repository branch : string) (l : log) :
  SearchReplace.create_and_switch_branch hst local_repository branch l =
    (Ok tt,
     mkLog (stdout l ++ [" - Creating and switching to a new branch: "; "Successful" +++ nl])
           (trace l ++ [GitOpen local_repository; GitCreateHead local_repository branch;
                        GitSetHead local_repository branch])).
Proof.
  unfold SearchReplace.create_and_switch_branch, try_except,
    SearchReplace.create_and_switch_branch_try.
  unfold bind at 1. cbn [write_out]. rewrite !(bind_ok _ _ _ _ _ (perform_ok _ _)).
  unfold print, write_out. cbn [stdout trace]. rewrite <- !app_assoc. reflexivity.
Qed.

Lemma stage_and_commit_ok (local_repository message : string) (l : log) :
  SearchReplace.stage_and_commit hst local_repository message l =
    (Ok tt,
     mkLog (stdout l ++ [" - Staging and committing file: "; "Successful" +++ nl])
           (trace l ++ [GitOpen local_repository; GitAdd local_repository;
                        GitCommit local_repository message])).
Proof.
  unfold SearchReplace.stage_and_commit, try_except, SearchReplace.stage_and_commit_try.
  unfold bind at 1. cbn [write_out]. rewrite !(bind_ok _ _ _ _ _ (perform_ok _ _)).
  unfold print, write_out. cbn [stdout trace]. rewrite <- !app_assoc. reflexivity.
Qed.

Lemma push_changes_ok (local_repository branch : string) (l : log) :
  SearchReplace.push_changes hst local_repository branch l =
    (Ok tt,
     mkLog (stdout l ++ [" - Pushing changes: "; "Successful" +++ nl])
           (trace l ++ [GitOpen local_repository; GitPush local_repository branch])).
Proof.
  unfold SearchReplace.push_changes, try_except, SearchReplace.push_changes_try.
  unfold bind at 1. cbn [write_out]. rewrite !(bind_ok _ _ _ _ _ (perform_ok _ _)).
  unfold print, write_out. cbn [stdout trace]. rewrite <- !app_assoc. reflexivity.
Qed.

Lemma cleanup_repository_skipped (repository : string) (l : log) :
  String.eqb (os_name hst) "nt" = false ->
  SearchReplace.cleanup_repository hst repository l =
    (Ok tt,
     mkLog (stdout l ++ [" - Cleaning up repository " +++ repository +++ ":";
                         "Skipped - Only supported for Windows OS" +++ nl])
           (trace l ++ [Sleep 5])).
Proof.
  intros Hos. unfold SearchReplace.cleanup_repository, try_except.
  unfold bind at 1. cbn [write_out]. rewrite (bind_ok _ _ _ _ _ (perform_ok _ _)).
  rewrite Hos. unfold print, write_out. cbn [stdout trace].
  rewrite <- !app_assoc. reflexivity.
Qed.

Lemma update_references_ok (contents : string -> bytes) (dirs : list (string * list string))
    (repo_location search_str replace_str : string) (l : log) :
  (forall h p, read_file hst h p = inr (contents p)) ->
  (forall h, os_walk hst h repo_location = dirs) ->
  SearchReplace.update_references hst repo_location search_str replace_str l =
    (Ok tt,
     mkLog (stdout l ++ [" - Updating references to the modules: "; "Successful" +++ nl])
           (trace l ++ edits_of hst contents search_str replace_str dirs)).
Proof.
  intros Hread Hwalk.
  unfold SearchReplace.update_references, try_except, SearchReplace.update_references_try.
  unfold bind at 1. cbn [write_out]. unfold bind at 1. cbn [trace stdout].
  rewrite Hwalk.
  rewrite (update_dirs_trace hst contents search_str replace_str run_ok Hread dirs).
  cbn [stdout trace print write_out]. rewrite <- app_assoc. reflexivity.
Qed.

End PipelineFacts.

Lemma create_pr_ok
    (srv : server) (container_str : json -> string) (credentials : BitbucketAuthentication)
    (pr_title pr_description feature_branch_name base_endpoint workspace repository_slug : string)
    (l : log) (r : response) (fields links html : list (string * json)) (pr_url : json) :
  srv (trace l) (pr_request credentials pr_title pr_description feature_branch_name
                   base_endpoint workspace repository_slug) = inr r ->
  status_code r = 201%Z ->
  json_body r = Some (JObj fields) ->
  assoc "links" fields = Some (JObj links) ->
  assoc "html" links = Some (JObj html) ->
  assoc "href" html = Some pr_url ->
  SearchReplace.create_pr srv container_str credentials pr_title pr_description
    feature_branch_name base_endpoint workspace repository_slug l =
    (Ok tt,
     mkLog (stdout l ++ [" - Creating PR: "; "Successful" +++ nl;
                         " - PR URL: " +++ py_str container_str pr_url +++ nl])
           (trace l ++ [Http (pr_request credentials pr_title pr_description
                                feature_branch_name base_endpoint workspace
                                repository_slug)])).
Proof.
  intros Hsrv Hst Hbody Hl Hh Hu. unfold SearchReplace.create_pr.
  unfold bind at 1. cbn [write_out].
  fold (pr_request credentials pr_title pr_description feature_branch_name base_endpoint
          workspace repository_slug).
  erewrite bind_ok by (exact (http_answered srv _ (mkLog _ (trace l)) r Hsrv)).
  rewrite Hst. cbn [Z.eqb Pos.eqb].
  unfold bind at 1. cbn [print write_out].
  unfold bind at 1, response_json at 1. rewrite Hbody. unfold ret at 1.
  field Hl. field Hh. field Hu.
  unfold print, write_out. cbn [stdout trace].
  rewrite <- !app_assoc, !string_append_assoc. reflexivity.
Qed.

(** X22.  On a machine that is not Windows and on which every command
    succeeds, with the change request accepted, the pipeline for one target
    runs its steps in this order and each exactly once: clone; open the
    repository, create the branch and switch to it; read and rewrite every
    file outside the skipped directories; open, stage and commit; open and
    push; open the change request; wait; and prompt.  Nothing is removed. *)
Theorem mutate_repository_pipeline
    (srv : server) (hst : host) (container_str : json -> string)
    (credentials : BitbucketAuthentication)
    (base_endpoint workspace feature_branch_name search_str replace_str
       commit_message pr_title pr_description repository : string)
    (contents : string -> bytes) (dirs : list (string * list string)) (l : log)
    (r : response) (fields links html : list (string * json)) (pr_url : json) :
  let local_repository := "tmp_" +++ repository in
  let rq := pr_request credentials pr_title pr_description feature_branch_name
              base_endpoint workspace repository in
  (forall h e, run hst h e = None) ->
  (forall h p, read_file hst h p = inr (contents p)) ->
  (forall h, os_walk hst h local_repository = dirs) ->
  String.eqb (os_name hst) "nt" = false ->
  (forall h, srv h rq = inr r) ->
  status_code r = 201%Z ->
  json_body r = Some (JObj fields) ->
  assoc "links" fields = Some (JObj links) ->
  assoc "html" links = Some (JObj html) ->
  assoc "href" html = Some pr_url ->
  SearchReplace.mutate_repository srv hst container_str credentials base_endpoint workspace
    feature_branch_name search_str replace_str commit_message pr_title pr_description
    repository tt l =
    (Ok tt,
     mkLog (stdout l ++
              [repository +++ nl;
               " - Cloning repository locally: "; "Successful" +++ nl;
               " - Creating and switching to a new branch: "; "Successful" +++ nl;
               " - Updating references to the modules: "; "Successful" +++ nl;
               " - Staging and committing file: "; "Successful" +++ nl;
               " - Pushing changes: "; "Successful" +++ nl;
               " - Creating PR: "; "Successful" +++ nl;
               " - PR URL: " +++ py_str container_str pr_url +++ nl;
               " - Cleaning up repository " +++ local_repository +++ ":";
               "Skipped - Only supported for Windows OS" +++ nl])
           (trace l ++
              [GitClone ("git@bitbucket.org:" +++ workspace +++ "/" +++ repository +++ ".git")
                 local_repository;
               GitOpen local_repository;
               GitCreateHead local_repository feature_branch_name;
               GitSetHead local_repository feature_branch_name]
              ++ edits_of hst contents search_str replace_str dirs
              ++ [GitOpen local_repository; GitAdd local_repository;
                  GitCommit local_repository commit_message;
                  GitOpen local_repository; GitPush local_repository feature_branch_name;
                  Http rq; Sleep 5; Input "Press enter to continue"])).
Proof.
  intros local_repository rq Hrun Hread Hwalk Hos Hsrv Hst Hbody Hl Hh Hu.
  unfold SearchReplace.mutate_repository. fold local_repository.
  unfold bind at 1. cbn [print write_out].
  rewrite (bind_ok _ _ _ _ _ (clone_repository_ok hst Hrun _ _ _)).
  rewrite (bind_ok _ _ _ _ _ (create_and_switch_branch_ok hst Hrun _ _ _)).
  rewrite (bind_ok _ _ _ _ _
             (update_references_ok hst Hrun contents dirs _ _ _ _ Hread Hwalk)).
  rewrite (bind_ok _ _ _ _ _ (stage_and_commit_ok hst Hrun _ _ _)).
  rewrite (bind_ok _ _ _ _ _ (push_changes_ok hst Hrun _ _ _)).
  rewrite (bind_ok _ _ _ _ _
             (create_pr_ok srv container_str credentials _ _ _ _ _ _ _ r fields links html
                pr_url (Hsrv _) Hst Hbody Hl Hh Hu)).
  rewrite (bind_ok _ _ _ _ _ (cleanup_repository_skipped hst Hrun _ _ Hos)).
  rewrite (perform_ok hst Hrun). cbn [stdout trace].
  rewrite <- !app_assoc. reflexivity.
Qed.

Lemma mutate_repository_pipeline_witness :
  SearchReplace.mutate_repository accepting_server (calm_host sample_dirs sample_contents)
    no_container_str alice "https://api.bitbucket.org/2.0" "ws" "feature/x" "old" "new"
    "Updating module references" "Title" "Text" "repo" tt empty_log =
    (Ok tt,
     mkLog ["repo" +++ nl;
            " - Cloning repository locally: "; "Successful" +++ nl;
            " - Creating and switching to a new branch: "; "Successful" +++ nl;
            " - Updating references to the modules: "; "Successful" +++ nl;
            " - Staging and committing file: "; "Successful" +++ nl;
            " - Pushing changes: "; "Successful" +++ nl;
            " - Creating PR: "; "Successful" +++ nl;
            " - PR URL: https://pr" +++ nl;
            " - Cleaning up repository tmp_repo:";
            "Skipped - Only supported for Windows OS" +++ nl]
           [GitClone "git@bitbucket.org:ws/repo.git" "tmp_repo";
            GitOpen "tmp_repo"; GitCreateHead "tmp_repo" "feature/x";
            GitSetHead "tmp_repo" "feature/x";
            FileRead "tmp_repo/main.tf";
            FileWrite "tmp_repo/main.tf" (encode "source = new//x");
            FileRead "tmp_repo/logo.png";
            FileWrite "tmp_repo/logo.png" [x89; x50; x00; xff];
            GitOpen "tmp_repo"; GitAdd "tmp_repo";
            GitCommit "tmp_repo" "Updating module references";
            GitOpen "tmp_repo"; GitPush "tmp_repo" "feature/x";
            Http (pr_request alice "Title" "Text" "feature/x" "https://api.bitbucket.org/2.0"
                    "ws" "repo");
            Sleep 5; Input "Press enter to continue"]).
Proof.
  exact (mutate_repository_pipeline accepting_server (calm_host sample_dirs sample_contents)
           no_container_str alice "https://api.bitbucket.org/2.0" "ws" "feature/x" "old" "new"
           "Updating module references" "Title" "Text" "repo" sample_contents sample_dirs
           empty_log _
           [("links", JObj [("html", JObj [("href", JStr "https://pr")])])]
           [("html", JObj [("href", JStr "https://pr")])] [("href", JStr "https://pr")]
           (JStr "https://pr")
           (fun _ _ => eq_refl) (fun _ _ => eq_refl) (fun _ => eq_refl) eq_refl
           (fun _ => eq_refl) eq_refl eq_refl eq_refl eq_refl eq_refl).
Defined.

Lemma skipped_of_prefix (repo_location root : string) :
  SearchReplace.skipped repo_location = true ->
  String.prefix repo_location root = true ->
  SearchReplace.skipped root = true.
Proof.
  unfold SearchReplace.skipped. rewrite !orb_true_iff, !contains_true, prefix_true.
  intros [(pre & post & H) | (pre & post & H)] [rest ->]; [left|right];
    exists pre, (post +++ rest); rewrite H, !string_append_assoc; reflexivity.
Qed.

Lemma skipped_dirs_untouched (hst : host) (search_str replace_str : string)
    (dirs : list (string * list string)) (l : log) :
  Forall (fun entry => SearchReplace.skipped (fst entry) = true) dirs ->
  for_each dirs (fun entry _ =>
      if SearchReplace.skipped (fst entry) then ret tt
      else for_each (snd entry)
             (SearchReplace.update_file hst (fst entry) search_str replace_str) tt) tt l =
    (Ok tt, l).
Proof.
  induction 1 as [|entry dirs Hskip _ IH]; [reflexivity|].
  cbn [for_each]. rewrite Hskip. unfold bind, ret at 1. exact IH.
Qed.

(** X23.  When the working directory's own path holds [.git] or
    [.terraform] (a repository named [site.github.io], cloned into
    [tmp_site.github.io], say), every directory [os.walk] yields is skipped:
    the edit step reads and writes no file at all and still reports
    success. *)
Theorem update_references_edits_nothing_under_skipped_root
    (hst : host) (repo_location search_str replace_str : string) (l : log) :
  SearchReplace.skipped repo_location = true ->
  (forall h, Forall (fun entry => String.prefix repo_location (fst entry) = true)
               (os_walk hst h repo_location)) ->
  SearchReplace.update_references hst repo_location search_str replace_str l =
    (Ok tt,
     mkLog (stdout l ++ [" - Updating references to the modules: "; "Successful" +++ nl])
           (trace l)).
Proof.
  intros Hskip Hroots.
  unfold SearchReplace.update_references, try_except, SearchReplace.update_references_try.
  unfold bind at 1. cbn [write_out]. unfold bind at 1. cbn [trace stdout].
  rewrite skipped_dirs_untouched.
  - cbn [stdout trace print write_out]. rewrite <- app_assoc. reflexivity.
  - eapply Forall_impl; [|exact (Hroots (trace l))].
    intros entry Hp. exact (skipped_of_prefix repo_location (fst entry) Hskip Hp).
Qed.

Lemma update_references_edits_nothing_under_skipped_root_witness :
  SearchReplace.update_references pages_host "tmp_site.github.io" "old" "new" empty_log =
    (Ok tt, mkLog [" - Updating references to the modules: "; "Successful" +++ nl] []).
Proof.
  refine (update_references_edits_nothing_under_skipped_root pages_host "tmp_site.github.io"
            "old" "new" empty_log eq_refl _).
  intros h. repeat constructor.
Defined.




(** X25.  A failed search is not an error of the script: when the first
    search request is answered with a status other than 200, the main block
    prints the status and ends normally; no repository is cloned and nothing
    else is requested. *)
Theorem search_replace_main_ends_quietly_on_failed_search
    (srv : server) (hst : host) (container_str : json -> string)
    (urlparse_path : string -> string) (fuel : nat) (credentials : BitbucketAuthentication)
    (l : log) (r : response) :
  let rq := search_request container_str credentials
              (JStr "https://api.bitbucket.org/2.0/workspaces/example-prod/search/code")
              (String "034" "1882 tf" +++ String "034" "") in
  srv (trace l) rq = inr r ->
  status_code r <> 200%Z ->
  SearchReplace.main srv hst container_str urlparse_path (S fuel) credentials l =
    (Ok tt,
     mkLog (stdout l ++ ["Failed to retrieve data. Status code: "
                           +++ str_int (status_code r) +++ nl])
           (trace l ++ [Http rq])).
Proof.
  intros rq Hsrv Hst.
  pose proof (search_loop_break srv container_str urlparse_path fuel credentials
                (JStr "https://api.bitbucket.org/2.0/workspaces/example-prod/search/code")
                (String "034" "1882 tf" +++ String "034" "") [] l r eq_refl Hsrv Hst)
    as Hloop.
  unfold SearchReplace.main, try_except, SearchReplace.search_and_update_code.
  unfold bind. cbv zeta.
  change ("https://api.bitbucket.org/2.0" +++ "/workspaces/" +++ "example-prod" +++ "/search/code")
    with "https://api.bitbucket.org/2.0/workspaces/example-prod/search/code".
  rewrite Hloop. reflexivity.
Qed.

Lemma search_replace_main_ends_quietly_on_failed_search_witness :
  SearchReplace.main (failing_server "down") (calm_host [] (fun _ => [])) no_container_str
    https_path 1 alice empty_log =
    (Ok tt,
     mkLog ["Failed to retrieve data. Status code: 500" +++ nl]
           [Http (search_request no_container_str alice
                    (JStr "https://api.bitbucket.org/2.0/workspaces/example-prod/search/code")
                    (String "034" "1882 tf" +++ String "034" ""))]).
Proof.
  refine (search_replace_main_ends_quietly_on_failed_search (failing_server "down")
            (calm_host [] (fun _ => [])) no_container_str https_path 0 alice empty_log _
            eq_refl _).
  cbn. discriminate.
Defined.

